(** * iCloud file manager: classification, verification and eviction

  A shallow embedding of [src/archive/program.py] (the classifier
  [get_icloud_file_status], the verifier [verify_eviction], the four
  eviction strategies, [prevent_auto_redownload] and the single-file
  orchestrator [remove_download_smart]) and of [src/main.py]
  ([is_icloud_file_evicted]), followed by the properties proved about
  them.

  The operating system is modelled as a finite map from paths to files.
  A file carries its reported size, its extended attributes and the
  bytes an [open]/[read] delivers, together with the faults the Python
  code guards against with [try]/[except].  External command line
  tools, the passing of time and the two [os.path] functions that
  depend on the process environment are fields of an environment
  record. *)

From Stdlib Require Import ZArith Lia Bool List String Ascii.
From stdpp Require Import base option list gmap strings.
Import ListNotations.

Local Open Scope Z_scope.

(** ** Python values *)

Module Py.

(** [bytes] objects. *)
Definition bytes : Type := list Byte.byte.

(** A [bytes] literal, [b "true"] for Python's [b'true']. *)
Definition b (s : string) : bytes := String.list_byte_of_string s.

(** The operating-system errors the program meets.  Python raises
    [FileNotFoundError] for [ENOENT], [PermissionError] for [EACCES]
    and a plain [OSError] ([IOError] is its alias) for the others; all
    of them are subclasses of [OSError] and of [Exception]. *)
Inductive OSError : Type :=
  | ENOENT
  | EACCES
  | EIO
  | ENOATTR.

(** Outcome of a call that may raise. *)
Inductive result (A : Type) : Type :=
  | Return (a : A)
  | Raise (e : OSError).
Arguments Return {A} a.
Arguments Raise {A} e.

(** [s.startswith(prefix)]. *)
Fixpoint startswith (s prefix : string) {struct prefix} : bool :=
  match prefix, s with
  | EmptyString, _ => true
  | String c prefix', String d s' =>
      if Ascii.eqb c d then startswith s' prefix' else false
  | String _ _, EmptyString => false
  end.

(** [sub in s] on [str]. *)
Fixpoint contains (s sub : string) : bool :=
  startswith s sub ||
  match s with
  | EmptyString => false
  | String _ s' => contains s' sub
  end.

(** [s.endswith(suffix)] for a one-character suffix. *)
Fixpoint endswith_char (s : string) (c : ascii) : bool :=
  match s with
  | EmptyString => false
  | String d EmptyString => Ascii.eqb d c
  | String _ s' => endswith_char s' c
  end.

(** [s[:i]] and [s[i:]] for [0 <= i]. *)
Fixpoint take (i : nat) (s : string) : string :=
  match i, s with
  | S i', String c s' => String c (take i' s')
  | _, _ => EmptyString
  end.

Fixpoint drop (i : nat) (s : string) : string :=
  match i, s with
  | S i', String _ s' => drop i' s'
  | _, _ => s
  end.

(** [s.rfind(c) + 1]: the position just after the last [c], 0 when
    [c] does not occur. *)
Fixpoint rfind_succ (c : ascii) (s : string) : nat :=
  match s with
  | EmptyString => 0
  | String d s' =>
      match rfind_succ c s' with
      | O => if Ascii.eqb d c then 1%nat else 0%nat
      | S k => S (S k)
      end
  end.

(** [s.rstrip(c)]. *)
Fixpoint rstrip (c : ascii) (s : string) : string :=
  match s with
  | EmptyString => EmptyString
  | String d s' =>
      match rstrip c s' with
      | EmptyString => if Ascii.eqb d c then EmptyString else String d EmptyString
      | t => String d t
      end
  end.

(** [s == c * len(s)]. *)
Fixpoint all_char (c : ascii) (s : string) : bool :=
  match s with
  | EmptyString => true
  | String d s' => Ascii.eqb d c && all_char c s'
  end.

(** Truth value of a [str]. *)
Definition nonempty (s : string) : bool :=
  match s with EmptyString => false | String _ _ => true end.

End Py.
Import Py.

#[global] Instance byte_eq_dec : EqDecision Byte.byte := Byte.byte_eq_dec.
#[global] Instance OSError_eq_dec : EqDecision OSError.
Proof. solve_decision. Defined.

(** ** [posixpath] *)

Module PosixPath.

Definition sep : ascii := "/"%char.

(** [os.path.basename]: [i = p.rfind('/') + 1; return p[i:]]. *)
Definition basename (p : string) : string :=
  drop (rfind_succ sep p) p.

(** [os.path.dirname]: the head up to the last slash, with trailing
    slashes stripped unless it consists of slashes only. *)
Definition dirname (p : string) : string :=
  let head := take (rfind_succ sep p) p in
  if nonempty head && negb (all_char sep head) then rstrip sep head else head.

(** [os.path.join(a, b)] for two components. *)
Definition join (a b : string) : string :=
  if startswith b "/" then b
  else if negb (nonempty a) || endswith_char a sep then a +:+ b
  else a +:+ "/" +:+ b.

End PosixPath.

(** ** The operating system *)

Module OS.

(** One file.  [f_xattrs] maps each extended attribute to what
    [getxattr] answers for it: its value, or the error raised when the
    value cannot be read.  [f_data] is what opening and reading the
    file delivers: the bytes resident on disk (fewer than [f_size] for
    a file whose content is not materialized), or the error raised. *)
Record File : Type := mkFile {
    f_size : Z;
    f_xattrs : gmap string (result bytes);
    f_listxattr_error : option OSError;
    f_xattr_locked : bool;
    f_data : result bytes
  }.

(** The file system: the paths that exist and what is stored at each.
    A folder is recorded like a file, with its size and its extended
    attributes. *)
Abbreviation FS := (gmap string File).

Definition os_path_exists (fs : FS) (p : string) : bool :=
  bool_decide (is_Some (fs !! p)).

Definition os_path_getsize (fs : FS) (p : string) : result Z :=
  match fs !! p with
  | None => Raise ENOENT
  | Some f => Return (f_size f)
  end.

Definition xattr_listxattr (fs : FS) (p : string) : result (list string) :=
  match fs !! p with
  | None => Raise ENOENT
  | Some f =>
      match f_listxattr_error f with
      | Some e => Raise e
      | None => Return (map fst (map_to_list (f_xattrs f)))
      end
  end.

Definition xattr_getxattr (fs : FS) (p attr : string) : result bytes :=
  match fs !! p with
  | None => Raise ENOENT
  | Some f =>
      match f_xattrs f !! attr with
      | None => Raise ENOATTR
      | Some v => v
      end
  end.

Definition with_xattrs (f : File) (xs : gmap string (result bytes)) : File :=
  mkFile (f_size f) xs (f_listxattr_error f) (f_xattr_locked f) (f_data f).

Definition xattr_setxattr (fs : FS) (p attr : string) (v : bytes) : result FS :=
  match fs !! p with
  | None => Raise ENOENT
  | Some f =>
      if f_xattr_locked f then Raise EACCES
      else Return (<[p := with_xattrs f (<[attr := Return v]> (f_xattrs f))]> fs)
  end.

Definition xattr_removexattr (fs : FS) (p attr : string) : result FS :=
  match fs !! p with
  | None => Raise ENOENT
  | Some f =>
      if f_xattr_locked f then Raise EACCES
      else match f_xattrs f !! attr with
           | None => Raise ENOATTR
           | Some _ => Return (<[p := with_xattrs f (delete attr (f_xattrs f))]> fs)
           end
  end.

(** [with open(p, 'rb') as f: f.read(n)]: at most [n] bytes. *)
Definition open_read (fs : FS) (p : string) (n : Z) : result bytes :=
  match fs !! p with
  | None => Raise ENOENT
  | Some f =>
      match f_data f with
      | Raise e => Raise e
      | Return data => Return (firstn (Z.to_nat n) data)
      end
  end.

(** External command line tools the program invokes with
    [subprocess.run]. *)
Inductive command : Type :=
  | brctl_download_policy_never (path : string)
  | brctl_evict (path : string)
  | osascript_remove_download (path : string)
  | which_evict
  | evict (path : string).

(** A finished process, or the [FileNotFoundError] that
    [subprocess.run] raises when the executable is missing. *)
Inductive process : Type :=
  | Completed (returncode : Z)
  | NotInstalled.

(** What lies outside the program: the two [os.path] functions that
    read the process environment, the command line tools, and what
    the cloud provider does to the file system while the program
    sleeps. *)
Record Env : Type := mkEnv {
    expanduser : string -> string;
    abspath : string -> string;
    subprocess_run : command -> FS -> process * FS;
    time_sleep : Z -> FS -> FS
  }.

End OS.
Import OS.

(** ** The classifier ([get_icloud_file_status]) *)

(** The [status] dictionary. *)
Record FileStatus : Type := mkStatus {
  is_icloud_file : bool;
  is_downloaded : bool;
  is_downloading : bool;
  is_placeholder : bool;
  file_size : Z;
  attributes : list string
  }.

Definition set_is_icloud_file (v : bool) (st : FileStatus) : FileStatus :=
  mkStatus v (is_downloaded st) (is_downloading st) (is_placeholder st)
           (file_size st) (attributes st).

Definition set_is_downloaded (v : bool) (st : FileStatus) : FileStatus :=
  mkStatus (is_icloud_file st) v (is_downloading st) (is_placeholder st)
           (file_size st) (attributes st).

Definition set_is_downloading (v : bool) (st : FileStatus) : FileStatus :=
  mkStatus (is_icloud_file st) (is_downloaded st) v (is_placeholder st)
           (file_size st) (attributes st).

Definition set_is_placeholder (v : bool) (st : FileStatus) : FileStatus :=
  mkStatus (is_icloud_file st) (is_downloaded st) (is_downloading st) v
           (file_size st) (attributes st).

Definition set_file_size (v : Z) (st : FileStatus) : FileStatus :=
  mkStatus (is_icloud_file st) (is_downloaded st) (is_downloading st)
           (is_placeholder st) v (attributes st).

Definition icloud_indicators : list string :=
  [ "com.apple.file-provider"; "com.apple.icloud";
    "com.apple.CloudDocs"; "com.apple.clouddocs" ].

Definition materialized_attrs : list string :=
  [ "com.apple.file-provider.materialized"; "com.apple.icloud.materialized" ].

Definition downloading_attrs : list string :=
  [ "com.apple.file-provider.downloading"; "com.apple.icloud.downloading" ].

Definition placeholder_indicators : list string :=
  [ "com.apple.icloud.placeholder"; "com.apple.file-provider.placeholder" ].

(** [attr in attrs] on a sequence of names. *)
Definition name_in (attr : string) (attrs : list string) : bool :=
  bool_decide (attr ∈ attrs).

(** [v in [b'..', ...]]. *)
Definition bytes_in (v : bytes) (vs : list bytes) : bool :=
  bool_decide (v ∈ vs).

(** The names that contain one of the indicators (the list
    [icloud_attrs]). *)
Definition icloud_attrs_of (attrs : list string) : list string :=
  List.filter
    (fun attr => existsb (fun indicator => contains attr indicator) icloud_indicators)
    attrs.

(** The loop over [materialized_attrs]: every path through the body of
    [if attr in attrs] ends in [break]. *)
Fixpoint scan_materialized (fs : FS) (file_path : string) (attrs : list string)
    (candidates : list string) (status : FileStatus) : FileStatus :=
  match candidates with
  | [] => status
  | attr :: rest =>
      if name_in attr attrs then
        match xattr_getxattr fs file_path attr with
        | Return attr_value =>
            if bytes_in attr_value [b "1"; b "true"; b "True"] then
              set_is_downloaded true status
            else if bytes_in attr_value [b "0"; b "false"; b "False"] then
              set_is_downloaded false status
            else
              match attr_value with
              | _ :: _ => set_is_downloaded true status
              | [] => set_is_downloaded false status
              end
        | Raise _ => set_is_downloaded false status
        end
      else scan_materialized fs file_path attrs rest status
  end.

(** The loop over [downloading_attrs]. *)
Fixpoint scan_downloading (attrs : list string) (candidates : list string)
    (status : FileStatus) : FileStatus :=
  match candidates with
  | [] => status
  | attr :: rest =>
      if name_in attr attrs then set_is_downloading true status
      else scan_downloading attrs rest status
  end.

(** The loop over [placeholder_indicators]. *)
Fixpoint scan_placeholder (attrs : list string) (candidates : list string)
    (status : FileStatus) : FileStatus :=
  match candidates with
  | [] => status
  | indicator :: rest =>
      if name_in indicator attrs then
        set_is_downloaded false (set_is_placeholder true status)
      else scan_placeholder attrs rest status
  end.

(** The block under [if status['is_icloud_file']:] that infers the
    placeholder flag. *)
Definition infer_placeholder (attrs : list string) (status : FileStatus) : FileStatus :=
  if is_icloud_file status then
    let status := scan_placeholder attrs placeholder_indicators status in
    if negb (is_placeholder status) && negb (is_downloaded status) then
      set_is_placeholder true status
    else status
  else status.

Definition mark_placeholder (status : FileStatus) : FileStatus :=
  set_is_downloaded false (set_is_placeholder true status).

(** The content check: read the beginning of the file and override
    the flags when the outcome contradicts them. *)
Definition probe_content (fs : FS) (file_path : string) (status : FileStatus) : FileStatus :=
  if is_icloud_file status && (1024 <? file_size status) then
    match open_read fs file_path (Z.min 2048 (file_size status)) with
    | Return test_bytes =>
        let len := Z.of_nat (length test_bytes) in
        if (len =? 0) && (0 <? file_size status) then
          mark_placeholder status
        else if Z.min 1024 (file_size status) <=? len then
          if negb (is_downloaded status) then
            set_is_placeholder false (set_is_downloaded true status)
          else status
        else if (10000 <? file_size status) && (len <? 1000) then
          mark_placeholder status
        else status
    | Raise _ =>
        if 10000 <? file_size status then mark_placeholder status else status
    end
  else status.

(** The dictionary [status] as first built, with the size filled in
    when [os.path.getsize] succeeds. *)
Definition initial_status (fs : FS) (file_path : string) (attrs : list string)
    : FileStatus :=
  let status := mkStatus false false false false 0 attrs in
  match os_path_getsize fs file_path with
  | Return n => set_file_size n status
  | Raise _ => status
  end.

Section Classifier.

Context (env : Env).

Definition icloud_drive_path : string :=
  expanduser env "~/Library/Mobile Documents/com~apple~CloudDocs".

(** Sets [is_icloud_file] from the attribute names and the location. *)
Definition detect_icloud (file_path : string) (attrs : list string)
    (status : FileStatus) : FileStatus :=
  match icloud_attrs_of attrs with
  | _ :: _ => set_is_icloud_file true status
  | [] =>
      if startswith file_path icloud_drive_path then set_is_icloud_file true status
      else set_is_icloud_file false status
  end.

(** The flags after the steps that look at attributes only, before the
    content check. *)
Definition attribute_steps (fs : FS) (file_path : string) (attrs : list string)
    (status : FileStatus) : FileStatus :=
  let status := scan_materialized fs file_path attrs materialized_attrs status in
  let status := scan_downloading attrs downloading_attrs status in
  infer_placeholder attrs status.

(** [get_icloud_file_status].  The body runs under
    [try: ... except Exception: return None]; the only call in it that
    is not guarded by an inner handler is [xattr.listxattr]. *)
Definition get_icloud_file_status (fs : FS) (file_path : string)
    : result (option FileStatus) :=
  match xattr_listxattr fs file_path with
  | Raise _ => Return None
  | Return attrs =>
      let status := initial_status fs file_path attrs in
      let status := detect_icloud file_path attrs status in
      if negb (is_icloud_file status) then Return (Some status)
      else
        let status := attribute_steps fs file_path attrs status in
        let status := probe_content fs file_path status in
        Return (Some status)
  end.

End Classifier.

(** ** Double precision arithmetic of [original_size * 0.1]

    Python evaluates [current_size < original_size * 0.1] by converting
    the integer [original_size] to a double (correctly rounded, with
    [OverflowError] beyond the range of doubles), multiplying by the
    double nearest to one tenth under round-to-nearest-even, and
    comparing the integer [current_size] with the product exactly.  The
    values that occur are zero or of magnitude at least one tenth, so
    subnormal numbers play no part. *)

Module Float.

(** A finite double, of value [mant * 2 ^ expo] with [|mant| <= 2 ^ 53]. *)
Record float : Type := mkFloat { mant : Z; expo : Z }.

(** Rounds the positive real [x * 2 ^ e] to 53 significant bits, to
    nearest, ties to even. *)
Definition round_pos (x e : Z) : float :=
  let bits := Z.log2 x + 1 in
  if bits <=? 53 then mkFloat x e
  else
    let s := bits - 53 in
    let q := x / 2 ^ s in
    let r := x mod 2 ^ s in
    let half := 2 ^ (s - 1) in
    let q' := if (half <? r) || ((r =? half) && Z.odd q) then q + 1 else q in
    mkFloat q' (e + s).

Definition round (x e : Z) : float :=
  match x with
  | Z0 => mkFloat 0 0
  | Zpos _ => round_pos x e
  | Zneg _ => let f := round_pos (- x) e in mkFloat (- mant f) (expo f)
  end.

(** [float(n)]; [None] stands for [OverflowError]. *)
Definition of_int (n : Z) : option float :=
  let f := round n 0 in
  if 2 ^ 1024 <=? Z.abs (mant f) * 2 ^ expo f then None else Some f.

(** The literal [0.1], [0x1.999999999999ap-4]. *)
Definition tenth : float := mkFloat 3602879701896397 (-55).

(** The product of two doubles, for results in the normal range. *)
Definition mul (x y : float) : float :=
  round (mant x * mant y) (expo x + expo y).

(** [n < f] for an [int] and a [float]: Python compares the exact
    values. *)
Definition int_lt (n : Z) (f : float) : bool :=
  if 0 <=? expo f then n <? mant f * 2 ^ expo f
  else n * 2 ^ (- expo f) <? mant f.

End Float.

(** [current_size < original_size * 0.1]; [None] when the conversion
    of [original_size] raises [OverflowError]. *)
Definition lt_tenth_of (current_size original_size : Z) : option bool :=
  match Float.of_int original_size with
  | None => None
  | Some f => Some (Float.int_lt current_size (Float.mul f Float.tenth))
  end.

(** ** Effects: the file system and a trace of what the orchestrator did *)

Inductive method : Type :=
  | Brctl
  | AppleScript
  | Xattr
  | Evict.

(** What [remove_download_smart] tells the user about the outcome. *)
Inductive report : Type :=
  | FileNotFound
  | NotAnICloudFile
  | AlreadyEvicted
  | EvictedUsing (method_name : method)
  | AppearsEvicted
  | CouldNotConfirm.

(** The observable steps of an eviction, in the order they happen: a
    strategy returned [ok]; [prevent_auto_redownload] was applied; the
    program slept; [verify_eviction] returned [is_evicted]; the
    orchestrator printed the line that tells the outcome. *)
Inductive event : Type :=
  | EvStrategy (method_name : method) (ok : bool)
  | EvPolicy
  | EvSleep (seconds : Z)
  | EvVerify (is_evicted : bool)
  | EvReport (r : report).

(** A computation reads and changes the file system and appends to the
    trace. *)
Definition M (A : Type) : Type := FS -> A * FS * list event.

Definition ret {A : Type} (a : A) : M A := fun fs => (a, fs, []).

Definition bind {A B : Type} (m : M A) (k : A -> M B) : M B :=
  fun fs =>
    let '(a, fs1, t1) := m fs in
    let '(r, fs2, t2) := k a fs1 in
    (r, fs2, t1 ++ t2).

Declare Scope eff_scope.
Delimit Scope eff_scope with eff.
Notation "x <- m ;; k" := (bind m (fun x => k))
  (at level 100, m at next level, right associativity) : eff_scope.
Notation "m ;;; k" := (bind m (fun _ => k))
  (at level 100, right associativity) : eff_scope.
Local Open Scope eff_scope.

Definition value_of {A : Type} (r : A * FS * list event) : A := fst (fst r).
Definition fs_of {A : Type} (r : A * FS * list event) : FS := snd (fst r).
Definition trace_of {A : Type} (r : A * FS * list event) : list event := snd r.

Definition look {A : Type} (f : FS -> A) : M A := fun fs => (f fs, fs, []).

Definition emit (e : event) : M unit := fun fs => (tt, fs, [e]).

(** An attribute write whose [OSError] the caller catches: [true] when
    the write went through. *)
Definition try_setxattr (p attr : string) (v : bytes) : M bool :=
  fun fs =>
    match xattr_setxattr fs p attr v with
    | Return fs' => (true, fs', [])
    | Raise _ => (false, fs, [])
    end.

Definition try_removexattr (p attr : string) : M bool :=
  fun fs =>
    match xattr_removexattr fs p attr with
    | Return fs' => (true, fs', [])
    | Raise _ => (false, fs, [])
    end.

(** The reason string [verify_eviction] returns next to its verdict. *)
Inductive reason : Type :=
  | CouldNotGetStatus
  | NowPlaceholder (current_size : Z)
  | NoLongerDownloaded
  | SizeReduced (original_size current_size : Z)
  | MaterializedRemoved
  | PoliciesDetected (policy_values : list (string * bytes))
  | StillDownloaded (current_size : Z)
  | ErrorVerifying.

Definition policy_attrs : list string :=
  [ "com.apple.file-provider.download-policy";
    "com.apple.clouddocs.download-policy";
    "com.apple.file-provider.auto-download";
    "com.apple.clouddocs.auto-download";
    "com.apple.file-provider.evicted" ].

(** The attribute writes of the [xattr] strategy. *)
Definition eviction_attempts : list (string * bytes) :=
  [ ("com.apple.file-provider.download-policy", b "never");
    ("com.apple.file-provider.download-policy", b "0");
    ("com.apple.clouddocs.download-policy", b "never");
    ("com.apple.clouddocs.download-policy", b "0");
    ("com.apple.file-provider.auto-download", b "0");
    ("com.apple.file-provider.auto-download", b "false");
    ("com.apple.clouddocs.auto-download", b "0");
    ("com.apple.clouddocs.auto-download", b "false");
    ("com.apple.file-provider.evicted", b "1");
    ("com.apple.file-provider.evicted", b "true") ].

(** The attribute writes of [prevent_auto_redownload]. *)
Definition policy_attributes : list (string * bytes) :=
  eviction_attempts ++
  [ ("com.apple.file-provider.materialized", b "0");
    ("com.apple.file-provider.materialized", b "false");
    ("com.apple.file-provider.placeholder", b "1");
    ("com.apple.file-provider.placeholder", b "true") ].

(** Truth value of [original_size]: [None] and [0] are false. *)
Definition truthy (original_size : option Z) : bool :=
  match original_size with
  | Some n => negb (n =? 0)
  | None => false
  end.

(** [for (name, value) in writes: try: setxattr ... except OSError:
    continue], counting the writes that went through. *)
Fixpoint set_all (p : string) (writes : list (string * bytes)) : M Z :=
  match writes with
  | [] => ret 0
  | (attr_name, attr_value) :: rest =>
      ok <- try_setxattr p attr_name attr_value ;;
      n <- set_all p rest ;;
      ret (if ok then n + 1 else n)
  end.

(** [policy_values]: the readable values of the policy attributes
    that are present. *)
Fixpoint read_policy_values (fs : FS) (file_path : string) (attrs : list string)
    (candidates : list string) : list (string * bytes) :=
  match candidates with
  | [] => []
  | attr :: rest =>
      let tail := read_policy_values fs file_path attrs rest in
      if name_in attr attrs then
        match xattr_getxattr fs file_path attr with
        | Return value => (attr, value) :: tail
        | Raise _ => tail
        end
      else tail
  end.

Section Eviction.

Context (env : Env).

Definition run (c : command) : M process :=
  fun fs => let '(p, fs') := subprocess_run env c fs in (p, fs', []).

Definition sleep (seconds : Z) : M unit :=
  fun fs => (tt, time_sleep env seconds fs, [EvSleep seconds]).

(** [verify_eviction].  Everything runs under
    [try: ... except Exception], which turns an exception into a
    negative verdict. *)
Definition verify_eviction (file_path : string) (original_size : option Z)
    : M (bool * reason) :=
  sleep 2 ;;;
  st <- look (fun fs => get_icloud_file_status env fs file_path) ;;
  match st with
  | Raise _ => ret (false, ErrorVerifying)
  | Return None => ret (false, CouldNotGetStatus)
  | Return (Some status) =>
      let current_size := file_size status in
      if is_placeholder status then ret (true, NowPlaceholder current_size)
      else if negb (is_downloaded status) then ret (true, NoLongerDownloaded)
      else
        let reduced :=
          if truthy original_size
          then lt_tenth_of current_size (default 0 original_size)
          else Some false in
        match reduced with
        | None => ret (false, ErrorVerifying)
        | Some true =>
            ret (true, SizeReduced (default 0 original_size) current_size)
        | Some false =>
            let attrs := attributes status in
            let has_materialized :=
              existsb (fun attr => name_in attr attrs) materialized_attrs in
            if negb has_materialized then ret (true, MaterializedRemoved)
            else
              let has_policy :=
                existsb (fun attr => name_in attr attrs) policy_attrs in
              if truthy original_size
                 && bool_decide (Some current_size = original_size)
                 && has_policy
              then
                policy_values <-
                  look (fun fs => read_policy_values fs file_path attrs policy_attrs) ;;
                ret (true, PoliciesDetected policy_values)
              else ret (false, StillDownloaded current_size)
        end
  end.

(** [remove_download_brctl]. *)
Definition remove_download_brctl (file_path : string) : M bool :=
  let abs_path := abspath env file_path in
  found <- look (fun fs => os_path_exists fs abs_path) ;;
  if negb found then ret false
  else
    policy_result <- run (brctl_download_policy_never abs_path) ;;
    match policy_result with
    | NotInstalled => ret false
    | Completed _ =>
        result <- run (brctl_evict abs_path) ;;
        match result with
        | NotInstalled => ret false
        | Completed returncode =>
            if returncode =? 0 then
              run (brctl_download_policy_never abs_path) ;;; ret true
            else ret false
        end
    end.

(** [remove_download_applescript]. *)
Definition remove_download_applescript (file_path : string) : M bool :=
  let abs_path := abspath env file_path in
  found <- look (fun fs => os_path_exists fs abs_path) ;;
  if negb found then ret false
  else
    result <- run (osascript_remove_download abs_path) ;;
    match result with
    | Completed returncode => ret (returncode =? 0)
    | NotInstalled => ret false
    end.

(** [remove_download_xattr]. *)
Definition remove_download_xattr (file_path : string) : M bool :=
  let abs_path := abspath env file_path in
  found <- look (fun fs => os_path_exists fs abs_path) ;;
  if negb found then ret false
  else
    initial_size <- look (fun fs => os_path_getsize fs abs_path) ;;
    match initial_size with
    | Raise _ => ret false
    | Return _ =>
        try_removexattr abs_path "com.apple.file-provider.materialized" ;;;
        set_all abs_path eviction_attempts ;;;
        (ok <- try_setxattr abs_path "com.apple.file-provider.materialized" (b "0") ;;
         if ok then
           try_setxattr abs_path "com.apple.file-provider.materialized" (b "false")
         else ret false) ;;;
        (ok <- try_setxattr abs_path "com.apple.file-provider.placeholder" (b "1") ;;
         if ok then
           try_setxattr abs_path "com.apple.file-provider.placeholder" (b "true")
         else ret false) ;;;
        ret true
    end.

(** [remove_download_evict]. *)
Definition remove_download_evict (file_path : string) : M bool :=
  let abs_path := abspath env file_path in
  found <- look (fun fs => os_path_exists fs abs_path) ;;
  if negb found then ret false
  else
    available <- run which_evict ;;
    match available with
    | NotInstalled => ret false
    | Completed code =>
        if code =? 0 then
          result <- run (evict abs_path) ;;
          match result with
          | Completed returncode => ret (returncode =? 0)
          | NotInstalled => ret false
          end
        else ret false
    end.

(** [prevent_auto_redownload]. *)
Definition prevent_auto_redownload (file_path : string) : M bool :=
  let abs_path := abspath env file_path in
  found <- look (fun fs => os_path_exists fs abs_path) ;;
  if negb found then ret false
  else
    success_count <- set_all abs_path policy_attributes ;;
    run (brctl_download_policy_never abs_path) ;;;
    ret (0 <? success_count).

(** [check_eviction_after_delay] with the default delay of 5 seconds. *)
Definition check_eviction_after_delay (file_path : string) (original_size : Z)
    : M bool :=
  sleep 5 ;;;
  v <- verify_eviction file_path (Some original_size) ;;
  emit (EvVerify (fst v)) ;;;
  ret (fst v).

(** The list [methods], in the order the orchestrator tries them. *)
Definition methods : list (method * (string -> M bool)) :=
  [ (Brctl, remove_download_brctl);
    (AppleScript, remove_download_applescript);
    (Xattr, remove_download_xattr);
    (Evict, remove_download_evict) ].

(** The loop [for method_name, method_func in methods].  The result is
    [true] when the loop body executed [return True]. *)
Fixpoint try_methods (abs_path : string) (initial_size : Z)
    (ms : list (method * (string -> M bool))) : M bool :=
  match ms with
  | [] => ret false
  | (method_name, method_func) :: rest =>
      ok <- method_func abs_path ;;
      emit (EvStrategy method_name ok) ;;;
      if ok then
        prevent_auto_redownload abs_path ;;;
        emit EvPolicy ;;;
        v <- verify_eviction abs_path (Some initial_size) ;;
        emit (EvVerify (fst v)) ;;;
        if fst v then
          emit (EvReport (EvictedUsing method_name)) ;;;
          prevent_auto_redownload abs_path ;;;
          emit EvPolicy ;;;
          ret true
        else try_methods abs_path initial_size rest
      else try_methods abs_path initial_size rest
  end.

(** What follows the loop in [remove_download_smart]: the delayed
    verification, the final status check and the last policy write. *)
Definition after_methods (abs_path : string) (initial_size : Z) : M (result bool) :=
  delayed <- check_eviction_after_delay abs_path initial_size ;;
  if delayed then ret (Return true)
  else
    final_status <- look (fun fs => get_icloud_file_status env fs abs_path) ;;
    match final_status with
    | Raise e => ret (Raise e)
    | Return final_status =>
        let accepted :=
          match final_status with
          | Some st => negb (is_downloaded st) || is_placeholder st
          | None => false
          end in
        if accepted then
          emit (EvReport AppearsEvicted) ;;;
          prevent_auto_redownload abs_path ;;;
          emit EvPolicy ;;;
          ret (Return true)
        else
          prevent_auto_redownload abs_path ;;;
          emit EvPolicy ;;;
          emit (EvReport CouldNotConfirm) ;;;
          ret (Return false)
    end.

(** [remove_download_smart].  It has no handler of its own, so an
    exception of [get_icloud_file_status] would leave it too. *)
Definition remove_download_smart (file_path : string) : M (result bool) :=
  let abs_path := abspath env file_path in
  found <- look (fun fs => os_path_exists fs abs_path) ;;
  if negb found then emit (EvReport FileNotFound) ;;; ret (Return false)
  else
    initial_status <- look (fun fs => get_icloud_file_status env fs abs_path) ;;
    match initial_status with
    | Raise e => ret (Raise e)
    | Return None => emit (EvReport NotAnICloudFile) ;;; ret (Return false)
    | Return (Some st) =>
        if negb (is_icloud_file st) then
          emit (EvReport NotAnICloudFile) ;;; ret (Return false)
        else if negb (is_downloaded st) then
          emit (EvReport AlreadyEvicted) ;;; ret (Return true)
        else
          let initial_size := file_size st in
          done <- try_methods abs_path initial_size methods ;;
          if done then ret (Return true)
          else after_methods abs_path initial_size
    end.

End Eviction.

(** ** [src/main.py] *)

(** [os.stat(p).st_size]. *)
Definition os_stat_size (fs : FS) (p : string) : result Z :=
  os_path_getsize fs p.

(** The name of the sidecar file of [filepath]:
    [os.path.join(dir_name, f".{base_name}.icloud")]. *)
Definition icloud_sidecar (filepath : string) : string :=
  let base_name := PosixPath.basename filepath in
  let dir_name := PosixPath.dirname filepath in
  let icloud_name := "." +:+ base_name +:+ ".icloud" in
  PosixPath.join dir_name icloud_name.

(** [is_icloud_file_evicted]. *)
Definition is_icloud_file_evicted (fs : FS) (filepath : string) : result bool :=
  if negb (os_path_exists fs filepath) then
    Return (os_path_exists fs (icloud_sidecar filepath))
  else
    match os_stat_size fs filepath with
    | Return st_size => Return (st_size =? 0)
    | Raise e => Raise e
    end.

(** ** Concrete environments and file systems used in the examples *)

(** A machine whose home directory is [/Users/u], on which none of the
    command line tools is installed and nothing happens to the files
    while the program sleeps. *)
Definition ex_env : Env :=
  mkEnv (fun s => "/Users/u" +:+ drop 1 s) (fun s => s)
        (fun _ fs => (NotInstalled, fs)) (fun _ fs => fs).

Definition ex_file (size : Z) (xs : list (string * result bytes))
    (data : result bytes) : File :=
  mkFile size (list_to_map xs) None false data.

Definition ex_local_path : string := "/Users/u/Documents/notes.txt".

Definition ex_cloud_path : string :=
  "/Users/u/Library/Mobile Documents/com~apple~CloudDocs/song.mp3".

(** A local file of 50,000 bytes without extended attributes. *)
Definition ex_fs_local : FS :=
  {[ ex_local_path := ex_file 50000 [] (Return (repeat Byte.x00 (Z.to_nat 50000))) ]}.

(** A materialized cloud file of 200,000 bytes. *)
Definition ex_fs_downloaded : FS :=
  {[ ex_cloud_path :=
       ex_file 200000
         [("com.apple.file-provider.materialized", Return (b "1"))]
         (Return (repeat Byte.x00 (Z.to_nat 200000))) ]}.

(** The same file evicted: the attribute says 0 and no content can be
    read. *)
Definition ex_fs_evicted : FS :=
  {[ ex_cloud_path :=
       ex_file 200000
         [("com.apple.file-provider.materialized", Return (b "0"))]
         (Return []) ]}.

(** A small materialized cloud file, below the size of the content
    check. *)
Definition ex_fs_small : FS :=
  {[ ex_cloud_path :=
       ex_file 500
         [("com.apple.file-provider.materialized", Return (b "1"))]
         (Return (repeat Byte.x00 500)) ]}.

(** An empty materialized cloud file that carries a download policy. *)
Definition ex_fs_empty_with_policy : FS :=
  {[ ex_cloud_path :=
       ex_file 0
         [("com.apple.file-provider.materialized", Return (b "1"));
          ("com.apple.file-provider.download-policy", Return (b "never"))]
         (Return []) ]}.

(** Only the sidecar of an evicted file is left. *)
Definition ex_fs_sidecar : FS :=
  {[ "/Users/u/Library/Mobile Documents/com~apple~CloudDocs/.song.mp3.icloud" :=
       ex_file 160 [] (Return (repeat Byte.x00 160)) ]}.

(** A file whose extended attributes cannot be listed. *)
Definition ex_fs_unlistable : FS :=
  {[ ex_cloud_path :=
       mkFile 200000 ∅ (Some EACCES) false (Return (repeat Byte.x00 (Z.to_nat 200000))) ]}.

(** A materialized cloud file of 2,000 bytes whose extended attributes
    cannot be written. *)
Definition ex_fs_locked : FS :=
  {[ ex_cloud_path :=
       mkFile 2000
         (list_to_map
            [("com.apple.file-provider.materialized", Return (b "1"))])
         None true (Return (repeat Byte.x00 (Z.to_nat 2000))) ]}.

(** A small file that carries both a materialized attribute set to
    [b'1'] and a placeholder attribute. *)
Definition ex_fs_marked : FS :=
  {[ ex_cloud_path :=
       ex_file 500
         [("com.apple.file-provider.materialized", Return (b "1"));
          ("com.apple.file-provider.placeholder", Return (b "1"))]
         (Return (repeat Byte.x00 500)) ]}.

(** A small file under the cloud-drive root without any extended
    attribute. *)
Definition ex_fs_bare : FS :=
  {[ ex_cloud_path := ex_file 500 [] (Return (repeat Byte.x00 500)) ]}.

(** A materialized cloud file of 2,000 bytes whose content can be
    read and whose attributes can be written. *)
Definition ex_fs_readable : FS :=
  {[ ex_cloud_path :=
       ex_file 2000
         [("com.apple.file-provider.materialized", Return (b "1"))]
         (Return (repeat Byte.x00 (Z.to_nat 2000))) ]}.

(** A file of 2,000 bytes without extended attributes in a folder that
    lies beside the cloud-drive folder and whose name only begins like
    the name of that folder. *)
Definition ex_sibling_path : string :=
  "/Users/u/Library/Mobile Documents/com~apple~CloudDocsBackup/x.bin".

Definition ex_fs_sibling : FS :=
  {[ ex_sibling_path :=
       ex_file 2000 [] (Return (repeat Byte.x00 (Z.to_nat 2000))) ]}.

(** A folder below the cloud-drive folder that carries a materialized
    attribute, as a directory listing yields it. *)
Definition ex_folder_path : string :=
  "/Users/u/Library/Mobile Documents/com~apple~CloudDocs/Albums".

Definition ex_fs_folder : FS :=
  {[ ex_folder_path :=
       ex_file 96
         [("com.apple.file-provider.materialized", Return (b "1"))]
         (Raise EACCES) ]}.

(** ** Vocabulary for paths *)

(** The path [p] lies in the folder [root] or in a folder below it. *)
Definition in_folder (root p : string) : Prop :=
  exists rest, p = root +:+ "/" +:+ rest.

(** ** Vocabulary for the steps of the classifier *)

(** The fields that the steps after detection leave alone. *)
Definition same_frame (st st' : FileStatus) : Prop :=
  is_icloud_file st' = is_icloud_file st /\
  file_size st' = file_size st /\
  attributes st' = attributes st.

(** ** Vocabulary for traces *)

(** What has to come directly after a strategy that returned [ok]:
    after a success the policy write, the settle delay and the verdict
    of the verifier; after a failure the next strategy or, when the
    list is exhausted, the delay of the delayed verification. *)
Definition follows_strategy (ok : bool) (post : list event) : Prop :=
  if ok then
    exists v rest, post = EvPolicy :: EvSleep 2 :: EvVerify v :: rest
  else
    exists e rest,
      post = e :: rest /\ (e = EvSleep 5 \/ exists m ok', e = EvStrategy m ok').

(** Every strategy event of the trace is followed as prescribed. *)
Definition strategy_protocol (t : list event) : Prop :=
  forall pre m ok post, t = pre ++ EvStrategy m ok :: post -> follows_strategy ok post.

(** No strategy was invoked. *)
Definition no_strategy (t : list event) : Prop :=
  forall m ok, EvStrategy m ok ∉ t.

(** ** Further functions of [program.py] *)

Section Folders.

Context (env : Env).

(** A directory listing yields folders as well as files, and a folder
    is a path of the file system with a size and extended attributes
    of its own.  [is_file fs file_path] is what [file_path.is_file()]
    answers in the file system [fs]. *)
Context (is_file : FS -> string -> bool).

(** [is_icloud_file_downloaded]: the downloaded flag of the status, and
    false when there is no status or an exception is raised. *)
Definition is_icloud_file_downloaded (fs : FS) (file_path : string) : bool :=
  match get_icloud_file_status env fs file_path with
  | Return (Some status) => is_downloaded status
  | Return None => false
  | Raise _ => false
  end.

(** The loop of [remove_downloads_from_folder] over the paths that
    [folder.glob(pattern)] yields. *)
Fixpoint remove_downloads_from_entries (entries : list string) : M unit :=
  match entries with
  | [] => ret tt
  | file_path :: rest =>
      regular <- look (fun fs => is_file fs file_path) ;;
      (if regular then
         downloaded <- look (fun fs => is_icloud_file_downloaded fs file_path) ;;
         if downloaded then remove_download_evict env file_path ;;; ret tt
         else ret tt
       else ret tt) ;;;
      remove_downloads_from_entries rest
  end.

(** [remove_downloads_from_folder].  [glob] is what the directory
    listing answers: [None] when the folder does not exist, otherwise
    the paths matching the pattern. *)
Definition remove_downloads_from_folder (glob : option (list string)) : M unit :=
  match glob with
  | None => ret tt
  | Some entries => remove_downloads_from_entries entries
  end.

(** The loop of [batch_remove_downloads]; [results] is the list built
    so far, each entry a [{'file': ..., 'success': ...}] dictionary. *)
Fixpoint batch_loop (file_paths : list string) (results : list (string * bool))
    : M (result (list (string * bool))) :=
  match file_paths with
  | [] => ret (Return results)
  | file_path :: rest =>
      success <- remove_download_smart env file_path ;;
      match success with
      | Raise e => ret (Raise e)
      | Return success => batch_loop rest (results ++ [(file_path, success)])
      end
  end.

(** [batch_remove_downloads]. *)
Definition batch_remove_downloads (file_paths : list string)
    : M (result (list (string * bool))) :=
  batch_loop file_paths [].

(** The loop of [find_downloaded_icloud_files] over the paths that
    [search_dir.rglob('*')] yields; [downloaded_files] is the list
    built so far.  The function only reads the file system and has no
    handler of its own, so an error of the classifier would leave
    it. *)
Fixpoint find_downloaded_loop (fs : FS) (candidates : list string)
    (downloaded_files : list string) : result (list string) :=
  match candidates with
  | [] => Return downloaded_files
  | file_path :: rest =>
      if is_file fs file_path then
        match get_icloud_file_status env fs file_path with
        | Raise e => Raise e
        | Return (Some status) =>
            if is_icloud_file status then
              if is_downloaded status
              then find_downloaded_loop fs rest (downloaded_files ++ [file_path])
              else find_downloaded_loop fs rest downloaded_files
            else find_downloaded_loop fs rest downloaded_files
        | Return None => find_downloaded_loop fs rest downloaded_files
        end
      else find_downloaded_loop fs rest downloaded_files
  end.

(** [find_downloaded_icloud_files].  [rglob] is what the directory
    listing answers: [None] when the search path does not exist,
    otherwise every path below it. *)
Definition find_downloaded_icloud_files (fs : FS) (rglob : option (list string))
    : result (list string) :=
  match rglob with
  | None => Return []
  | Some candidates => find_downloaded_loop fs candidates []
  end.

End Folders.

(** ** Further functions of [main.py] *)

Definition music_extensions : list string :=
  [ ".mp3"; ".m4a"; ".flac"; ".wav"; ".aac"; ".ogg"; ".wma" ].

(** [c.lower()] for one character of an ASCII name. *)
Definition lower_char (c : ascii) : ascii :=
  let n := nat_of_ascii c in
  if (65 <=? n)%nat && (n <=? 90)%nat then ascii_of_nat (n + 32) else c.

(** [s.lower()] on ASCII names. *)
Fixpoint lower (s : string) : string :=
  match s with
  | EmptyString => EmptyString
  | String c s' => String (lower_char c) (lower s')
  end.

(** [s.endswith(suffix)]. *)
Fixpoint endswith (s suffix : string) : bool :=
  String.eqb s suffix ||
  match s with
  | EmptyString => false
  | String _ s' => endswith s' suffix
  end.

(** [any(file.lower().endswith(ext) for ext in music_extensions)]. *)
Definition has_music_extension (file : string) : bool :=
  existsb (fun ext => endswith (lower file) ext) music_extensions.

Section Music.

Context (env : Env).

(** [evict_icloud_file]: [subprocess.run] with [check=False] ignores
    the exit status, but a missing [brctl] raises [FileNotFoundError],
    which nothing catches. *)
Definition evict_icloud_file (filepath : string) : M (result unit) :=
  finished <- run env (brctl_evict filepath) ;;
  match finished with
  | Completed _ => ret (Return tt)
  | NotInstalled => ret (Raise ENOENT)
  end.

(** The inner loop [for file in files] of
    [find_and_evict_music_files]. *)
Fixpoint evict_music_in (root : string) (files : list string) : M (result unit) :=
  match files with
  | [] => ret (Return tt)
  | file :: rest =>
      if has_music_extension file then
        let filepath := PosixPath.join root file in
        evicted <- look (fun fs => is_icloud_file_evicted fs filepath) ;;
        match evicted with
        | Raise e => ret (Raise e)
        | Return true => evict_music_in root rest
        | Return false =>
            r <- evict_icloud_file filepath ;;
            match r with
            | Raise e => ret (Raise e)
            | Return _ => evict_music_in root rest
            end
        end
      else evict_music_in root rest
  end.

(** [find_and_evict_music_files] over what [os.walk(root_path)]
    yields: for every directory its path and the names of its
    files. *)
Fixpoint find_and_evict_music_files (walk : list (string * list string))
    : M (result unit) :=
  match walk with
  | [] => ret (Return tt)
  | (root, files) :: rest =>
      r <- evict_music_in root files ;;
      match r with
      | Raise e => ret (Raise e)
      | Return _ => find_and_evict_music_files rest
      end
  end.

End Music.

(** ** Vocabulary for attribute writes *)

(** The attribute map after a list of successful writes, the last
    write to a name winning. *)
Definition apply_writes (writes : list (string * bytes))
    (xs : gmap string (result bytes)) : gmap string (result bytes) :=
  foldl (fun m w => <[w.1 := Return w.2]> m) xs writes.

(** The value last written to [attr] by [writes], if any. *)
Fixpoint last_write (writes : list (string * bytes)) (attr : string) : option bytes :=
  match writes with
  | [] => None
  | (name, value) :: rest =>
      match last_write rest attr with
      | Some v => Some v
      | None => if String.eqb name attr then Some value else None
      end
  end.

(** [fs'] differs from [fs] at most in the extended attributes of the
    file at [p]: no file appears or disappears, and sizes, contents
    and permissions stay as they were. *)
Definition only_xattrs_of (p : string) (fs fs' : FS) : Prop :=
  forall q,
    match fs !! q, fs' !! q with
    | Some f, Some f' =>
        f_size f' = f_size f /\
        f_data f' = f_data f /\
        f_listxattr_error f' = f_listxattr_error f /\
        f_xattr_locked f' = f_xattr_locked f /\
        (q <> p -> f_xattrs f' = f_xattrs f)
    | None, None => True
    | _, _ => False
    end.

(** ** Vocabulary for the traces of the strategy loop *)

(** The strategies invoked, in order. *)
Definition strategy_names (t : list event) : list method :=
  omap (fun e => match e with EvStrategy m _ => Some m | _ => None end) t.

(** The seconds slept. *)
Definition total_sleep (t : list event) : Z :=
  foldr (fun e acc => match e with EvSleep s => s + acc | _ => acc end) 0 t.

(** The traces the loop over the strategies [ms] can leave, with the
    flag telling whether the loop returned from within. *)
Inductive loop_trace : list method -> bool -> list event -> Prop :=
| loop_exhausted : loop_trace [] false []
| loop_failed m ms returned t :
    loop_trace ms returned t ->
    loop_trace (m :: ms) returned (EvStrategy m false :: t)
| loop_unconfirmed m ms returned t :
    loop_trace ms returned t ->
    loop_trace (m :: ms) returned
      (EvStrategy m true :: EvPolicy :: EvSleep 2 :: EvVerify false :: t)
| loop_confirmed m ms :
    loop_trace (m :: ms) true
      [ EvStrategy m true; EvPolicy; EvSleep 2; EvVerify true;
        EvReport (EvictedUsing m); EvPolicy ].

(** * Properties *)

(** ** Strings *)



(** ** The classifier, step by step *)

Lemma name_in_spec (attr : string) (attrs : list string) :
  name_in attr attrs = true <-> attr ∈ attrs.
Proof. unfold name_in. apply bool_decide_eq_true. Qed.

Lemma name_in_false (attr : string) (attrs : list string) :
  name_in attr attrs = false <-> attr ∉ attrs.
Proof. unfold name_in. apply bool_decide_eq_false. Qed.

Lemma bytes_in_spec (v : bytes) (vs : list bytes) :
  bytes_in v vs = true <-> v ∈ vs.
Proof. unfold bytes_in. apply bool_decide_eq_true. Qed.

Lemma bytes_in_false (v : bytes) (vs : list bytes) :
  bytes_in v vs = false <-> v ∉ vs.
Proof. unfold bytes_in. apply bool_decide_eq_false. Qed.

Lemma same_frame_refl (st : FileStatus) : same_frame st st.
Proof. repeat split. Qed.

Lemma same_frame_trans (a c d : FileStatus) :
  same_frame a c -> same_frame c d -> same_frame a d.
Proof.
  unfold same_frame. intros (H1 & H2 & H3) (H4 & H5 & H6).
  repeat split; congruence.
Qed.

Lemma scan_materialized_frame fs p attrs cs st :
  same_frame st (scan_materialized fs p attrs cs st) /\
  is_placeholder (scan_materialized fs p attrs cs st) = is_placeholder st /\
  is_downloading (scan_materialized fs p attrs cs st) = is_downloading st.
Proof.
  unfold same_frame.
  induction cs as [|attr rest IH]; simpl; [tauto|].
  destruct (name_in attr attrs); [|exact IH].
  destruct (xattr_getxattr fs p attr) as [v|e]; [|simpl; tauto].
  destruct (bytes_in v _); [simpl; tauto|].
  destruct (bytes_in v _); [simpl; tauto|].
  destruct v; simpl; tauto.
Qed.

Lemma scan_downloading_frame attrs cs st :
  same_frame st (scan_downloading attrs cs st) /\
  is_placeholder (scan_downloading attrs cs st) = is_placeholder st /\
  is_downloaded (scan_downloading attrs cs st) = is_downloaded st.
Proof.
  unfold same_frame.
  induction cs as [|attr rest IH]; simpl; [tauto|].
  destruct (name_in attr attrs); [simpl; tauto | exact IH].
Qed.

(** The placeholder loop either finds an indicator and forces the two
    flags, or changes nothing. *)
Lemma scan_placeholder_cases attrs cs st :
  same_frame st (scan_placeholder attrs cs st) /\
  ((exists i, i ∈ cs /\ i ∈ attrs) /\
   is_placeholder (scan_placeholder attrs cs st) = true /\
   is_downloaded (scan_placeholder attrs cs st) = false
   \/
   (forall i, i ∈ cs -> i ∉ attrs) /\ scan_placeholder attrs cs st = st).
Proof.
  unfold same_frame.
  induction cs as [|i rest IH]; simpl.
  - split; [tauto|]. right. split; [|reflexivity].
    intros i Hi. inversion Hi.
  - destruct (name_in i attrs) eqn:Hin.
    + simpl. split; [tauto|]. left. apply name_in_spec in Hin.
      split; [|tauto]. exists i. split; [left | exact Hin].
    + destruct IH as [Hf [[[j [Hj Hja]] Hflags] | [Hnone Heq]]].
      * split; [exact Hf|]. left. split; [|exact Hflags].
        exists j. split; [right; exact Hj | exact Hja].
      * split; [exact Hf|]. right. split; [|exact Heq].
        intros j Hj. apply elem_of_cons in Hj as [->|Hj].
        -- now apply name_in_false.
        -- now apply Hnone.
Qed.

Lemma infer_placeholder_frame attrs st :
  same_frame st (infer_placeholder attrs st).
Proof.
  unfold infer_placeholder.
  destruct (is_icloud_file st); [|apply same_frame_refl].
  destruct (scan_placeholder_cases attrs placeholder_indicators st) as [Hf _].
  destruct (negb _ && negb _); [|exact Hf].
  eapply same_frame_trans; [exact Hf|]. repeat split.
Qed.

(** After the attribute steps exactly one of the two flags is set. *)
Lemma infer_placeholder_xor attrs st :
  is_icloud_file st = true ->
  is_placeholder st = false ->
  xorb (is_downloaded (infer_placeholder attrs st))
       (is_placeholder (infer_placeholder attrs st)) = true.
Proof.
  intros Hc Hp. unfold infer_placeholder. rewrite Hc.
  destruct (scan_placeholder_cases attrs placeholder_indicators st)
    as [_ [[_ [H1 H2]] | [_ Heq]]].
  - rewrite H1, H2. cbn [negb andb]. rewrite H1, H2. reflexivity.
  - rewrite Heq, Hp. destruct (is_downloaded st) eqn:Hd; cbn [negb andb]; simpl.
    + rewrite Hd, Hp. reflexivity.
    + rewrite Hd. reflexivity.
Qed.

Lemma attribute_steps_frame fs p attrs st :
  same_frame st (attribute_steps fs p attrs st).
Proof.
  unfold attribute_steps.
  eapply same_frame_trans; [apply scan_materialized_frame|].
  eapply same_frame_trans; [apply scan_downloading_frame|].
  apply infer_placeholder_frame.
Qed.

Lemma attribute_steps_xor fs p attrs st :
  is_icloud_file st = true ->
  is_placeholder st = false ->
  xorb (is_downloaded (attribute_steps fs p attrs st))
       (is_placeholder (attribute_steps fs p attrs st)) = true.
Proof.
  intros Hc Hp. unfold attribute_steps. apply infer_placeholder_xor.
  - destruct (scan_downloading_frame attrs downloading_attrs
                (scan_materialized fs p attrs materialized_attrs st))
      as [(H1 & _) _].
    destruct (scan_materialized_frame fs p attrs materialized_attrs st)
      as [(H2 & _) _].
    congruence.
  - destruct (scan_downloading_frame attrs downloading_attrs
                (scan_materialized fs p attrs materialized_attrs st))
      as [_ [H1 _]].
    destruct (scan_materialized_frame fs p attrs materialized_attrs st)
      as [_ [H2 _]].
    congruence.
Qed.

Lemma probe_content_frame fs p st : same_frame st (probe_content fs p st).
Proof.
  unfold probe_content, mark_placeholder, same_frame.
  repeat (match goal with
          | |- context [if ?c then _ else _] => destruct c
          | |- context [match ?c with Return _ => _ | Raise _ => _ end] => destruct c
          end; simpl); tauto.
Qed.

(** The content check keeps the two flags exclusive. *)
Lemma probe_content_xor fs p st :
  xorb (is_downloaded st) (is_placeholder st) = true ->
  xorb (is_downloaded (probe_content fs p st))
       (is_placeholder (probe_content fs p st)) = true.
Proof.
  intros Hx. unfold probe_content, mark_placeholder.
  repeat (match goal with
          | |- context [if ?c then _ else _] => destruct c eqn:?
          | |- context [match ?c with Return _ => _ | Raise _ => _ end] => destruct c
          end; simpl); try exact Hx; reflexivity.
Qed.

Lemma initial_status_fields fs p attrs :
  is_icloud_file (initial_status fs p attrs) = false /\
  is_downloaded (initial_status fs p attrs) = false /\
  is_placeholder (initial_status fs p attrs) = false /\
  attributes (initial_status fs p attrs) = attrs.
Proof.
  unfold initial_status. destruct (os_path_getsize fs p); simpl; tauto.
Qed.

Lemma detect_icloud_fields env p attrs st :
  is_downloaded (detect_icloud env p attrs st) = is_downloaded st /\
  is_placeholder (detect_icloud env p attrs st) = is_placeholder st /\
  file_size (detect_icloud env p attrs st) = file_size st /\
  attributes (detect_icloud env p attrs st) = attributes st.
Proof.
  unfold detect_icloud.
  destruct (icloud_attrs_of attrs); [destruct (startswith _ _)|]; simpl; tauto.
Qed.

Lemma icloud_attrs_of_nil (attrs : list string) :
  icloud_attrs_of attrs = [] <->
  forall attr indicator,
    attr ∈ attrs -> indicator ∈ icloud_indicators ->
    contains attr indicator = false.
Proof.
  unfold icloud_attrs_of. induction attrs as [|a attrs IH]; cbn [List.filter].
  - split; [|reflexivity]. intros _ attr indicator H. inversion H.
  - destruct (existsb (fun indicator => contains a indicator) icloud_indicators) eqn:He.
    + split; [intros H; discriminate H|]. intros H. exfalso.
      apply existsb_exists in He as [i [Hi Hc]].
      rewrite (H a i) in Hc; [discriminate | left | now apply list_elem_of_In].
    + rewrite IH. split.
      * intros H attr indicator Ha Hi.
        apply elem_of_cons in Ha as [->|Ha]; [|now apply H].
        destruct (contains a indicator) eqn:Hc; [|reflexivity].
        assert (existsb (fun i => contains a i) icloud_indicators = true) as Hex.
        { apply existsb_exists. exists indicator.
          split; [now apply list_elem_of_In | exact Hc]. }
        congruence.
      * intros H attr indicator Ha Hi. apply H; [now right | exact Hi].
Qed.

(** [is_icloud_file] after detection, in terms of the two tests the
    code makes. *)
Lemma detect_icloud_true env p attrs st :
  is_icloud_file (detect_icloud env p attrs st) = true <->
  (exists attr indicator,
      attr ∈ attrs /\ indicator ∈ icloud_indicators /\
      contains attr indicator = true)
  \/ startswith p (icloud_drive_path env) = true.
Proof.
  unfold detect_icloud.
  destruct (icloud_attrs_of attrs) as [|a l] eqn:Hf.
  - pose proof (proj1 (icloud_attrs_of_nil attrs) Hf) as Hnone.
    destruct (startswith p (icloud_drive_path env)); simpl.
    + split; [now right | reflexivity].
    + split; [discriminate|].
      intros [[attr [i (Ha & Hi & Hc)]] | H]; [|discriminate].
      rewrite (Hnone attr i Ha Hi) in Hc. discriminate.
  - simpl. split; [|reflexivity]. intros _. left.
    assert (In a (icloud_attrs_of attrs)) as Hin by (rewrite Hf; now left).
    unfold icloud_attrs_of in Hin. apply filter_In in Hin as [Ha He].
    apply existsb_exists in He as [i [Hi Hc]].
    exists a, i. repeat split; [now apply list_elem_of_In .. | exact Hc].
Qed.

(** The classifier unfolded, once the attribute names have been
    read. *)
Lemma get_icloud_file_status_eq env fs p attrs :
  xattr_listxattr fs p = Return attrs ->
  get_icloud_file_status env fs p =
  Return (Some
    (let s0 := detect_icloud env p attrs (initial_status fs p attrs) in
     if is_icloud_file s0
     then probe_content fs p (attribute_steps fs p attrs s0)
     else s0)).
Proof.
  intros H. unfold get_icloud_file_status. rewrite H. simpl.
  destruct (is_icloud_file (detect_icloud env p attrs _)); reflexivity.
Qed.

Lemma get_icloud_file_status_inv env fs p st :
  get_icloud_file_status env fs p = Return (Some st) ->
  exists attrs,
    xattr_listxattr fs p = Return attrs /\
    st = (let s0 := detect_icloud env p attrs (initial_status fs p attrs) in
          if is_icloud_file s0
          then probe_content fs p (attribute_steps fs p attrs s0)
          else s0).
Proof.
  intros H. destruct (xattr_listxattr fs p) as [attrs|e] eqn:Hl.
  - exists attrs. split; [reflexivity|].
    rewrite (get_icloud_file_status_eq env fs p attrs Hl) in H.
    now inversion H.
  - unfold get_icloud_file_status in H. rewrite Hl in H. discriminate.
Qed.

(** The fields of the returned status that do not depend on the
    inference of the download state. *)
Lemma get_icloud_file_status_frame env fs p attrs st :
  xattr_listxattr fs p = Return attrs ->
  get_icloud_file_status env fs p = Return (Some st) ->
  attributes st = attrs /\
  is_icloud_file st =
    is_icloud_file (detect_icloud env p attrs (initial_status fs p attrs)) /\
  file_size st = file_size (initial_status fs p attrs).
Proof.
  intros Hl H. rewrite (get_icloud_file_status_eq env fs p attrs Hl) in H.
  inversion H as [Hst]; clear H. cbv zeta.
  set (s0 := detect_icloud env p attrs (initial_status fs p attrs)).
  destruct (detect_icloud_fields env p attrs (initial_status fs p attrs))
    as (_ & _ & Hsz & Hat).
  destruct (initial_status_fields fs p attrs) as (_ & _ & _ & Hat0).
  fold s0 in Hsz, Hat.
  destruct (is_icloud_file s0) eqn:Hc.
  - destruct (attribute_steps_frame fs p attrs s0) as (A1 & A2 & A3).
    destruct (probe_content_frame fs p (attribute_steps fs p attrs s0))
      as (B1 & B2 & B3).
    repeat split; congruence.
  - repeat split; congruence.
Qed.

Lemma listxattr_exists fs p attrs :
  xattr_listxattr fs p = Return attrs -> os_path_exists fs p = true.
Proof.
  unfold xattr_listxattr, os_path_exists. intros H.
  destruct (fs !! p) eqn:Hf; [|discriminate].
  apply bool_decide_eq_true. eauto.
Qed.

Lemma missing_listxattr fs p :
  os_path_exists fs p = false -> xattr_listxattr fs p = Raise ENOENT.
Proof.
  unfold xattr_listxattr, os_path_exists. intros H.
  apply bool_decide_eq_false in H.
  destruct (fs !! p) eqn:Hf; [|reflexivity].
  exfalso. apply H. eauto.
Qed.

(** ** The orchestrator's early returns *)

(** Unfolds the plumbing of a computation. *)
Ltac step_eff := unfold bind, look, emit, ret; cbv beta zeta iota.

Lemma remove_download_smart_not_cloud env file_path fs st :
  get_icloud_file_status env fs (abspath env file_path) = Return (Some st) ->
  is_icloud_file st = false ->
  remove_download_smart env file_path fs
  = (Return false, fs, [EvReport NotAnICloudFile]).
Proof.
  intros Hget Hc.
  destruct (get_icloud_file_status_inv _ _ _ _ Hget) as [attrs [Hl _]].
  apply listxattr_exists in Hl.
  unfold remove_download_smart. step_eff.
  rewrite Hl. cbn [negb]. rewrite Hget, Hc. reflexivity.
Qed.

Lemma remove_download_smart_already_evicted env file_path fs st :
  os_path_exists fs (abspath env file_path) = true ->
  get_icloud_file_status env fs (abspath env file_path) = Return (Some st) ->
  is_icloud_file st = true ->
  is_downloaded st = false ->
  remove_download_smart env file_path fs
  = (Return true, fs, [EvReport AlreadyEvicted]).
Proof.
  intros Hex Hget Hc Hd.
  unfold remove_download_smart. step_eff.
  rewrite Hex. cbn [negb]. rewrite Hget, Hc. cbn [negb]. rewrite Hd. reflexivity.
Qed.

Lemma remove_download_smart_missing env file_path fs :
  os_path_exists fs (abspath env file_path) = false ->
  remove_download_smart env file_path fs
  = (Return false, fs, [EvReport FileNotFound]).
Proof.
  intros Hex. unfold remove_download_smart. step_eff.
  rewrite Hex. reflexivity.
Qed.

Lemma remove_download_smart_no_status env file_path fs :
  os_path_exists fs (abspath env file_path) = true ->
  get_icloud_file_status env fs (abspath env file_path) = Return None ->
  remove_download_smart env file_path fs
  = (Return false, fs, [EvReport NotAnICloudFile]).
Proof.
  intros Hex Hget. unfold remove_download_smart. step_eff.
  rewrite Hex. cbn [negb]. rewrite Hget. reflexivity.
Qed.

(** ** Claims about the classifier *)

(** C1.  The test for the cloud-drive folder is a test on the
    characters of the path, [file_path.startswith(icloud_drive_path)],
    without the separator that ends the name of the folder.  A file
    without any extended attribute in the folder
    [com~apple~CloudDocsBackup], which lies beside the cloud-drive
    folder and not in it, is therefore classified as a downloaded cloud
    file, and [remove_download_smart] invokes its strategies on it: on
    a machine without the command line tools the attribute strategy
    writes the eviction attributes on this local file and the run ends
    with the report of a successful eviction. *)
Theorem sibling_of_cloud_folder_is_evicted :
  xattr_listxattr ex_fs_sibling ex_sibling_path = Return [] /\
  ~ in_folder (icloud_drive_path ex_env) ex_sibling_path /\
  get_icloud_file_status ex_env ex_fs_sibling ex_sibling_path
  = Return (Some (mkStatus true true false false 2000 [])) /\
  value_of (remove_download_smart ex_env ex_sibling_path ex_fs_sibling)
  = Return true /\
  trace_of (remove_download_smart ex_env ex_sibling_path ex_fs_sibling)
  = [ EvStrategy Brctl false; EvStrategy AppleScript false;
      EvStrategy Xattr true; EvPolicy; EvSleep 2; EvVerify true;
      EvReport (EvictedUsing Xattr); EvPolicy ] /\
  xattr_getxattr
    (fs_of (remove_download_smart ex_env ex_sibling_path ex_fs_sibling))
    ex_sibling_path "com.apple.file-provider.evicted"
  = Return (b "true").
Proof.
  split; [vm_compute; reflexivity|].
  split.
  - intros [rest Hrest]. vm_compute in Hrest. discriminate Hrest.
  - repeat split; vm_compute; reflexivity.
Qed.

(** C2. A status with [is_icloud_file] set has exactly one of
    [is_downloaded] and [is_placeholder] set. *)
Theorem cloud_file_downloaded_xor_placeholder env fs p st :
  get_icloud_file_status env fs p = Return (Some st) ->
  is_icloud_file st = true ->
  (is_downloaded st = true /\ is_placeholder st = false) \/
  (is_downloaded st = false /\ is_placeholder st = true).
Proof.
  intros Hget Hc.
  destruct (get_icloud_file_status_inv _ _ _ _ Hget) as [attrs [Hl Hst]].
  destruct (get_icloud_file_status_frame _ _ _ _ _ Hl Hget) as (_ & Hc' & _).
  rewrite Hc in Hc'. cbv zeta in Hst. rewrite <- Hc' in Hst.
  assert (xorb (is_downloaded st) (is_placeholder st) = true) as Hx.
  { subst st. apply probe_content_xor, attribute_steps_xor; [congruence|].
    destruct (detect_icloud_fields env p attrs (initial_status fs p attrs))
      as (_ & Hp & _).
    destruct (initial_status_fields fs p attrs) as (_ & _ & Hp0 & _).
    congruence. }
  destruct (is_downloaded st), (is_placeholder st); try discriminate; tauto.
Qed.

Lemma cloud_file_downloaded_xor_placeholder_witness :
  exists st,
    get_icloud_file_status ex_env ex_fs_downloaded ex_cloud_path = Return (Some st) /\
    is_downloaded st = true /\ is_placeholder st = false.
Proof.
  eexists. split; [vm_compute; reflexivity|].
  destruct (cloud_file_downloaded_xor_placeholder ex_env ex_fs_downloaded
              ex_cloud_path _ ltac:(vm_compute; reflexivity) eq_refl)
    as [H | [H _]]; [exact H | discriminate H].
Defined.



(** The materialized loop stops at the first candidate that is
    present and looks at nothing else. *)
Lemma scan_materialized_first fs p attrs skipped attr rest st0 :
  (forall a, a ∈ skipped -> a ∉ attrs) ->
  attr ∈ attrs ->
  scan_materialized fs p attrs (skipped ++ attr :: rest) st0 =
  match xattr_getxattr fs p attr with
  | Return attr_value =>
      if bytes_in attr_value [b "1"; b "true"; b "True"] then
        set_is_downloaded true st0
      else if bytes_in attr_value [b "0"; b "false"; b "False"] then
        set_is_downloaded false st0
      else
        match attr_value with
        | _ :: _ => set_is_downloaded true st0
        | [] => set_is_downloaded false st0
        end
  | Raise _ => set_is_downloaded false st0
  end.
Proof.
  intros Hskip Hin. induction skipped as [|a skipped IH]; cbn [app scan_materialized].
  - apply name_in_spec in Hin. rewrite Hin. reflexivity.
  - assert (name_in a attrs = false) as Ha
      by (apply name_in_false, Hskip; left).
    rewrite Ha. apply IH. intros a' Ha'. apply Hskip. now right.
Qed.

(** Without a placeholder indicator the attribute steps keep the
    verdict of the materialized loop. *)
Lemma attribute_steps_downloaded fs p attrs st :
  (forall i, i ∈ placeholder_indicators -> i ∉ attrs) ->
  is_downloaded (attribute_steps fs p attrs st) =
  is_downloaded (scan_materialized fs p attrs materialized_attrs st).
Proof.
  intros Hnone. unfold attribute_steps, infer_placeholder.
  set (s1 := scan_materialized fs p attrs materialized_attrs st).
  set (s2 := scan_downloading attrs downloading_attrs s1).
  assert (is_downloaded s2 = is_downloaded s1) as H12
    by apply scan_downloading_frame.
  destruct (is_icloud_file s2); [|exact H12].
  destruct (scan_placeholder_cases attrs placeholder_indicators s2)
    as [_ [[[i [Hi Hia]] _] | [_ Heq]]].
  - exfalso. exact (Hnone i Hi Hia).
  - rewrite Heq. destruct (negb _ && negb _); exact H12.
Qed.

Lemma probe_content_small fs p st :
  file_size st <= 1024 -> probe_content fs p st = st.
Proof.
  intros H. unfold probe_content.
  assert ((1024 <? file_size st) = false) as -> by (apply Z.ltb_ge; exact H).
  now rewrite andb_false_r.
Qed.

Lemma truthy_not_falsy (v : bytes) :
  v ∈ [b "1"; b "true"; b "True"] -> v ∈ [b "0"; b "false"; b "False"] -> False.
Proof.
  rewrite !elem_of_cons, !elem_of_nil.
  intros [->|[->|[->|[]]]] [H|[H|[H|[]]]]; discriminate H.
Qed.

Lemma truthy_falsy_nonempty (v : bytes) :
  v ∈ [b "1"; b "true"; b "True"] \/ v ∈ [b "0"; b "false"; b "False"] ->
  v <> [].
Proof.
  rewrite !elem_of_cons, !elem_of_nil.
  intros [[->|[->|[->|[]]]] | [->|[->|[->|[]]]]]; discriminate.
Qed.

(** C4. For a cloud file, [is_downloaded] is decided by the first
    name of [materialized_attrs] that the file carries, and by that
    one only: a value among [b'1'], [b'true'], [b'True'] gives true, a
    value among [b'0'], [b'false'], [b'False'] gives false, any other
    non-empty value gives true, and an empty or unreadable value gives
    false.  The returned status carries that verdict whenever no
    placeholder indicator is present and the file is too small for the
    content check. *)
Theorem materialized_attribute_decides_downloaded env fs p st skipped attr rest :
  get_icloud_file_status env fs p = Return (Some st) ->
  is_icloud_file st = true ->
  materialized_attrs = skipped ++ attr :: rest ->
  (forall a, a ∈ skipped -> a ∉ attributes st) ->
  attr ∈ attributes st ->
  exists decided : bool,
    (forall st0,
        is_downloaded
          (scan_materialized fs p (attributes st) materialized_attrs st0)
        = decided) /\
    match xattr_getxattr fs p attr with
    | Return v =>
        (v ∈ [b "1"; b "true"; b "True"] -> decided = true) /\
        (v ∈ [b "0"; b "false"; b "False"] -> decided = false) /\
        (v ∉ [b "1"; b "true"; b "True"] ->
         v ∉ [b "0"; b "false"; b "False"] ->
         v <> [] -> decided = true) /\
        (v = [] -> decided = false)
    | Raise _ => decided = false
    end /\
    ((forall i, i ∈ placeholder_indicators -> i ∉ attributes st) ->
     file_size st <= 1024 ->
     is_downloaded st = decided).
Proof.
  intros Hget Hc Hsplit Hskip Hin.
  destruct (get_icloud_file_status_inv _ _ _ _ Hget) as [attrs [Hl Hst]].
  destruct (get_icloud_file_status_frame _ _ _ _ _ Hl Hget) as (Ha & Hc' & Hsz).
  rewrite Ha in *. rewrite Hc in Hc'. cbv zeta in Hst. rewrite <- Hc' in Hst.
  set (s0 := detect_icloud env p attrs (initial_status fs p attrs)) in *.
  exists (is_downloaded (scan_materialized fs p attrs materialized_attrs s0)).
  assert (forall st0,
             is_downloaded (scan_materialized fs p attrs materialized_attrs st0)
             = is_downloaded (scan_materialized fs p attrs materialized_attrs s0))
    as Hindep.
  { intros st0. rewrite Hsplit.
    rewrite !(scan_materialized_first fs p attrs skipped attr rest) by assumption.
    destruct (xattr_getxattr fs p attr) as [v|e]; [|reflexivity].
    destruct (bytes_in v _); [reflexivity|].
    destruct (bytes_in v _); [reflexivity|].
    destruct v; reflexivity. }
  split; [exact Hindep|]. split.
  - rewrite Hsplit.
    rewrite (scan_materialized_first fs p attrs skipped attr rest) by assumption.
    destruct (xattr_getxattr fs p attr) as [v|e]; [|reflexivity].
    destruct (bytes_in v [b "1"; b "true"; b "True"]) eqn:Ht.
    { apply bytes_in_spec in Ht.
      repeat split; intros; try reflexivity; try contradiction; exfalso.
      - eapply truthy_not_falsy; eassumption.
      - subst v. apply (truthy_falsy_nonempty []); [now left | reflexivity]. }
    apply bytes_in_false in Ht.
    destruct (bytes_in v [b "0"; b "false"; b "False"]) eqn:Hf.
    { apply bytes_in_spec in Hf.
      repeat split; intros; try reflexivity; try contradiction. }
    apply bytes_in_false in Hf.
    destruct v as [|x v]; simpl;
      repeat split; intros; try reflexivity; try contradiction; congruence.
  - intros Hnone Hsmall. subst st.
    rewrite probe_content_small.
    + now apply attribute_steps_downloaded.
    + destruct (probe_content_frame fs p (attribute_steps fs p attrs s0))
        as (_ & B2 & _).
      rewrite <- B2. exact Hsmall.
Qed.

Lemma materialized_attribute_decides_downloaded_witness :
  exists st,
    get_icloud_file_status ex_env ex_fs_small ex_cloud_path = Return (Some st) /\
    is_downloaded st = true.
Proof.
  eexists. split; [vm_compute; reflexivity|].
  destruct (materialized_attribute_decides_downloaded ex_env ex_fs_small
              ex_cloud_path _ [] "com.apple.file-provider.materialized"
              ["com.apple.icloud.materialized"]
              ltac:(vm_compute; reflexivity) eq_refl eq_refl)
    as [decided (_ & Hv & Hfinal)].
  - intros a Ha. inversion Ha.
  - left.
  - rewrite Hfinal.
    + assert (xattr_getxattr ex_fs_small ex_cloud_path
                "com.apple.file-provider.materialized" = Return (b "1")) as Hx
        by (vm_compute; reflexivity).
      rewrite Hx in Hv. destruct Hv as [Htrue _]. apply Htrue. left.
    + intros i Hi Hin. vm_compute in Hi, Hin.
      apply list_elem_of_singleton in Hin. subst i.
      apply elem_of_cons in Hi as [Hi|Hi]; [discriminate Hi|].
      apply list_elem_of_singleton in Hi. discriminate Hi.
    + vm_compute. discriminate.
Defined.

Lemma open_read_length fs p n data :
  open_read fs p n = Return data -> 0 <= n -> Z.of_nat (length data) <= n.
Proof.
  unfold open_read. intros H Hn.
  destruct (fs !! p) as [f|]; [|discriminate].
  destruct (f_data f) as [bytes_on_disk|e]; [|discriminate].
  inversion H; subst data. rewrite length_firstn. lia.
Qed.

(** The content check, case by case. *)
Lemma probe_content_cases fs p st :
  is_icloud_file st = true ->
  1024 < file_size st ->
  match open_read fs p (Z.min 2048 (file_size st)) with
  | Return test_bytes =>
      let len := Z.of_nat (length test_bytes) in
      (len = 0 -> probe_content fs p st = mark_placeholder st) /\
      (Z.min 1024 (file_size st) <= len ->
       probe_content fs p st =
       if is_downloaded st then st
       else set_is_placeholder false (set_is_downloaded true st)) /\
      (0 < len < Z.min 1024 (file_size st) ->
       probe_content fs p st =
       if (10000 <? file_size st) && (len <? 1000)
       then mark_placeholder st else st)
  | Raise _ =>
      probe_content fs p st =
      if 10000 <? file_size st then mark_placeholder st else st
  end.
Proof.
  intros Hc Hsize. unfold probe_content. rewrite Hc.
  assert ((1024 <? file_size st) = true) as -> by (apply Z.ltb_lt; exact Hsize).
  cbn [andb].
  destruct (open_read fs p (Z.min 2048 (file_size st))) as [test_bytes|e];
    [|reflexivity].
  cbv zeta.
  assert ((0 <? file_size st) = true) as -> by (apply Z.ltb_lt; lia).
  rewrite andb_true_r.
  destruct (Z.eqb_spec (Z.of_nat (length test_bytes)) 0) as [H0|H0];
    destruct (Z.leb_spec (Z.min 1024 (file_size st))
                (Z.of_nat (length test_bytes))) as [H1|H1];
    repeat split; intros; try lia; try reflexivity.
  destruct (is_downloaded st); reflexivity.
Qed.

(** C5. The content check touches only cloud files larger than 1024
    bytes and reads at most [min(2048, size)] bytes.  Reading nothing
    forces placeholder; reading at least [min(1024, size)] bytes forces
    downloaded; reading fewer than 1000 bytes of a file larger than
    10000 bytes forces placeholder; a failed read of a file larger than
    10000 bytes forces placeholder; in every other case the status is
    the one the attribute steps produced. *)
Theorem content_probe_override env fs p attrs st :
  xattr_listxattr fs p = Return attrs ->
  get_icloud_file_status env fs p = Return (Some st) ->
  let detected := detect_icloud env p attrs (initial_status fs p attrs) in
  let before := attribute_steps fs p attrs detected in
  let size := file_size st in
  (is_icloud_file st = false -> st = detected) /\
  (is_icloud_file st = true ->
   (size <= 1024 -> st = before) /\
   (1024 < size ->
    match open_read fs p (Z.min 2048 size) with
    | Return test_bytes =>
        let len := Z.of_nat (length test_bytes) in
        len <= Z.min 2048 size /\
        (len = 0 -> is_placeholder st = true /\ is_downloaded st = false) /\
        (Z.min 1024 size <= len ->
         is_downloaded st = true /\ is_placeholder st = false) /\
        (len < 1000 -> 10000 < size ->
         is_placeholder st = true /\ is_downloaded st = false) /\
        (0 < len < Z.min 1024 size -> ~ (len < 1000 /\ 10000 < size) ->
         st = before)
    | Raise _ =>
        (10000 < size -> is_placeholder st = true /\ is_downloaded st = false) /\
        (size <= 10000 -> st = before)
    end)).
Proof.
  intros Hl Hget detected before size.
  destruct (get_icloud_file_status_frame _ _ _ _ _ Hl Hget) as (Ha & Hc & Hsz).
  pose proof Hget as Hst.
  rewrite (get_icloud_file_status_eq env fs p attrs Hl) in Hst.
  injection Hst as Hst'. cbv zeta in Hst'.
  fold detected in Hst', Hc. fold before in Hst'.
  split.
  - intros Hn. rewrite Hc in Hn. rewrite Hn in Hst'. now symmetry.
  - intros Hy. rewrite Hc in Hy. rewrite Hy in Hst'.
    destruct (attribute_steps_frame fs p attrs detected) as (F1 & F2 & F3).
    fold before in F1, F2, F3.
    destruct (probe_content_frame fs p before) as (_ & G2 & _).
    rewrite Hst' in G2. fold size in G2.
    assert (is_icloud_file before = true) as Hcb by congruence.
    assert (xorb (is_downloaded before) (is_placeholder before) = true) as Hx.
    { apply attribute_steps_xor; [exact Hy|].
      destruct (detect_icloud_fields env p attrs (initial_status fs p attrs))
        as (_ & Hp & _).
      destruct (initial_status_fields fs p attrs) as (_ & _ & Hp0 & _).
      unfold detected. congruence. }
    split.
    + intros Hsmall. rewrite <- Hst'. apply probe_content_small. lia.
    + intros Hbig.
      pose proof (probe_content_cases fs p before Hcb ltac:(lia)) as Hcases.
      rewrite <- G2 in Hcases.
      destruct (open_read fs p (Z.min 2048 size)) as [test_bytes|e] eqn:Hread.
      * cbv zeta in Hcases. destruct Hcases as (K0 & K1 & K2).
        pose proof (open_read_length _ _ _ _ Hread ltac:(lia)) as Hlen.
        cbv zeta. split; [exact Hlen|].
        split; [|split; [|split]].
        -- intros H0. rewrite <- Hst', (K0 H0). split; reflexivity.
        -- intros H1. rewrite <- Hst', (K1 H1).
           destruct (is_downloaded before) eqn:Hd.
           ++ split; [exact Hd|]. simpl in Hx.
              now apply negb_true_iff in Hx.
           ++ split; reflexivity.
        -- intros Hshort Hlarge.
           destruct (Z.eq_dec (Z.of_nat (length test_bytes)) 0) as [H0|H0].
           ++ rewrite <- Hst', (K0 H0). split; reflexivity.
           ++ rewrite <- Hst', K2 by lia.
              assert ((10000 <? size) = true) as -> by (apply Z.ltb_lt; lia).
              assert ((Z.of_nat (length test_bytes) <? 1000) = true) as ->
                by (apply Z.ltb_lt; lia).
              split; reflexivity.
        -- intros Hmid Hnot. rewrite <- Hst', (K2 Hmid).
           destruct (Z.ltb_spec 10000 size) as [A|A];
             destruct (Z.ltb_spec (Z.of_nat (length test_bytes)) 1000) as [B|B];
             try reflexivity. exfalso. apply Hnot. lia.
      * split.
        -- intros Hlarge. rewrite <- Hst', Hcases.
           assert ((10000 <? size) = true) as -> by (apply Z.ltb_lt; lia).
           split; reflexivity.
        -- intros Hle. rewrite <- Hst', Hcases.
           assert ((10000 <? size) = false) as -> by (apply Z.ltb_ge; lia).
           reflexivity.
Qed.

Lemma content_probe_override_witness :
  exists st,
    get_icloud_file_status ex_env ex_fs_evicted ex_cloud_path = Return (Some st) /\
    is_placeholder st = true /\ is_downloaded st = false.
Proof.
  eexists. split; [vm_compute; reflexivity|].
  pose proof (content_probe_override ex_env ex_fs_evicted ex_cloud_path _ _
                ltac:(vm_compute; reflexivity) ltac:(vm_compute; reflexivity))
    as [_ H].
  destruct (H eq_refl) as [_ Hbig].
  specialize (Hbig ltac:(vm_compute; reflexivity)).
  vm_compute in Hbig. destruct Hbig as (_ & H0 & _).
  apply H0. reflexivity.
Defined.

(** ** The size test of the verifier in double precision *)

Lemma round_of_pos x e : 0 < x -> Float.round x e = Float.round_pos x e.
Proof. destruct x; [lia | reflexivity | lia]. Qed.

(** Integers below [2 ^ 53] convert exactly. *)
Lemma of_int_exact n : 0 < n < 2 ^ 53 -> Float.of_int n = Some (Float.mkFloat n 0).
Proof.
  intros [Hpos Hlt]. unfold Float.of_int. rewrite round_of_pos by exact Hpos.
  unfold Float.round_pos.
  assert (Z.log2 n < 53) as Hlog by (apply Z.log2_lt_pow2; lia).
  assert ((Z.log2 n + 1 <=? 53) = true) as -> by (apply Z.leb_le; lia).
  cbn [Float.mant Float.expo].
  assert ((2 ^ 1024 <=? Z.abs n * 2 ^ 0) = false) as ->; [|reflexivity].
  apply Z.leb_gt. rewrite Z.abs_eq by lia. 
  assert (2 ^ 53 < 2 ^ 1024) by (apply Z.pow_lt_mono_r; lia). lia.
Qed.

(** For an original size below [2 ^ 53] the double precision test
    [current_size < original_size * 0.1] agrees with the exact
    comparison [10 * current_size < original_size]. *)
Lemma lt_tenth_of_exact c n :
  0 < n < 2 ^ 53 -> lt_tenth_of c n = Some (10 * c <? n).
Proof.
  intros Hn. unfold lt_tenth_of. rewrite (of_int_exact n Hn). f_equal.
  unfold Float.mul, Float.tenth. cbn [Float.mant Float.expo].
  set (M := 3602879701896397). set (x := n * M).
  assert (0 < x) as Hx by (unfold x, M; lia).
  assert (x < 2 ^ 105) as Hx105.
  { unfold x, M. change (2 ^ 105) with (2 ^ 53 * 2 ^ 52). 
    assert (3602879701896397 < 2 ^ 52) by (vm_compute; reflexivity). 
    change (2^53) with 9007199254740992 in *. change (2^52) with 4503599627370496 in *. nia. }
  rewrite round_of_pos by exact Hx. unfold Float.round_pos.
  destruct (Z.leb_spec (Z.log2 x + 1) 53) as [Hbits|Hbits].
  - unfold Float.int_lt. cbn [Float.mant Float.expo]. 
    change (0 <=? 0 + -55) with false. cbv iota. change (- (0 + -55)) with 55.
    assert (x < 2 ^ 53) as Hx53 by (apply Z.log2_lt_pow2; lia).
    change (2^53) with 9007199254740992 in *. change (2 ^ 55) with 36028797018963968.
    unfold x, M in *.
    destruct (Z.ltb_spec (c * 36028797018963968) (n * 3602879701896397));
      destruct (Z.ltb_spec (10 * c) n); try reflexivity; exfalso; lia.
  - set (s := Z.log2 x + 1 - 53) in *.
    assert (1 <= s) as Hs1 by (unfold s; lia).
    assert (Z.log2 x < 105) as Hlog by (apply Z.log2_lt_pow2; lia).
    assert (s <= 52) as Hs52 by (unfold s; lia).
    destruct (Z.log2_spec x Hx) as [Hlo Hhi].
    replace (Z.log2 x) with (s + 52) in Hlo by (unfold s; lia).
    replace (Z.succ (Z.log2 x)) with (s + 53) in Hhi by (unfold s; lia).
    rewrite Z.pow_add_r in Hlo, Hhi by lia.
    set (H := 2 ^ (s - 1)) in *.
    assert (2 ^ s = 2 * H) as HP.
    { unfold H. replace s with (Z.succ (s - 1)) at 1 by lia. apply Z.pow_succ_r. lia. }
    assert (1 <= H) as HH1 by (unfold H; apply (Z.pow_le_mono_r 2 0); lia).
    assert (H <= 2 ^ 51) as HH51 by (unfold H; apply Z.pow_le_mono_r; lia).
    assert (2 ^ (55 - s) * 2 ^ s = 2 ^ 55) as HQP.
    { rewrite <- Z.pow_add_r by lia. f_equal. lia. }
    assert (0 < 2 ^ (55 - s)) as HQ by (apply Z.pow_pos_nonneg; lia).
    pose proof (Z.div_mod x (2 ^ s) ltac:(lia)) as Hdm.
    pose proof (Z.mod_pos_bound x (2 ^ s) ltac:(lia)) as Hr.
    set (q := x / 2 ^ s) in *. set (r := x mod 2 ^ s) in *.
    set (up := (H <? r) || ((r =? H) && Z.odd q)).
    assert (up = true -> H <= r) as Hup1.
    { unfold up. intros Hu. apply orb_true_iff in Hu as [Hu|Hu].
      - apply Z.ltb_lt in Hu. lia.
      - apply andb_true_iff in Hu as [Hu _]. apply Z.eqb_eq in Hu. lia. }
    assert (up = false -> r <= H) as Hup0.
    { unfold up. intros Hu. apply orb_false_iff in Hu as [Hu _].
      apply Z.ltb_ge in Hu. exact Hu. }
    unfold Float.int_lt. cbn [Float.mant Float.expo].
    assert ((0 <=? 0 + -55 + s) = false) as -> by (apply Z.leb_gt; lia).
    replace (- (0 + -55 + s)) with (55 - s) by lia.
    set (Q := 2 ^ (55 - s)) in *.
    set (q' := if up then q + 1 else q).
    assert (q' * 2 ^ s = x - r + (if up then 2 * H else 0)) as Hq'.
    { unfold q'. destruct up; lia. }
    assert (c * Q < q' <-> c * 2 ^ 55 + 2 ^ s <= q' * 2 ^ s) as Hiff.
    { replace (c * 2 ^ 55 + 2 ^ s) with ((c * Q + 1) * 2 ^ s)
        by (rewrite <- HQP; fold Q; ring).
      rewrite <- Z.mul_le_mono_pos_r by lia. lia. }
    assert (c * Q < q' <-> c * 2 ^ 55 < q' * 2 ^ s) as Hiff'.
    { rewrite <- HQP, Z.mul_assoc. apply Z.mul_lt_mono_pos_r. lia. }
    rewrite HP in Hiff, Hiff', Hq'.
    rewrite HP in Hlo, Hhi, Hr.
    change (2 ^ 52) with 4503599627370496 in *.
    change (2 ^ 53) with 9007199254740992 in *.
    change (2 ^ 51) with 2251799813685248 in *.
    change (2 ^ 55) with 36028797018963968 in *.
    unfold x, M in *.
    destruct (Z.ltb_spec (c * Q) q') as [A|A];
      destruct (Z.ltb_spec (10 * c) n) as [B|B]; try reflexivity; exfalso.
    + apply Hiff in A. rewrite Hq' in A. destruct up; [specialize (Hup1 eq_refl)|specialize (Hup0 eq_refl)]; lia.
    + assert (~ c * Q < q') as A' by lia. rewrite Hiff', Hq' in A'.
      destruct up; [specialize (Hup1 eq_refl)|specialize (Hup0 eq_refl)]; lia.
Qed.

(** ** The verifier *)

Lemma existsb_name_in (candidates attrs : list string) :
  existsb (fun attr => name_in attr attrs) candidates = true <->
  exists attr, attr ∈ candidates /\ attr ∈ attrs.
Proof.
  rewrite existsb_exists. split; intros [attr [H1 H2]]; exists attr.
  - split; [now apply list_elem_of_In | now apply name_in_spec].
  - split; [now apply list_elem_of_In | now apply name_in_spec].
Qed.

Lemma truthy_spec (original_size : option Z) :
  truthy original_size = true <-> exists n, original_size = Some n /\ n <> 0.
Proof.
  destruct original_size as [n|]; simpl.
  - rewrite negb_true_iff, Z.eqb_neq. split.
    + intros Hn. exists n. tauto.
    + intros [m [Hm Hn]]. congruence.
  - split; [discriminate | intros [m [Hm _]]; discriminate].
Qed.

(** The verdict of the verifier as a boolean formula over the
    re-classified status. *)
Lemma verify_eviction_verdict env fs p original_size st :
  get_icloud_file_status env (time_sleep env 2 fs) p = Return (Some st) ->
  (forall n, original_size = Some n -> 0 <= n < 2 ^ 53) ->
  fst (value_of (verify_eviction env p original_size fs)) =
  is_placeholder st
  || negb (is_downloaded st)
  || (truthy original_size && (10 * file_size st <? default 0 original_size))
  || negb (existsb (fun attr => name_in attr (attributes st)) materialized_attrs)
  || (truthy original_size
      && bool_decide (Some (file_size st) = original_size)
      && existsb (fun attr => name_in attr (attributes st)) policy_attrs).
Proof.
  intros Hget Hrange.
  unfold verify_eviction, sleep, value_of. step_eff. rewrite Hget.
  destruct (is_placeholder st); [reflexivity|].
  destruct (is_downloaded st); [|reflexivity].
  cbn [negb orb].
  destruct original_size as [n|]; cbn [truthy default andb].
  - destruct (Z.eqb_spec n 0) as [->|Hn]; cbn [negb andb].
    + rewrite orb_false_r.
      destruct (existsb _ materialized_attrs); reflexivity.
    + specialize (Hrange n eq_refl). change (id n) with n.
      rewrite lt_tenth_of_exact by lia.
      destruct (10 * file_size st <? n); [reflexivity|]. cbn [orb].
      destruct (existsb _ materialized_attrs); [|reflexivity]. cbn [negb orb].
      destruct (bool_decide (Some (file_size st) = Some n)); [|reflexivity].
      cbn [andb]. destruct (existsb _ policy_attrs); reflexivity.
  - rewrite orb_false_r.
    destruct (existsb _ materialized_attrs); reflexivity.
Qed.

Lemma verify_eviction_no_status env fs p original_size :
  get_icloud_file_status env (time_sleep env 2 fs) p = Return None ->
  fst (value_of (verify_eviction env p original_size fs)) = false.
Proof.
  intros Hget. unfold verify_eviction, sleep, value_of. step_eff.
  rewrite Hget. reflexivity.
Qed.

Lemma get_icloud_file_status_never_raises env fs p e :
  get_icloud_file_status env fs p <> Raise e.
Proof.
  unfold get_icloud_file_status.
  destruct (xattr_listxattr fs p); [|discriminate].
  cbv zeta. destruct (negb _); discriminate.
Qed.

(** C6.  For an original size below [2 ^ 53], [verify_eviction]
    confirms exactly when the path, re-classified after the settle
    delay, yields a status and at least one of the following holds:
    the status is a placeholder; it is not downloaded; the original
    size is not zero and the new size is below a tenth of it; none of
    the materialized attributes is present; the original size is not
    zero, the new size equals it and a policy attribute is present.
    When no original size is given the two size tests do not apply. *)
Theorem verify_eviction_confirmed_iff env fs p original_size :
  (forall n, original_size = Some n -> 0 <= n < 2 ^ 53) ->
  fst (value_of (verify_eviction env p original_size fs)) = true <->
  exists st,
    get_icloud_file_status env (time_sleep env 2 fs) p = Return (Some st) /\
    (is_placeholder st = true
     \/ is_downloaded st = false
     \/ (exists n, original_size = Some n /\ n <> 0 /\ 10 * file_size st < n)
     \/ (forall attr, attr ∈ materialized_attrs -> attr ∉ attributes st)
     \/ (exists n, original_size = Some n /\ n <> 0 /\ file_size st = n /\
         exists attr, attr ∈ policy_attrs /\ attr ∈ attributes st)).
Proof.
  intros Hrange.
  destruct (get_icloud_file_status env (time_sleep env 2 fs) p)
    as [[st|]|e] eqn:Hget.
  - rewrite (verify_eviction_verdict env fs p original_size st Hget Hrange).
    assert (negb (is_downloaded st) = true <-> is_downloaded st = false) as Hb
      by apply negb_true_iff.
    assert (truthy original_size
            && (10 * file_size st <? default 0 original_size) = true <->
            exists n, original_size = Some n /\ n <> 0 /\ 10 * file_size st < n)
      as Hc.
    { rewrite andb_true_iff, truthy_spec, Z.ltb_lt. split.
      - intros [[n [-> Hnz]] Hlt]. exists n. simpl in Hlt. tauto.
      - intros [n (-> & Hnz & Hlt)]. split; [eauto | exact Hlt]. }
    assert (negb (existsb (fun attr => name_in attr (attributes st))
                    materialized_attrs) = true <->
            forall attr, attr ∈ materialized_attrs -> attr ∉ attributes st)
      as Hd.
    { rewrite negb_true_iff, <- not_true_iff_false, existsb_name_in. split.
      - intros H attr Ha Hin. apply H. eauto.
      - intros H [attr [Ha Hin]]. exact (H attr Ha Hin). }
    assert (truthy original_size
            && bool_decide (Some (file_size st) = original_size)
            && existsb (fun attr => name_in attr (attributes st)) policy_attrs
            = true <->
            exists n, original_size = Some n /\ n <> 0 /\ file_size st = n /\
                      exists attr, attr ∈ policy_attrs /\ attr ∈ attributes st)
      as He.
    { rewrite !andb_true_iff, truthy_spec, bool_decide_eq_true, existsb_name_in.
      split.
      - intros [[[n [-> Hnz]] Heq] Hpol]. exists n.
        repeat split; [exact Hnz | congruence | exact Hpol].
      - intros [n (-> & Hnz & Heq & Hpol)].
        repeat split; [eauto | congruence | exact Hpol]. }
    rewrite !orb_true_iff, Hb, Hc, Hd, He. split.
    + intros H. exists st. split; [reflexivity | tauto].
    + intros [st' [Heq H]]. injection Heq as <-. tauto.
  - rewrite (verify_eviction_no_status env fs p original_size Hget).
    split; [discriminate | intros [st [Heq _]]; discriminate].
  - exfalso. exact (get_icloud_file_status_never_raises _ _ _ _ Hget).
Qed.

Lemma verify_eviction_confirmed_iff_witness :
  fst (value_of (verify_eviction ex_env ex_cloud_path (Some 200000) ex_fs_small))
  = true.
Proof.
  apply (verify_eviction_confirmed_iff ex_env ex_fs_small ex_cloud_path (Some 200000)).
  - intros n Hn. injection Hn as <-. lia.
  - eexists. split; [vm_compute; reflexivity|].
    right. right. left. exists 200000.
    split; [reflexivity|]. split; [discriminate|]. vm_compute. reflexivity.
Defined.

(** An original size of zero: the sizes agree and a policy attribute is
    present, yet the eviction is not confirmed. *)
Lemma verify_eviction_zero_original_size :
  ~ (fst (value_of (verify_eviction ex_env ex_cloud_path (Some 0)
                      ex_fs_empty_with_policy)) = true <->
     exists st,
       get_icloud_file_status ex_env
         (time_sleep ex_env 2 ex_fs_empty_with_policy) ex_cloud_path
       = Return (Some st) /\
       (is_placeholder st = true
        \/ is_downloaded st = false
        \/ 10 * file_size st < 0
        \/ (forall attr, attr ∈ materialized_attrs -> attr ∉ attributes st)
        \/ (file_size st = 0 /\
            exists attr, attr ∈ policy_attrs /\ attr ∈ attributes st))).
Proof.
  intros [_ H].
  assert (fst (value_of (verify_eviction ex_env ex_cloud_path (Some 0)
                           ex_fs_empty_with_policy)) = false) as Hv
    by (vm_compute; reflexivity).
  rewrite H in Hv; [discriminate|].
  eexists. split; [vm_compute; reflexivity|].
  right. right. right. right. split; [reflexivity|].
  exists "com.apple.file-provider.download-policy".
  split; [left | apply name_in_spec; vm_compute; reflexivity].
Qed.

(** ** Traces *)

Lemma trace_of_bind {A B : Type} (m : M A) (k : A -> M B) (fs : FS) :
  trace_of (bind m k fs) =
  trace_of (m fs) ++ trace_of (k (value_of (m fs)) (fs_of (m fs))).
Proof.
  unfold bind, trace_of, value_of, fs_of.
  destruct (m fs) as [[a fs1] t1]. simpl.
  destruct (k a fs1) as [[r fs2] t2]. reflexivity.
Qed.

Lemma value_of_bind {A B : Type} (m : M A) (k : A -> M B) (fs : FS) :
  value_of (bind m k fs) = value_of (k (value_of (m fs)) (fs_of (m fs))).
Proof.
  unfold bind, trace_of, value_of, fs_of.
  destruct (m fs) as [[a fs1] t1]. simpl.
  destruct (k a fs1) as [[r fs2] t2]. reflexivity.
Qed.

Lemma fs_of_bind {A B : Type} (m : M A) (k : A -> M B) (fs : FS) :
  fs_of (bind m k fs) = fs_of (k (value_of (m fs)) (fs_of (m fs))).
Proof.
  unfold bind, trace_of, value_of, fs_of.
  destruct (m fs) as [[a fs1] t1]. simpl.
  destruct (k a fs1) as [[r fs2] t2]. reflexivity.
Qed.

Lemma bind_silent {A B : Type} (m : M A) (k : A -> M B) (fs : FS) :
  trace_of (m fs) = [] ->
  (forall a fs', trace_of (k a fs') = []) ->
  trace_of (bind m k fs) = [].
Proof. intros Hm Hk. rewrite trace_of_bind, Hm, Hk. reflexivity. Qed.

Lemma try_setxattr_silent p attr v fs : trace_of (try_setxattr p attr v fs) = [].
Proof. unfold try_setxattr. destruct (xattr_setxattr fs p attr v); reflexivity. Qed.

Lemma try_removexattr_silent p attr fs : trace_of (try_removexattr p attr fs) = [].
Proof. unfold try_removexattr. destruct (xattr_removexattr fs p attr); reflexivity. Qed.

Lemma run_silent env c fs : trace_of (run env c fs) = [].
Proof. unfold run. destruct (subprocess_run env c fs). reflexivity. Qed.

Lemma set_all_silent p writes fs : trace_of (set_all p writes fs) = [].
Proof.
  revert fs. induction writes as [|[attr_name attr_value] rest IH]; intros fs.
  - reflexivity.
  - cbn [set_all]. apply bind_silent; [apply try_setxattr_silent|].
    intros ok fs1. apply bind_silent; [apply IH | reflexivity].
Qed.

(** Discharges the goal that a computation built from silent parts
    leaves no trace. *)
Ltac silent :=
  repeat first
    [ reflexivity
    | apply try_setxattr_silent
    | apply try_removexattr_silent
    | apply run_silent
    | apply set_all_silent
    | apply bind_silent; [|intros ? ?]
    | match goal with
      | |- context [if ?c then _ else _] => destruct c
      | |- context [match ?c with Completed _ => _ | NotInstalled => _ end] =>
          destruct c
      | |- context [match ?c with Return _ => _ | Raise _ => _ end] =>
          destruct c
      | |- context [match ?c with Some _ => _ | None => _ end] =>
          destruct c
      end ].

Lemma remove_download_brctl_silent env p fs :
  trace_of (remove_download_brctl env p fs) = [].
Proof. unfold remove_download_brctl. silent. Qed.

Lemma remove_download_applescript_silent env p fs :
  trace_of (remove_download_applescript env p fs) = [].
Proof. unfold remove_download_applescript. silent. Qed.

Lemma remove_download_xattr_silent env p fs :
  trace_of (remove_download_xattr env p fs) = [].
Proof. unfold remove_download_xattr. silent. Qed.

Lemma remove_download_evict_silent env p fs :
  trace_of (remove_download_evict env p fs) = [].
Proof. unfold remove_download_evict. silent. Qed.

Lemma prevent_auto_redownload_silent env p fs :
  trace_of (prevent_auto_redownload env p fs) = [].
Proof. unfold prevent_auto_redownload. silent. Qed.

Lemma methods_silent env name func :
  (name, func) ∈ methods env -> forall p fs, trace_of (func p fs) = [].
Proof.
  unfold methods. rewrite !elem_of_cons, elem_of_nil.
  intros [H|[H|[H|[H|[]]]]] p fs; injection H as -> ->.
  - apply remove_download_brctl_silent.
  - apply remove_download_applescript_silent.
  - apply remove_download_xattr_silent.
  - apply remove_download_evict_silent.
Qed.

(** The verifier sleeps once, for two seconds, and does nothing else
    that shows in the trace. *)
Lemma verify_eviction_trace env p original_size fs :
  trace_of (verify_eviction env p original_size fs) = [EvSleep 2].
Proof.
  unfold verify_eviction. rewrite trace_of_bind.
  change (trace_of (sleep env 2 fs)) with [EvSleep 2].
  cbn [app]. f_equal. 
  apply bind_silent; [reflexivity|]. intros st fs'.
  destruct st as [[status|]|e]; try reflexivity.
  cbv zeta. silent.
Qed.

(** ** The order of events in the orchestrator *)

Lemma no_strategy_protocol (t : list event) :
  no_strategy t -> strategy_protocol t.
Proof.
  intros Hno pre m ok post Heq. exfalso. apply (Hno m ok).
  rewrite Heq. apply elem_of_app. right. left.
Qed.

Lemma protocol_cons_other (e : event) (t : list event) :
  (forall m ok, e <> EvStrategy m ok) ->
  strategy_protocol t -> strategy_protocol (e :: t).
Proof.
  intros He Ht pre m ok post Heq. destruct pre as [|e' pre]; simpl in Heq.
  - injection Heq as Heq _. exfalso. exact (He m ok Heq).
  - injection Heq as _ Heq. exact (Ht pre m ok post Heq).
Qed.

Lemma protocol_cons_strategy (m : method) (ok : bool) (t : list event) :
  follows_strategy ok t ->
  strategy_protocol t -> strategy_protocol (EvStrategy m ok :: t).
Proof.
  intros Hf Ht pre m' ok' post Heq. destruct pre as [|e' pre]; simpl in Heq.
  - injection Heq as -> -> ->. exact Hf.
  - injection Heq as _ Heq. exact (Ht pre m' ok' post Heq).
Qed.

Lemma no_strategy_cons (e : event) (t : list event) :
  (forall m ok, e <> EvStrategy m ok) -> no_strategy t -> no_strategy (e :: t).
Proof.
  intros He Ht m ok Hin. apply elem_of_cons in Hin as [Hin|Hin].
  - exact (He m ok (eq_sym Hin)).
  - exact (Ht m ok Hin).
Qed.

Lemma no_strategy_nil : no_strategy [].
Proof. intros m ok Hin. inversion Hin. Qed.

(** Splits the trace, value and final file system of sequenced
    computations into those of their parts. *)
Ltac split_bind :=
  repeat first
    [ rewrite trace_of_bind | rewrite value_of_bind | rewrite fs_of_bind ].

(** Closes goals of the form [no_strategy [e1; ...; en]]. *)
Ltac no_strategy :=
  repeat (apply no_strategy_cons; [discriminate|]); apply no_strategy_nil.

(** The trace of the loop, followed by [tail] when the loop falls
    through. *)
Lemma try_methods_protocol env abs_path initial_size ms tail :
  (forall name func, (name, func) ∈ ms -> forall p fs, trace_of (func p fs) = []) ->
  no_strategy tail ->
  (exists rest, tail = EvSleep 5 :: rest) ->
  forall fs,
    let r := try_methods env abs_path initial_size ms fs in
    let full := trace_of r ++ (if value_of r then [] else tail) in
    strategy_protocol full /\ follows_strategy false full.
Proof.
  intros Hsilent Hno [rest Htail].
  induction ms as [|[method_name method_func] ms IH]; intros fs.
  - cbn. split; [now apply no_strategy_protocol|].
    exists (EvSleep 5), rest. split; [exact Htail | now left].
  - cbv zeta. cbn [try_methods].
    split_bind.
    rewrite (Hsilent method_name method_func ltac:(left)).
    assert (forall name func, (name, func) ∈ ms ->
              forall p fs, trace_of (func p fs) = []) as Hsilent'.
    { intros name func Hin. apply (Hsilent name func). now right. }
    specialize (IH Hsilent').
    set (r1 := method_func abs_path fs).
    destruct (value_of r1) eqn:Hok.
    + change (trace_of (emit (EvStrategy method_name true) (fs_of r1)))
        with [EvStrategy method_name true].
      change (value_of (emit (EvStrategy method_name true) (fs_of r1))) with tt.
      change (fs_of (emit (EvStrategy method_name true) (fs_of r1)))
        with (fs_of r1).
      split_bind.
      rewrite prevent_auto_redownload_silent.
      set (fs2 := fs_of (prevent_auto_redownload env abs_path (fs_of r1))).
      change (trace_of (emit EvPolicy fs2)) with [EvPolicy].
      change (fs_of (emit EvPolicy fs2)) with fs2.
      split_bind.
      rewrite verify_eviction_trace.
      set (rv := verify_eviction env abs_path (Some initial_size) fs2).
      change (trace_of (emit (EvVerify (value_of rv).1) (fs_of rv)))
        with [EvVerify (value_of rv).1].
      change (fs_of (emit (EvVerify (value_of rv).1) (fs_of rv)))
        with (fs_of rv).
      destruct ((value_of rv).1) eqn:Hv.
      * split_bind.
        rewrite prevent_auto_redownload_silent.
        cbn. split.
        -- apply protocol_cons_strategy; [cbn; eauto|].
           apply no_strategy_protocol. no_strategy.
        -- exists (EvStrategy method_name true). eexists. split; [reflexivity|].
           right. eauto.
      * destruct (IH (fs_of rv)) as [IH1 IH2]. cbv zeta in IH1, IH2.
        cbn [app]. split.
        -- apply protocol_cons_strategy; [cbn; eauto|].
           repeat (apply protocol_cons_other; [discriminate|]). exact IH1.
        -- exists (EvStrategy method_name true). eexists. split; [reflexivity|].
           right. eauto.
    + change (trace_of (emit (EvStrategy method_name false) (fs_of r1)))
        with [EvStrategy method_name false].
      change (fs_of (emit (EvStrategy method_name false) (fs_of r1)))
        with (fs_of r1).
      destruct (IH (fs_of r1)) as [IH1 IH2]. cbv zeta in IH1, IH2.
      cbn [app]. split.
      * apply protocol_cons_strategy; [exact IH2 | exact IH1].
      * exists (EvStrategy method_name false). eexists. split; [reflexivity|].
        right. eauto.
Qed.

Lemma after_methods_trace env abs_path initial_size fs :
  exists rest,
    trace_of (after_methods env abs_path initial_size fs) = EvSleep 5 :: rest /\
    no_strategy (EvSleep 5 :: rest).
Proof.
  unfold after_methods, check_eviction_after_delay.
  split_bind.
  change (trace_of (sleep env 5 fs)) with [EvSleep 5].
  set (fs1 := fs_of (sleep env 5 fs)).
  rewrite verify_eviction_trace.
  set (rv := verify_eviction env abs_path (Some initial_size) fs1).
  split_bind.
  change (trace_of (emit (EvVerify (value_of rv).1) (fs_of rv)))
    with [EvVerify (value_of rv).1].
  change (fs_of (emit (EvVerify (value_of rv).1) (fs_of rv))) with (fs_of rv).
  change (value_of (ret (value_of rv).1 (fs_of rv))) with (value_of rv).1.
  change (fs_of (ret (value_of rv).1 (fs_of rv))) with (fs_of rv).
  change (trace_of (ret (value_of rv).1 (fs_of rv))) with (@nil event).
  cbn [app].
  destruct (value_of rv).1.
  - eexists. split; [reflexivity|]. cbn. no_strategy.
  - rewrite trace_of_bind.
    change (trace_of (look (fun fs0 => get_icloud_file_status env fs0 abs_path)
                        (fs_of rv))) with (@nil event).
    change (value_of (look (fun fs0 => get_icloud_file_status env fs0 abs_path)
                        (fs_of rv)))
      with (get_icloud_file_status env (fs_of rv) abs_path).
    change (fs_of (look (fun fs0 => get_icloud_file_status env fs0 abs_path)
                        (fs_of rv))) with (fs_of rv).
    cbn [app].
    destruct (get_icloud_file_status env (fs_of rv) abs_path) as [final|e].
    + destruct (match final with
                | Some st => negb (is_downloaded st) || is_placeholder st
                | None => false
                end);
        rewrite !trace_of_bind, prevent_auto_redownload_silent;
        (eexists; split; [reflexivity|]); cbn; no_strategy.
    + eexists. split; [reflexivity|]. cbn. no_strategy.
Qed.

(** The trace of [remove_download_smart] follows the protocol. *)
Lemma remove_download_smart_protocol env file_path fs :
  strategy_protocol (trace_of (remove_download_smart env file_path fs)).
Proof.
  unfold remove_download_smart. cbv zeta.
  rewrite trace_of_bind.
  change (trace_of (look (fun fs0 => os_path_exists fs0 (abspath env file_path)) fs))
    with (@nil event).
  change (value_of (look (fun fs0 => os_path_exists fs0 (abspath env file_path)) fs))
    with (os_path_exists fs (abspath env file_path)).
  change (fs_of (look (fun fs0 => os_path_exists fs0 (abspath env file_path)) fs))
    with fs.
  cbn [app].
  destruct (os_path_exists fs (abspath env file_path)); cbn [negb].
  2: { apply no_strategy_protocol. cbn. no_strategy. }
  rewrite trace_of_bind.
  change (trace_of (look (fun fs0 => get_icloud_file_status env fs0
                                       (abspath env file_path)) fs))
    with (@nil event).
  change (value_of (look (fun fs0 => get_icloud_file_status env fs0
                                       (abspath env file_path)) fs))
    with (get_icloud_file_status env fs (abspath env file_path)).
  change (fs_of (look (fun fs0 => get_icloud_file_status env fs0
                                    (abspath env file_path)) fs))
    with fs.
  cbn [app].
  destruct (get_icloud_file_status env fs (abspath env file_path))
    as [[st|]|e]; try (apply no_strategy_protocol; cbn; no_strategy).
  destruct (is_icloud_file st); cbn [negb];
    [|apply no_strategy_protocol; cbn; no_strategy].
  destruct (is_downloaded st); cbn [negb];
    [|apply no_strategy_protocol; cbn; no_strategy].
  rewrite trace_of_bind.
  set (r := try_methods env (abspath env file_path) (file_size st)
              (methods env) fs).
  destruct (after_methods_trace env (abspath env file_path) (file_size st)
              (fs_of r)) as [rest [Hafter Hno]].
  pose proof (try_methods_protocol env (abspath env file_path) (file_size st)
                (methods env) (EvSleep 5 :: rest) (methods_silent env) Hno
                ltac:(eauto) fs) as [Hp _].
  cbv zeta in Hp. fold r in Hp.
  destruct (value_of r).
  - exact Hp.
  - rewrite Hafter. exact Hp.
Qed.

(** ** Claims about the orchestrator and the classifier's failures *)

(** C7.  When the path does not exist, or when listing the extended
    attributes fails with any error, [get_icloud_file_status] returns
    [None]: the error is caught inside the classifier, no status with
    default values is returned, and no exception ever reaches the
    caller. *)
Theorem classification_failure_returns_none env fs p :
  (os_path_exists fs p = false ->
   get_icloud_file_status env fs p = Return None) /\
  (forall e, xattr_listxattr fs p = Raise e ->
             get_icloud_file_status env fs p = Return None) /\
  (forall e, get_icloud_file_status env fs p <> Raise e).
Proof.
  assert (forall e, xattr_listxattr fs p = Raise e ->
                    get_icloud_file_status env fs p = Return None) as Hraise.
  { intros e He. unfold get_icloud_file_status. rewrite He. reflexivity. }
  split; [|split].
  - intros Hmissing. apply (Hraise ENOENT). now apply missing_listxattr.
  - exact Hraise.
  - intros e. apply get_icloud_file_status_never_raises.
Qed.

Lemma classification_failure_returns_none_witness :
  get_icloud_file_status ex_env ex_fs_local ex_cloud_path = Return None /\
  get_icloud_file_status ex_env ex_fs_unlistable ex_cloud_path = Return None.
Proof.
  split.
  - apply (classification_failure_returns_none ex_env ex_fs_local ex_cloud_path).
    vm_compute. reflexivity.
  - apply (classification_failure_returns_none ex_env ex_fs_unlistable
             ex_cloud_path) with (e := EACCES).
    vm_compute. reflexivity.
Defined.

(** The errors of [listxattr] do not reach the caller: neither the
    missing path nor the permission error is propagated. *)
Lemma classification_error_not_propagated :
  ~ (forall fs p e,
        xattr_listxattr fs p = Raise e ->
        get_icloud_file_status ex_env fs p = Raise e).
Proof.
  intros H.
  specialize (H ex_fs_local ex_cloud_path ENOENT ltac:(vm_compute; reflexivity)).
  vm_compute in H. discriminate H.
Qed.

(** C8.  In the trace of [remove_download_smart], a strategy that
    returned true is followed at once by the policy write, the settle
    delay and the verdict of the verifier; a strategy that returned
    false is followed at once by the next strategy or, after the last
    one, by the delay of the delayed verification. *)
Theorem successful_strategy_then_policy_then_verify env file_path fs pre m ok post :
  trace_of (remove_download_smart env file_path fs)
  = pre ++ EvStrategy m ok :: post ->
  (ok = true ->
   exists v rest, post = EvPolicy :: EvSleep 2 :: EvVerify v :: rest) /\
  (ok = false ->
   exists e rest,
     post = e :: rest /\
     (e = EvSleep 5 \/ exists m' ok', e = EvStrategy m' ok')).
Proof.
  intros Heq.
  pose proof (remove_download_smart_protocol env file_path fs pre m ok post Heq)
    as Hf.
  unfold follows_strategy in Hf.
  split; intros ->; exact Hf.
Qed.

Lemma successful_strategy_then_policy_then_verify_witness :
  exists v rest,
    [EvPolicy; EvSleep 2; EvVerify true;
     EvReport (EvictedUsing Xattr); EvPolicy]
    = EvPolicy :: EvSleep 2 :: EvVerify v :: rest.
Proof.
  apply (successful_strategy_then_policy_then_verify ex_env ex_cloud_path
           ex_fs_downloaded
           [EvStrategy Brctl false; EvStrategy AppleScript false] Xattr true).
  - vm_compute. reflexivity.
  - reflexivity.
Defined.

(** A strategy that returns false is followed by the next strategy,
    without policy write or verification. *)
Lemma failed_strategy_skips_policy_and_verification :
  ~ (forall pre m ok post,
        trace_of (remove_download_smart ex_env ex_cloud_path ex_fs_downloaded)
        = pre ++ EvStrategy m ok :: post ->
        exists v rest, post = EvPolicy :: EvSleep 2 :: EvVerify v :: rest).
Proof.
  intros H.
  destruct (H [] Brctl false
              [EvStrategy AppleScript false; EvStrategy Xattr true; EvPolicy;
               EvSleep 2; EvVerify true; EvReport (EvictedUsing Xattr);
               EvPolicy]
              ltac:(vm_compute; reflexivity)) as [v [rest Heq]].
  discriminate Heq.
Qed.

(** C9.  On a cloud file that is classified as not downloaded,
    [remove_download_smart] returns true with the report "already
    evicted" and nothing else in its trace: no strategy, no
    verification, no delay.  The file system is unchanged, so the file
    is classified as before. *)
Theorem already_evicted_returns_at_once env file_path fs st :
  get_icloud_file_status env fs (abspath env file_path) = Return (Some st) ->
  is_icloud_file st = true ->
  is_downloaded st = false ->
  let r := remove_download_smart env file_path fs in
  value_of r = Return true /\
  trace_of r = [EvReport AlreadyEvicted] /\
  fs_of r = fs /\
  get_icloud_file_status env (fs_of r) (abspath env file_path) = Return (Some st).
Proof.
  intros Hget Hc Hd r. unfold r.
  destruct (get_icloud_file_status_inv _ _ _ _ Hget) as [attrs [Hl _]].
  apply listxattr_exists in Hl.
  rewrite (remove_download_smart_already_evicted env file_path fs st Hl Hget Hc Hd).
  repeat split. exact Hget.
Qed.

Lemma already_evicted_returns_at_once_witness :
  value_of (remove_download_smart ex_env ex_cloud_path ex_fs_evicted) = Return true /\
  trace_of (remove_download_smart ex_env ex_cloud_path ex_fs_evicted)
  = [EvReport AlreadyEvicted].
Proof.
  destruct (already_evicted_returns_at_once ex_env ex_cloud_path ex_fs_evicted _
              ltac:(vm_compute; reflexivity) eq_refl eq_refl)
    as (H1 & H2 & _).
  split; [exact H1 | exact H2].
Defined.

(** ** Paths *)

Lemma append_nil_l (s : string) : EmptyString +:+ s = s.
Proof. reflexivity. Qed.

Lemma append_cons (c : ascii) (s t : string) :
  String c s +:+ t = String c (s +:+ t).
Proof. reflexivity. Qed.

Lemma rfind_succ_absent (c : ascii) (s : string) :
  contains s (String c EmptyString) = false -> rfind_succ c s = 0%nat.
Proof.
  induction s as [|d s IH]; [reflexivity|].
  cbn [contains startswith rfind_succ]. intros H.
  apply orb_false_iff in H as [H1 H2]. rewrite (IH H2).
  rewrite Ascii.eqb_sym. destruct (Ascii.eqb c d); [discriminate | reflexivity].
Qed.

Lemma rfind_succ_last (c : ascii) (dir base : string) :
  contains base (String c EmptyString) = false ->
  rfind_succ c (dir +:+ String c base) = S (String.length dir).
Proof.
  intros Hbase. induction dir as [|d dir IH].
  - rewrite append_nil_l. cbn [rfind_succ String.length].
    rewrite (rfind_succ_absent c base Hbase), Ascii.eqb_refl. reflexivity.
  - rewrite append_cons. cbn [rfind_succ String.length]. rewrite IH. reflexivity.
Qed.

Lemma take_app (dir rest : string) (c : ascii) :
  take (S (String.length dir)) (dir +:+ String c rest) = dir +:+ String c EmptyString.
Proof.
  induction dir as [|d dir IH]; [reflexivity|].
  rewrite !append_cons. cbn [String.length take]. cbn [take String.length] in IH.
  now rewrite IH.
Qed.

Lemma drop_app (dir rest : string) (c : ascii) :
  drop (S (String.length dir)) (dir +:+ String c rest) = rest.
Proof.
  induction dir as [|d dir IH]; [reflexivity|].
  rewrite append_cons. cbn [String.length drop]. exact IH.
Qed.

Lemma rstrip_unchanged (c : ascii) (s : string) :
  endswith_char s c = false -> rstrip c s = s.
Proof.
  induction s as [|d s IH]; [reflexivity|].
  cbn [endswith_char rstrip]. destruct s as [|d' s'].
  - cbn. intros ->. reflexivity.
  - intros H. rewrite (IH H). reflexivity.
Qed.

Lemma rstrip_app_char (c : ascii) (s : string) :
  rstrip c (s +:+ String c EmptyString) = rstrip c s.
Proof.
  induction s as [|d s IH].
  - rewrite append_nil_l. cbn. rewrite Ascii.eqb_refl. reflexivity.
  - rewrite append_cons. cbn [rstrip]. rewrite IH. reflexivity.
Qed.

Lemma all_char_app (c : ascii) (s t : string) :
  all_char c (s +:+ t) = all_char c s && all_char c t.
Proof.
  induction s as [|d s IH]; [reflexivity|].
  rewrite append_cons. cbn [all_char]. rewrite IH. apply andb_assoc.
Qed.

Lemma all_char_endswith (c : ascii) (s : string) :
  s <> EmptyString -> all_char c s = true -> endswith_char s c = true.
Proof.
  induction s as [|d s IH]; [congruence|]. intros _.
  cbn [all_char endswith_char]. intros H. apply andb_true_iff in H as [H1 H2].
  destruct s as [|d' s']; [exact H1|]. apply IH; [discriminate | exact H2].
Qed.

Lemma nonempty_app_char (s : string) (c : ascii) :
  nonempty (s +:+ String c EmptyString) = true.
Proof. destruct s; reflexivity. Qed.

(** The sidecar of [dir/base] is [dir/.base.icloud]. *)
Lemma icloud_sidecar_in_directory (dir base : string) :
  contains base "/" = false ->
  dir <> EmptyString ->
  endswith_char dir PosixPath.sep = false ->
  icloud_sidecar (dir +:+ "/" +:+ base) = dir +:+ "/" +:+ "." +:+ base +:+ ".icloud".
Proof.
  intros Hbase Hdir Hend.
  unfold icloud_sidecar, PosixPath.basename, PosixPath.dirname.
  change (dir +:+ "/" +:+ base) with (dir +:+ String PosixPath.sep base).
  rewrite (rfind_succ_last PosixPath.sep dir base Hbase), take_app, drop_app.
  cbv zeta. rewrite nonempty_app_char, all_char_app.
  assert (all_char PosixPath.sep dir = false) as Hall.
  { destruct (all_char PosixPath.sep dir) eqn:Hall; [|reflexivity].
    rewrite (all_char_endswith _ _ Hdir Hall) in Hend. discriminate. }
  rewrite Hall. cbn [andb negb].
  rewrite rstrip_app_char, (rstrip_unchanged _ _ Hend).
  unfold PosixPath.join. rewrite append_cons. cbn [startswith].
  change (Ascii.eqb "/" ".") with false. cbv iota.
  rewrite Hend. destruct dir; [congruence|]. reflexivity.
Qed.

(** C10.  [is_icloud_file_evicted]: for a path that does not exist
    the answer is whether the sidecar [.<basename>.icloud] exists in
    the directory of the path; for a path that exists the answer is
    whether its size is exactly 0.  For a path [dir/base] the sidecar
    is [dir/.base.icloud]. *)
Theorem is_icloud_file_evicted_spec fs filepath :
  (os_path_exists fs filepath = false ->
   is_icloud_file_evicted fs filepath =
   Return (os_path_exists fs
             (PosixPath.join (PosixPath.dirname filepath)
                ("." +:+ PosixPath.basename filepath +:+ ".icloud")))) /\
  (forall f, fs !! filepath = Some f ->
             (is_icloud_file_evicted fs filepath = Return true <-> f_size f = 0) /\
             (is_icloud_file_evicted fs filepath = Return false <-> f_size f <> 0)) /\
  (forall dir base,
      filepath = dir +:+ "/" +:+ base ->
      contains base "/" = false ->
      dir <> EmptyString ->
      endswith_char dir "/" = false ->
      PosixPath.join (PosixPath.dirname filepath)
        ("." +:+ PosixPath.basename filepath +:+ ".icloud")
      = dir +:+ "/" +:+ "." +:+ base +:+ ".icloud").
Proof.
  split; [|split].
  - intros H. unfold is_icloud_file_evicted. rewrite H. reflexivity.
  - intros f Hf. unfold is_icloud_file_evicted, os_stat_size, os_path_getsize.
    assert (os_path_exists fs filepath = true) as ->.
    { unfold os_path_exists. apply bool_decide_eq_true. eauto. }
    rewrite Hf. cbn [negb].
    destruct (Z.eqb_spec (f_size f) 0) as [H|H]; split; split;
      intros; try congruence; try reflexivity.
  - intros dir base -> Hbase Hdir Hend.
    exact (icloud_sidecar_in_directory dir base Hbase Hdir Hend).
Qed.

Lemma is_icloud_file_evicted_spec_witness :
  is_icloud_file_evicted ex_fs_sidecar ex_cloud_path = Return true /\
  is_icloud_file_evicted ex_fs_evicted ex_cloud_path = Return false.
Proof.
  split.
  - destruct (is_icloud_file_evicted_spec ex_fs_sidecar ex_cloud_path)
      as [H _].
    rewrite H by (vm_compute; reflexivity). vm_compute. reflexivity.
  - destruct (is_icloud_file_evicted_spec ex_fs_evicted ex_cloud_path)
      as (_ & H & _).
    eapply H; [vm_compute; reflexivity|]. vm_compute. discriminate.
Defined.

(** ** The scenarios of the specification *)

(** Scenario A: a file of 50,000 bytes without extended attributes in
    [Documents] is not a cloud file. *)
Example scenario_local_file :
  get_icloud_file_status ex_env ex_fs_local ex_local_path
  = Return (Some (mkStatus false false false false 50000 [])).
Proof. vm_compute. reflexivity. Qed.

(** Scenario B: a file under the cloud-drive root whose materialized
    attribute is [b'1'] and whose content can be read is downloaded. *)
Example scenario_downloaded_file :
  get_icloud_file_status ex_env ex_fs_downloaded ex_cloud_path
  = Return (Some (mkStatus true true false false 200000
                    ["com.apple.file-provider.materialized"])).
Proof. vm_compute. reflexivity. Qed.

(** Scenario C: the same file with the attribute at [b'0'] and no
    readable content is a placeholder. *)
Example scenario_evicted_file :
  get_icloud_file_status ex_env ex_fs_evicted ex_cloud_path
  = Return (Some (mkStatus true false false true 200000
                    ["com.apple.file-provider.materialized"])).
Proof. vm_compute. reflexivity. Qed.

(** Scenario D: with an original size of 200,000 bytes and a new size
    of 500 bytes the verifier confirms and cites the sizes. *)
Example scenario_size_reduced :
  value_of (verify_eviction ex_env ex_cloud_path (Some 200000) ex_fs_small)
  = (true, SizeReduced 200000 500).
Proof. vm_compute. reflexivity. Qed.

(** On the machine of the examples, where the command line tools are
    missing, the first two strategies fail and the attribute writes of
    the third evict the downloaded file. *)
Example scenario_orchestrator_trace :
  trace_of (remove_download_smart ex_env ex_cloud_path ex_fs_downloaded)
  = [ EvStrategy Brctl false; EvStrategy AppleScript false;
      EvStrategy Xattr true; EvPolicy; EvSleep 2; EvVerify true;
      EvReport (EvictedUsing Xattr); EvPolicy ].
Proof. vm_compute. reflexivity. Qed.

(** A size beyond [2 ^ 53] at which the double precision test and the
    exact comparison part ways: [2 ^ 53 + 9] is rounded to
    [2 ^ 53 + 8] on conversion. *)
Example double_precision_departs :
  lt_tenth_of 900719925474100 (2 ^ 53 + 9) = Some false /\
  (10 * 900719925474100 <? 2 ^ 53 + 9) = true.
Proof. vm_compute. split; reflexivity. Qed.

(** * Further properties of the code *)

(** ** The shape of the orchestrator's traces *)

Lemma try_methods_shape env abs_path initial_size ms :
  (forall name func, (name, func) ∈ ms -> forall p fs, trace_of (func p fs) = []) ->
  forall fs,
    loop_trace (map fst ms)
      (value_of (try_methods env abs_path initial_size ms fs))
      (trace_of (try_methods env abs_path initial_size ms fs)).
Proof.
  intros Hsilent.
  induction ms as [|[method_name method_func] ms IH]; intros fs.
  - cbn. constructor.
  - assert (forall name func, (name, func) ∈ ms ->
              forall p fs, trace_of (func p fs) = []) as Hsilent'.
    { intros name func Hin. apply (Hsilent name func). now right. }
    specialize (IH Hsilent').
    cbn [try_methods map fst]. split_bind.
    rewrite (Hsilent method_name method_func ltac:(left)).
    set (r1 := method_func abs_path fs).
    destruct (value_of r1) eqn:Hok.
    + change (trace_of (emit (EvStrategy method_name true) (fs_of r1)))
        with [EvStrategy method_name true].
      change (fs_of (emit (EvStrategy method_name true) (fs_of r1)))
        with (fs_of r1).
      split_bind.
      rewrite prevent_auto_redownload_silent.
      set (fs2 := fs_of (prevent_auto_redownload env abs_path (fs_of r1))).
      change (trace_of (emit EvPolicy fs2)) with [EvPolicy].
      change (fs_of (emit EvPolicy fs2)) with fs2.
      split_bind.
      rewrite verify_eviction_trace.
      set (rv := verify_eviction env abs_path (Some initial_size) fs2).
      change (trace_of (emit (EvVerify (value_of rv).1) (fs_of rv)))
        with [EvVerify (value_of rv).1].
      change (fs_of (emit (EvVerify (value_of rv).1) (fs_of rv)))
        with (fs_of rv).
      destruct ((value_of rv).1) eqn:Hv.
      * split_bind. rewrite prevent_auto_redownload_silent. cbn.
        apply loop_confirmed.
      * cbn [app]. apply loop_unconfirmed. apply IH.
    + change (trace_of (emit (EvStrategy method_name false) (fs_of r1)))
        with [EvStrategy method_name false].
      change (fs_of (emit (EvStrategy method_name false) (fs_of r1)))
        with (fs_of r1).
      cbn [app]. apply loop_failed. apply IH.
Qed.

(** What follows the loop: the delayed verification and, when it does
    not confirm, the final status check with its last policy write. *)
Lemma after_methods_cases env abs_path initial_size fs :
  let r := after_methods env abs_path initial_size fs in
  (value_of r = Return true /\
   trace_of r = [EvSleep 5; EvSleep 2; EvVerify true]) \/
  (value_of r = Return true /\
   trace_of r = [EvSleep 5; EvSleep 2; EvVerify false;
                 EvReport AppearsEvicted; EvPolicy]) \/
  (value_of r = Return false /\
   trace_of r = [EvSleep 5; EvSleep 2; EvVerify false; EvPolicy;
                 EvReport CouldNotConfirm]).
Proof.
  cbv zeta. unfold after_methods, check_eviction_after_delay.
  split_bind.
  change (trace_of (sleep env 5 fs)) with [EvSleep 5].
  set (fs1 := fs_of (sleep env 5 fs)).
  rewrite verify_eviction_trace.
  set (rv := verify_eviction env abs_path (Some initial_size) fs1).
  split_bind.
  change (trace_of (emit (EvVerify (value_of rv).1) (fs_of rv)))
    with [EvVerify (value_of rv).1].
  change (fs_of (emit (EvVerify (value_of rv).1) (fs_of rv))) with (fs_of rv).
  change (value_of (ret (value_of rv).1 (fs_of rv))) with (value_of rv).1.
  change (fs_of (ret (value_of rv).1 (fs_of rv))) with (fs_of rv).
  change (trace_of (ret (value_of rv).1 (fs_of rv))) with (@nil event).
  cbn [app].
  destruct (value_of rv).1.
  - left. split; reflexivity.
  - right. split_bind.
    change (trace_of (look (fun fs0 => get_icloud_file_status env fs0 abs_path)
                        (fs_of rv))) with (@nil event).
    change (value_of (look (fun fs0 => get_icloud_file_status env fs0 abs_path)
                        (fs_of rv)))
      with (get_icloud_file_status env (fs_of rv) abs_path).
    change (fs_of (look (fun fs0 => get_icloud_file_status env fs0 abs_path)
                        (fs_of rv))) with (fs_of rv).
    cbn [app].
    destruct (get_icloud_file_status env (fs_of rv) abs_path) as [final|e] eqn:Hg.
    + destruct (match final with
                | Some st => negb (is_downloaded st) || is_placeholder st
                | None => false
                end);
        split_bind; rewrite prevent_auto_redownload_silent;
        [left | right]; split; reflexivity.
    + exfalso. exact (get_icloud_file_status_never_raises _ _ _ _ Hg).
Qed.

(** Every run of the orchestrator is of one of five kinds. *)
Lemma remove_download_smart_cases env file_path fs :
  let r := remove_download_smart env file_path fs in
  (value_of r = Return false /\ trace_of r = [EvReport FileNotFound]) \/
  (value_of r = Return false /\ trace_of r = [EvReport NotAnICloudFile]) \/
  (value_of r = Return true /\ trace_of r = [EvReport AlreadyEvicted]) \/
  (value_of r = Return true /\
   loop_trace (map fst (methods env)) true (trace_of r)) \/
  (exists t tail v,
      trace_of r = t ++ tail /\
      value_of r = Return v /\
      loop_trace (map fst (methods env)) false t /\
      ((v = true /\ tail = [EvSleep 5; EvSleep 2; EvVerify true]) \/
       (v = true /\ tail = [EvSleep 5; EvSleep 2; EvVerify false;
                            EvReport AppearsEvicted; EvPolicy]) \/
       (v = false /\ tail = [EvSleep 5; EvSleep 2; EvVerify false; EvPolicy;
                             EvReport CouldNotConfirm]))).
Proof.
  cbv zeta.
  destruct (os_path_exists fs (abspath env file_path)) eqn:Hex.
  2: { left. rewrite (remove_download_smart_missing env file_path fs Hex).
       split; reflexivity. }
  destruct (get_icloud_file_status env fs (abspath env file_path))
    as [[st|]|e] eqn:Hget.
  3: { exfalso. exact (get_icloud_file_status_never_raises _ _ _ _ Hget). }
  2: { right. left.
       rewrite (remove_download_smart_no_status env file_path fs Hex Hget).
       split; reflexivity. }
  destruct (is_icloud_file st) eqn:Hc.
  2: { right. left.
       rewrite (remove_download_smart_not_cloud env file_path fs st Hget Hc).
       split; reflexivity. }
  destruct (is_downloaded st) eqn:Hd.
  2: { right. right. left.
       rewrite (remove_download_smart_already_evicted env file_path fs st
                  Hex Hget Hc Hd).
       split; reflexivity. }
  right. right. right.
  unfold remove_download_smart. cbv zeta. split_bind.
  change (value_of (look (fun fs0 => os_path_exists fs0 (abspath env file_path)) fs))
    with (os_path_exists fs (abspath env file_path)).
  change (trace_of (look (fun fs0 => os_path_exists fs0 (abspath env file_path)) fs))
    with (@nil event).
  change (fs_of (look (fun fs0 => os_path_exists fs0 (abspath env file_path)) fs))
    with fs.
  rewrite Hex. cbn [negb app]. split_bind.
  change (value_of (look (fun fs0 => get_icloud_file_status env fs0
                                       (abspath env file_path)) fs))
    with (get_icloud_file_status env fs (abspath env file_path)).
  change (trace_of (look (fun fs0 => get_icloud_file_status env fs0
                                       (abspath env file_path)) fs))
    with (@nil event).
  change (fs_of (look (fun fs0 => get_icloud_file_status env fs0
                                    (abspath env file_path)) fs))
    with fs.
  rewrite Hget, Hc, Hd. cbn [negb app]. split_bind.
  pose proof (try_methods_shape env (abspath env file_path) (file_size st)
                (methods env) (methods_silent env) fs) as Hshape.
  set (r := try_methods env (abspath env file_path) (file_size st)
              (methods env) fs) in *.
  destruct (value_of r) eqn:Hdone.
  - left. split; [reflexivity|]. 
    change (trace_of (ret (Return true) (fs_of r))) with (@nil event).
    rewrite app_nil_r. exact Hshape.
  - right.
    pose proof (after_methods_cases env (abspath env file_path) (file_size st)
                  (fs_of r)) as Hafter. cbv zeta in Hafter.
    destruct Hafter as [[Hv Ht] | [[Hv Ht] | [Hv Ht]]];
      eexists _, _, _; (split; [reflexivity|]); rewrite Hv, Ht;
      (split; [reflexivity|]); (split; [exact Hshape|]); tauto.
Qed.

Lemma strategy_names_app (t u : list event) :
  strategy_names (t ++ u) = strategy_names t ++ strategy_names u.
Proof. unfold strategy_names. apply omap_app. Qed.

Lemma total_sleep_app (t u : list event) :
  total_sleep (t ++ u) = total_sleep t + total_sleep u.
Proof.
  induction t as [|e t IH]; [reflexivity|].
  cbn [app]. unfold total_sleep in *. cbn [foldr]. rewrite IH.
  destruct e; lia.
Qed.

Lemma loop_trace_names ms returned t :
  loop_trace ms returned t ->
  strategy_names t `prefix_of` ms /\
  (returned = false -> strategy_names t = ms).
Proof.
  induction 1 as [|m ms returned t _ [IH1 IH2]|m ms returned t _ [IH1 IH2]|m ms].
  - split; [apply prefix_nil | reflexivity].
  - split.
    + cbn. now apply prefix_cons.
    + intros Hr. cbn. f_equal. exact (IH2 Hr).
  - split.
    + cbn. now apply prefix_cons.
    + intros Hr. cbn. f_equal. exact (IH2 Hr).
  - split; [|discriminate]. cbn. apply prefix_cons, prefix_nil.
Qed.

Lemma loop_trace_sleep ms returned t :
  loop_trace ms returned t ->
  0 <= total_sleep t <= 2 * Z.of_nat (length ms).
Proof.
  induction 1 as [|m ms returned t _ IH|m ms returned t _ IH|m ms];
    cbn [length]; unfold total_sleep in *; cbn [foldr]; lia.
Qed.

Lemma loop_trace_verdict ms returned t :
  loop_trace ms returned t ->
  (returned = true <-> EvVerify true ∈ t) /\
  (forall r, EvReport r ∈ t ->
     returned = true /\
     exists m pre,
       r = EvictedUsing m /\
       t = pre ++ [ EvStrategy m true; EvPolicy; EvSleep 2; EvVerify true;
                    EvReport (EvictedUsing m); EvPolicy ]).
Proof.
  induction 1 as [|m ms returned t _ [IH1 IH2]|m ms returned t _ [IH1 IH2]|m ms].
  - split.
    + split; [discriminate | intros H; inversion H].
    + intros r H. inversion H.
  - split.
    + rewrite IH1. rewrite elem_of_cons. split; [tauto|].
      intros [H|H]; [discriminate H | exact H].
    + intros r Hin. apply elem_of_cons in Hin as [Hin|Hin]; [discriminate|].
      destruct (IH2 r Hin) as [Hr [m' [pre [Hm Ht]]]].
      split; [exact Hr|]. exists m', (EvStrategy m false :: pre).
      split; [exact Hm|]. rewrite Ht. reflexivity.
  - split.
    + rewrite IH1. rewrite !elem_of_cons. split; [tauto|].
      intros [H|[H|[H|[H|H]]]]; try discriminate H. exact H.
    + intros r Hin.
      rewrite !elem_of_cons in Hin.
      destruct Hin as [Hin|[Hin|[Hin|[Hin|Hin]]]]; try discriminate Hin.
      destruct (IH2 r Hin) as [Hr [m' [pre [Hm Ht]]]].
      split; [exact Hr|].
      exists m', (EvStrategy m true :: EvPolicy :: EvSleep 2 :: EvVerify false :: pre).
      split; [exact Hm|]. rewrite Ht. reflexivity.
  - split.
    + split; [|reflexivity]. intros _. rewrite !elem_of_cons. tauto.
    + intros r Hin. split; [reflexivity|].
      rewrite !elem_of_cons, elem_of_nil in Hin.
      destruct Hin as [Hin|[Hin|[Hin|[Hin|[Hin|[Hin|[]]]]]]];
        try discriminate Hin.
      injection Hin as ->. exists m, []. split; reflexivity.
Qed.

(** X1.  The orchestrator never raises, and it returns true exactly
    when one of three things happened in the run: the file was
    reported as already evicted; a verification confirmed, be it the
    one after a strategy or the delayed one; or the final status check
    found the file not downloaded or a placeholder and reported that
    it appears to be evicted. *)
Theorem orchestrator_success_has_evidence env file_path fs :
  exists success,
    value_of (remove_download_smart env file_path fs) = Return success /\
    (success = true <->
     EvReport AlreadyEvicted ∈ trace_of (remove_download_smart env file_path fs)
     \/ EvVerify true ∈ trace_of (remove_download_smart env file_path fs)
     \/ EvReport AppearsEvicted ∈ trace_of (remove_download_smart env file_path fs)).
Proof.
  pose proof (remove_download_smart_cases env file_path fs) as H. cbv zeta in H.
  destruct H as [[Hv Ht]|[[Hv Ht]|[[Hv Ht]|[[Hv Ht]|H]]]].
  - exists false. rewrite Hv, Ht. split; [reflexivity|].
    rewrite !list_elem_of_singleton. split; [discriminate|].
    intros [H|[H|H]]; discriminate H.
  - exists false. rewrite Hv, Ht. split; [reflexivity|].
    rewrite !list_elem_of_singleton. split; [discriminate|].
    intros [H|[H|H]]; discriminate H.
  - exists true. rewrite Hv, Ht. split; [reflexivity|].
    rewrite !list_elem_of_singleton. split; [tauto | reflexivity].
  - exists true. rewrite Hv. split; [reflexivity|]. split; [|reflexivity].
    intros _. right. left. now apply (loop_trace_verdict _ _ _ Ht).
  - destruct H as (t & tail & v & Ht & Hv & Hloop & Htail).
    exists v. rewrite Hv, Ht. split; [reflexivity|].
    destruct (loop_trace_verdict _ _ _ Hloop) as [Hno Hrep].
    assert (EvVerify true ∉ t) as Hnv by (intros Hin; apply Hno in Hin; discriminate).
    assert (forall r, EvReport r ∉ t) as Hnr
      by (intros r Hin; apply Hrep in Hin as [Hin _]; discriminate).
    rewrite !elem_of_app.
    destruct Htail as [[-> ->]|[[-> ->]|[-> ->]]].
    + split; [|reflexivity]. intros _. right. left. right.
      rewrite !elem_of_cons. tauto.
    + split; [|reflexivity]. intros _. right. right. right.
      rewrite !elem_of_cons. tauto.
    + split; [discriminate|].
      rewrite !elem_of_cons, !elem_of_nil.
      intros [[H|H]|[[H|H]|[H|H]]];
        try (exfalso; first [exact (Hnv H) | exact (Hnr _ H)]);
        repeat (destruct H as [H|H]; try discriminate H); destruct H.
Qed.

Lemma loop_trace_no_delay ms returned t :
  loop_trace ms returned t -> EvSleep 5 ∉ t.
Proof.
  induction 1 as [|m ms returned t _ IH|m ms returned t _ IH|m ms].
  - intros H. inversion H.
  - rewrite elem_of_cons. intros [H|H]; [discriminate H | exact (IH H)].
  - rewrite !elem_of_cons.
    intros [H|[H|[H|[H|H]]]]; try discriminate H. exact (IH H).
  - rewrite !elem_of_cons, elem_of_nil.
    intros [H|[H|[H|[H|[H|[H|[]]]]]]]; discriminate H.
Qed.

(** X2.  The strategies are invoked in the fixed order brctl, AppleScript,
    xattr, evict, each at most once; the delayed verification is
    reached only after all four. *)
Theorem strategies_tried_in_fixed_order env file_path fs :
  strategy_names (trace_of (remove_download_smart env file_path fs))
    `prefix_of` [Brctl; AppleScript; Xattr; Evict] /\
  (EvSleep 5 ∈ trace_of (remove_download_smart env file_path fs) ->
   strategy_names (trace_of (remove_download_smart env file_path fs))
   = [Brctl; AppleScript; Xattr; Evict]).
Proof.
  pose proof (remove_download_smart_cases env file_path fs) as H. cbv zeta in H.
  destruct H as [[Hv Ht]|[[Hv Ht]|[[Hv Ht]|[[Hv Ht]|H]]]].
  1-3: rewrite Ht; split; [apply prefix_nil|];
       rewrite list_elem_of_singleton; discriminate.
  - destruct (loop_trace_names _ _ _ Ht) as [Hp _]. split; [exact Hp|].
    intros Hin. exfalso. exact (loop_trace_no_delay _ _ _ Ht Hin).
  - destruct H as (t & tail & v & Ht & Hv & Hloop & Htail).
    destruct (loop_trace_names _ _ _ Hloop) as [_ Hall].
    specialize (Hall eq_refl).
    assert (strategy_names tail = []) as Hnone
      by (destruct Htail as [[_ ->]|[[_ ->]|[_ ->]]]; reflexivity).
    rewrite Ht, strategy_names_app, Hnone, app_nil_r, Hall.
    split; [reflexivity | intros _; reflexivity].
Qed.

(** X3.  One run sleeps at most fifteen seconds in total: two per
    verification after a strategy and seven for the delayed
    verification. *)
Theorem orchestrator_sleeps_at_most_15_seconds env file_path fs :
  0 <= total_sleep (trace_of (remove_download_smart env file_path fs)) <= 15.
Proof.
  pose proof (remove_download_smart_cases env file_path fs) as H. cbv zeta in H.
  destruct H as [[Hv Ht]|[[Hv Ht]|[[Hv Ht]|[[Hv Ht]|H]]]].
  1-3: rewrite Ht; cbn; lia.
  - pose proof (loop_trace_sleep _ _ _ Ht) as Hs.
    change (Z.of_nat (length (map fst (methods env)))) with 4 in Hs. lia.
  - destruct H as (t & tail & v & Ht & Hv & Hloop & Htail).
    pose proof (loop_trace_sleep _ _ _ Hloop) as Hs.
    change (Z.of_nat (length (map fst (methods env)))) with 4 in Hs.
    rewrite Ht, total_sleep_app.
    set (slept := total_sleep t) in *.
    destruct Htail as [[_ ->]|[[_ ->]|[_ ->]]]; cbn; lia.
Qed.

(** X4.  A report that names a strategy belongs to a run that this
    strategy ended: the strategy returned true, the policy was written,
    the verifier confirmed, the report was printed, and the policy was
    written once more before the orchestrator returned true. *)
Theorem eviction_report_names_confirmed_strategy env file_path fs m :
  EvReport (EvictedUsing m) ∈ trace_of (remove_download_smart env file_path fs) ->
  value_of (remove_download_smart env file_path fs) = Return true /\
  exists pre,
    trace_of (remove_download_smart env file_path fs)
    = pre ++ [ EvStrategy m true; EvPolicy; EvSleep 2; EvVerify true;
               EvReport (EvictedUsing m); EvPolicy ].
Proof.
  pose proof (remove_download_smart_cases env file_path fs) as H. cbv zeta in H.
  destruct H as [[Hv Ht]|[[Hv Ht]|[[Hv Ht]|[[Hv Ht]|H]]]].
  1-3: rewrite Ht, list_elem_of_singleton; discriminate.
  - intros Hin. split; [exact Hv|].
    destruct (loop_trace_verdict _ _ _ Ht) as [_ Hrep].
    destruct (Hrep _ Hin) as [_ [m' [pre [Hm Hpre]]]].
    injection Hm as ->. exists pre. exact Hpre.
  - destruct H as (t & tail & v & Ht & Hv & Hloop & Htail).
    rewrite Ht, elem_of_app. intros [Hin|Hin]; exfalso.
    + destruct (loop_trace_verdict _ _ _ Hloop) as [_ Hrep].
      destruct (Hrep _ Hin) as [Hd _]. discriminate Hd.
    + destruct Htail as [[_ ->]|[[_ ->]|[_ ->]]];
        rewrite !elem_of_cons, elem_of_nil in Hin;
        repeat (destruct Hin as [Hin|Hin]; try discriminate Hin); destruct Hin.
Qed.

Lemma eviction_report_names_confirmed_strategy_witness :
  value_of (remove_download_smart ex_env ex_cloud_path ex_fs_readable)
  = Return true.
Proof.
  apply (eviction_report_names_confirmed_strategy ex_env ex_cloud_path
           ex_fs_readable Xattr).
  let t := eval vm_compute in
    (trace_of (remove_download_smart ex_env ex_cloud_path ex_fs_readable)) in
  change (EvReport (EvictedUsing Xattr) ∈ t).
  rewrite !elem_of_cons. tauto.
Defined.

(** X5.  The orchestrator returns false either at once (missing file, or
    not a cloud file) or after it has invoked all four strategies, the
    delayed verification has failed too, and the policy has been
    written one last time. *)
Theorem failure_only_after_all_strategies env file_path fs :
  value_of (remove_download_smart env file_path fs) = Return false ->
  trace_of (remove_download_smart env file_path fs) = [EvReport FileNotFound] \/
  trace_of (remove_download_smart env file_path fs) = [EvReport NotAnICloudFile] \/
  exists t,
    trace_of (remove_download_smart env file_path fs)
    = t ++ [ EvSleep 5; EvSleep 2; EvVerify false; EvPolicy;
             EvReport CouldNotConfirm ] /\
    strategy_names t = [Brctl; AppleScript; Xattr; Evict] /\
    EvVerify true ∉ t.
Proof.
  pose proof (remove_download_smart_cases env file_path fs) as H. cbv zeta in H.
  destruct H as [[Hv Ht]|[[Hv Ht]|[[Hv Ht]|[[Hv Ht]|H]]]]; intros Hfalse.
  - now left.
  - right. now left.
  - rewrite Hv in Hfalse. discriminate.
  - rewrite Hv in Hfalse. discriminate.
  - destruct H as (t & tail & v & Ht & Hv & Hloop & Htail).
    rewrite Hv in Hfalse. injection Hfalse as ->.
    destruct Htail as [[Hd _]|[[Hd _]|[_ ->]]]; try discriminate Hd.
    right. right. exists t. split; [exact Ht|]. split.
    + now apply (loop_trace_names _ _ _ Hloop).
    + intros Hin. apply (loop_trace_verdict _ _ _ Hloop) in Hin. discriminate.
Qed.

Lemma failure_only_after_all_strategies_witness :
  trace_of (remove_download_smart ex_env ex_cloud_path ex_fs_locked)
    = [EvReport FileNotFound] \/
  trace_of (remove_download_smart ex_env ex_cloud_path ex_fs_locked)
    = [EvReport NotAnICloudFile] \/
  exists t,
    trace_of (remove_download_smart ex_env ex_cloud_path ex_fs_locked)
    = t ++ [ EvSleep 5; EvSleep 2; EvVerify false; EvPolicy;
             EvReport CouldNotConfirm ] /\
    strategy_names t = [Brctl; AppleScript; Xattr; Evict] /\
    EvVerify true ∉ t.
Proof.
  apply (failure_only_after_all_strategies ex_env ex_cloud_path ex_fs_locked).
  vm_compute. reflexivity.
Defined.

(** ** The strategies and the policy writes *)

(** X6.  A missing file: every strategy and the policy write return
    false without touching the file system or running a tool. *)
Theorem strategies_skip_missing_file env file_path fs :
  os_path_exists fs (abspath env file_path) = false ->
  remove_download_brctl env file_path fs = (false, fs, []) /\
  remove_download_applescript env file_path fs = (false, fs, []) /\
  remove_download_xattr env file_path fs = (false, fs, []) /\
  remove_download_evict env file_path fs = (false, fs, []) /\
  prevent_auto_redownload env file_path fs = (false, fs, []).
Proof.
  intros Hmissing.
  unfold remove_download_brctl, remove_download_applescript,
    remove_download_xattr, remove_download_evict, prevent_auto_redownload.
  step_eff. rewrite Hmissing. repeat split; reflexivity.
Qed.

Lemma strategies_skip_missing_file_witness :
  remove_download_brctl ex_env ex_cloud_path ex_fs_local
  = (false, ex_fs_local, []).
Proof.
  apply (strategies_skip_missing_file ex_env ex_cloud_path ex_fs_local).
  vm_compute. reflexivity.
Defined.

Lemma with_xattrs_same (f : File) : with_xattrs f (f_xattrs f) = f.
Proof. destruct f; reflexivity. Qed.

Lemma with_xattrs_twice (f : File) xs xs' :
  with_xattrs (with_xattrs f xs) xs' = with_xattrs f xs'.
Proof. reflexivity. Qed.

Lemma exists_lookup fs p :
  os_path_exists fs p = true -> exists f, fs !! p = Some f.
Proof. unfold os_path_exists. intros H. now apply bool_decide_eq_true in H. Qed.

Lemma lookup_exists fs p f : fs !! p = Some f -> os_path_exists fs p = true.
Proof. intros H. unfold os_path_exists. apply bool_decide_eq_true. eauto. Qed.

(** *** Writes on a file whose attributes may be written *)

Section Writable.

Context (fs : FS) (p : string) (f : File).
Hypothesis Hunlocked : f_xattr_locked f = false.

Lemma try_setxattr_at xs attr v :
  try_setxattr p attr v (<[p := with_xattrs f xs]> fs)
  = (true, <[p := with_xattrs f (<[attr := Return v]> xs)]> fs, []).
Proof.
  unfold try_setxattr, xattr_setxattr. rewrite lookup_insert_eq.
  cbn [with_xattrs f_xattr_locked f_xattrs]. rewrite Hunlocked.
  rewrite insert_insert_eq. reflexivity.
Qed.

Lemma try_removexattr_at xs attr :
  fs_of (try_removexattr p attr (<[p := with_xattrs f xs]> fs))
  = <[p := with_xattrs f (delete attr xs)]> fs /\
  trace_of (try_removexattr p attr (<[p := with_xattrs f xs]> fs)) = [].
Proof.
  unfold try_removexattr, xattr_removexattr. rewrite lookup_insert_eq.
  cbn [with_xattrs f_xattr_locked f_xattrs]. rewrite Hunlocked.
  destruct (xs !! attr) eqn:Hx.
  - rewrite insert_insert_eq. split; reflexivity.
  - rewrite delete_id by exact Hx. split; reflexivity.
Qed.

Lemma set_all_at writes xs :
  set_all p writes (<[p := with_xattrs f xs]> fs)
  = (Z.of_nat (length writes),
     <[p := with_xattrs f (apply_writes writes xs)]> fs, []).
Proof.
  revert xs. induction writes as [|[attr_name attr_value] rest IH]; intros xs.
  - reflexivity.
  - cbn [set_all]. unfold bind. rewrite try_setxattr_at, IH.
    cbn [length]. unfold ret. cbn. f_equal. f_equal. lia.
Qed.

End Writable.

Lemma lookup_apply_writes writes xs attr :
  apply_writes writes xs !! attr =
  match last_write writes attr with
  | Some v => Some (Return v)
  | None => xs !! attr
  end.
Proof.
  revert xs. induction writes as [|[name value] rest IH]; intros xs.
  - reflexivity.
  - unfold apply_writes in *. cbn [foldl last_write fst snd]. rewrite IH.
    destruct (last_write rest attr); [reflexivity|].
    destruct (String.eqb_spec name attr) as [->|Hne].
    + apply lookup_insert_eq.
    + now apply lookup_insert_ne.
Qed.

Lemma apply_writes_app ws ws' xs :
  apply_writes (ws ++ ws') xs = apply_writes ws' (apply_writes ws xs).
Proof. unfold apply_writes. apply foldl_app. Qed.

(** Writing the same list twice is writing it once. *)
Lemma apply_writes_twice writes xs :
  apply_writes writes (apply_writes writes xs) = apply_writes writes xs.
Proof.
  apply map_eq. intros attr. rewrite !lookup_apply_writes.
  destruct (last_write writes attr); reflexivity.
Qed.

(** A name that the writes set anyway may be deleted first. *)
Lemma apply_writes_delete writes xs attr :
  is_Some (last_write writes attr) ->
  apply_writes writes (delete attr xs) = apply_writes writes xs.
Proof.
  intros [v Hv]. apply map_eq. intros k. rewrite !lookup_apply_writes.
  destruct (last_write writes k) eqn:Hk; [reflexivity|].
  apply lookup_delete_ne. intros ->. congruence.
Qed.

(** The file system after [prevent_auto_redownload] on a writable
    file, up to what the policy tool does. *)
Lemma prevent_auto_redownload_writable env file_path fs f :
  fs !! abspath env file_path = Some f ->
  f_xattr_locked f = false ->
  prevent_auto_redownload env file_path fs
  = (true,
     (subprocess_run env (brctl_download_policy_never (abspath env file_path))
        (<[abspath env file_path :=
             with_xattrs f (apply_writes policy_attributes (f_xattrs f))]> fs)).2,
     []).
Proof.
  intros Hf Hu. unfold prevent_auto_redownload. step_eff.
  rewrite (lookup_exists _ _ _ Hf). cbn [negb].
  rewrite <- (insert_id fs _ _ Hf) at 1.
  rewrite <- (with_xattrs_same f) at 1.
  rewrite (set_all_at fs _ f Hu).
  unfold run.
  destruct (subprocess_run env _ _) as [pr fs']. reflexivity.
Qed.

Lemma set_all_locked p writes fs f :
  fs !! p = Some f -> f_xattr_locked f = true ->
  set_all p writes fs = (0, fs, []).
Proof.
  intros Hf Hl. induction writes as [|[attr_name attr_value] rest IH].
  - reflexivity.
  - cbn [set_all]. unfold bind, try_setxattr, xattr_setxattr.
    rewrite Hf, Hl, IH. reflexivity.
Qed.

Lemma prevent_auto_redownload_locked env file_path fs f :
  fs !! abspath env file_path = Some f ->
  f_xattr_locked f = true ->
  prevent_auto_redownload env file_path fs
  = (false,
     (subprocess_run env (brctl_download_policy_never (abspath env file_path)) fs).2,
     []).
Proof.
  intros Hf Hl. unfold prevent_auto_redownload. step_eff.
  rewrite (lookup_exists _ _ _ Hf). cbn [negb].
  rewrite (set_all_locked _ _ _ _ Hf Hl).
  unfold run.
  destruct (subprocess_run env _ _) as [pr fs']. reflexivity.
Qed.

(** The file system after [remove_download_xattr] on a writable
    file. *)
Lemma remove_download_xattr_writable env file_path fs f :
  fs !! abspath env file_path = Some f ->
  f_xattr_locked f = false ->
  remove_download_xattr env file_path fs
  = (true,
     <[abspath env file_path :=
         with_xattrs f (apply_writes policy_attributes (f_xattrs f))]> fs,
     []).
Proof.
  intros Hf Hu. unfold remove_download_xattr. cbv zeta.
  set (abs_path := abspath env file_path) in *.
  assert (forall (k : bool -> M bool) fs0,
             bind (look (fun fs1 => os_path_exists fs1 abs_path)) k fs0
             = (let '(r, fs2, t2) := k (os_path_exists fs0 abs_path) fs0 in
                (r, fs2, t2))) as Hlook.
  { intros k fs0. unfold bind, look.
    destruct (k _ fs0) as [[r fs2] t2]. reflexivity. }
  rewrite Hlook, (lookup_exists _ _ _ Hf). cbn [negb].
  unfold bind at 1. unfold look at 1.
  unfold os_path_getsize at 1. rewrite Hf.
  rewrite <- (insert_id fs _ _ Hf) at 1.
  rewrite <- (with_xattrs_same f) at 1.
  unfold bind.
  destruct (try_removexattr_at fs abs_path f Hu (f_xattrs f)
              "com.apple.file-provider.materialized") as [Hfs Htr].
  destruct (try_removexattr abs_path "com.apple.file-provider.materialized"
              (<[abs_path := with_xattrs f (f_xattrs f)]> fs))
    as [[removed fs1] t1].
  unfold fs_of, trace_of in Hfs, Htr. cbn in Hfs, Htr. subst fs1 t1.
  rewrite (set_all_at fs _ f Hu).
  rewrite !(try_setxattr_at fs _ f Hu).
  unfold ret. cbn [app]. f_equal. f_equal. f_equal. f_equal.
  change (<["com.apple.file-provider.placeholder":=Return (b "true")]>
          (<["com.apple.file-provider.placeholder":=Return (b "1")]>
           (<["com.apple.file-provider.materialized":=Return (b "false")]>
            (<["com.apple.file-provider.materialized":=Return (b "0")]>
             (apply_writes eviction_attempts
                (delete "com.apple.file-provider.materialized" (f_xattrs f)))))))
    with (apply_writes
            [ ("com.apple.file-provider.materialized", b "0");
              ("com.apple.file-provider.materialized", b "false");
              ("com.apple.file-provider.placeholder", b "1");
              ("com.apple.file-provider.placeholder", b "true") ]
            (apply_writes eviction_attempts
               (delete "com.apple.file-provider.materialized" (f_xattrs f)))).
  rewrite <- apply_writes_app.
  change (eviction_attempts ++ _) with policy_attributes.
  apply apply_writes_delete. vm_compute. eauto.
Qed.

Lemma try_setxattr_locked p attr v fs f :
  fs !! p = Some f -> f_xattr_locked f = true ->
  try_setxattr p attr v fs = (false, fs, []).
Proof.
  intros Hf Hl. unfold try_setxattr, xattr_setxattr. rewrite Hf, Hl. reflexivity.
Qed.

Lemma try_removexattr_locked p attr fs f :
  fs !! p = Some f -> f_xattr_locked f = true ->
  try_removexattr p attr fs = (false, fs, []).
Proof.
  intros Hf Hl. unfold try_removexattr, xattr_removexattr.
  rewrite Hf, Hl. reflexivity.
Qed.

Lemma remove_download_xattr_locked env file_path fs f :
  fs !! abspath env file_path = Some f ->
  f_xattr_locked f = true ->
  remove_download_xattr env file_path fs = (true, fs, []).
Proof.
  intros Hf Hl. unfold remove_download_xattr. step_eff.
  rewrite (lookup_exists _ _ _ Hf). cbn [negb].
  unfold os_path_getsize. rewrite Hf.
  rewrite (try_removexattr_locked _ _ _ _ Hf Hl).
  rewrite (set_all_locked _ _ _ _ Hf Hl).
  rewrite !(try_setxattr_locked _ _ _ _ _ Hf Hl).
  reflexivity.
Qed.

Lemma only_xattrs_of_refl p fs : only_xattrs_of p fs fs.
Proof. intros q. destruct (fs !! q); [repeat split | exact I]. Qed.

Lemma only_xattrs_of_insert p fs f xs :
  fs !! p = Some f -> only_xattrs_of p fs (<[p := with_xattrs f xs]> fs).
Proof.
  intros Hf q. destruct (decide (q = p)) as [->|Hne].
  - rewrite Hf, lookup_insert_eq. repeat split. intros Hq. contradiction.
  - rewrite lookup_insert_ne by congruence.
    destruct (fs !! q); [repeat split | exact I].
Qed.

Lemma last_write_none writes attr :
  last_write writes attr = None <-> attr ∉ map fst writes.
Proof.
  induction writes as [|[name value] rest IH]; cbn [last_write map fst].
  - split; [intros _ H; inversion H | reflexivity].
  - rewrite not_elem_of_cons, <- IH.
    destruct (last_write rest attr).
    + split; [discriminate | intros [_ H]; discriminate H].
    + destruct (String.eqb_spec name attr) as [->|Hne].
      * split; [discriminate | intros [H _]; contradiction].
      * split; [intros _; split; [congruence | reflexivity] | reflexivity].
Qed.

Lemma getxattr_insert fs p f xs attr :
  xattr_getxattr (<[p := with_xattrs f xs]> fs) p attr =
  match xs !! attr with
  | Some v => v
  | None => Raise ENOATTR
  end.
Proof. unfold xattr_getxattr. rewrite lookup_insert_eq. reflexivity. Qed.

(** X7.  On every file that exists the attribute strategy returns true,
    whether or not a single attribute could be written.  It changes
    nothing but extended attributes of that one file, and nothing at
    all when the attributes cannot be written. *)
Theorem xattr_strategy_always_reports_success env file_path fs :
  os_path_exists fs (abspath env file_path) = true ->
  value_of (remove_download_xattr env file_path fs) = true /\
  only_xattrs_of (abspath env file_path) fs
    (fs_of (remove_download_xattr env file_path fs)) /\
  (forall f,
      fs !! abspath env file_path = Some f ->
      f_xattr_locked f = true ->
      fs_of (remove_download_xattr env file_path fs) = fs).
Proof.
  intros Hex. destruct (exists_lookup _ _ Hex) as [f Hf].
  destruct (f_xattr_locked f) eqn:Hl.
  - rewrite (remove_download_xattr_locked env file_path fs f Hf Hl).
    repeat split. apply only_xattrs_of_refl.
  - rewrite (remove_download_xattr_writable env file_path fs f Hf Hl).
    split; [reflexivity|]. split.
    + now apply only_xattrs_of_insert.
    + intros f' Hf'. congruence.
Qed.

Lemma xattr_strategy_always_reports_success_witness :
  value_of (remove_download_xattr ex_env ex_cloud_path ex_fs_locked) = true /\
  fs_of (remove_download_xattr ex_env ex_cloud_path ex_fs_locked) = ex_fs_locked.
Proof.
  destruct (xattr_strategy_always_reports_success ex_env ex_cloud_path
              ex_fs_locked ltac:(vm_compute; reflexivity)) as (H1 & _ & H3).
  split; [exact H1|].
  eapply H3; [vm_compute; reflexivity | reflexivity].
Defined.

(** X8.  What the attribute strategy leaves on a file whose attributes
    can be written.  Of the values written to one name the last one
    stays: the download policies end as [b'0'], not [b'never']. *)
Theorem xattr_strategy_final_attributes env file_path fs f :
  fs !! abspath env file_path = Some f ->
  f_xattr_locked f = false ->
  let fs' := fs_of (remove_download_xattr env file_path fs) in
  let value_of_attr := xattr_getxattr fs' (abspath env file_path) in
  value_of_attr "com.apple.file-provider.download-policy" = Return (b "0") /\
  value_of_attr "com.apple.clouddocs.download-policy" = Return (b "0") /\
  value_of_attr "com.apple.file-provider.auto-download" = Return (b "false") /\
  value_of_attr "com.apple.clouddocs.auto-download" = Return (b "false") /\
  value_of_attr "com.apple.file-provider.evicted" = Return (b "true") /\
  value_of_attr "com.apple.file-provider.materialized" = Return (b "false") /\
  value_of_attr "com.apple.file-provider.placeholder" = Return (b "true") /\
  (forall attr,
      attr ∉ map fst policy_attributes ->
      value_of_attr attr = xattr_getxattr fs (abspath env file_path) attr).
Proof.
  intros Hf Hu fs' value_of_attr. unfold value_of_attr, fs'.
  rewrite (remove_download_xattr_writable env file_path fs f Hf Hu).
  unfold fs_of. cbn [fst snd].
  rewrite !getxattr_insert, !lookup_apply_writes.
  repeat (split; [reflexivity|]).
  intros attr Hattr. rewrite getxattr_insert, lookup_apply_writes.
  apply last_write_none in Hattr. rewrite Hattr.
  unfold xattr_getxattr. rewrite Hf. reflexivity.
Qed.

Lemma xattr_strategy_final_attributes_witness :
  xattr_getxattr
    (fs_of (remove_download_xattr ex_env ex_cloud_path ex_fs_small))
    ex_cloud_path "com.apple.file-provider.download-policy"
  = Return (b "0").
Proof.
  eapply (xattr_strategy_final_attributes ex_env ex_cloud_path ex_fs_small).
  - vm_compute. reflexivity.
  - reflexivity.
Defined.

Lemma prevent_auto_redownload_missing env file_path fs :
  os_path_exists fs (abspath env file_path) = false ->
  prevent_auto_redownload env file_path fs = (false, fs, []).
Proof.
  intros H. unfold prevent_auto_redownload. step_eff. rewrite H. reflexivity.
Qed.

Lemma remove_download_xattr_missing env file_path fs :
  os_path_exists fs (abspath env file_path) = false ->
  remove_download_xattr env file_path fs = (false, fs, []).
Proof.
  intros H. unfold remove_download_xattr. step_eff. rewrite H. reflexivity.
Qed.

(** X9.  [prevent_auto_redownload] is idempotent when the policy tool
    leaves the file system alone: a second call changes nothing. *)
Theorem prevent_auto_redownload_idempotent env file_path fs :
  (forall fs0,
      (subprocess_run env
         (brctl_download_policy_never (abspath env file_path)) fs0).2 = fs0) ->
  fs_of (prevent_auto_redownload env file_path
           (fs_of (prevent_auto_redownload env file_path fs)))
  = fs_of (prevent_auto_redownload env file_path fs).
Proof.
  intros Hinert.
  destruct (os_path_exists fs (abspath env file_path)) eqn:Hex.
  2: { rewrite (prevent_auto_redownload_missing env file_path fs Hex).
       unfold fs_of at 2 3. cbn [fst snd].
       rewrite (prevent_auto_redownload_missing env file_path fs Hex).
       reflexivity. }
  destruct (exists_lookup _ _ Hex) as [f Hf].
  destruct (f_xattr_locked f) eqn:Hl.
  - rewrite (prevent_auto_redownload_locked env file_path fs f Hf Hl).
    unfold fs_of at 2 3. cbn [fst snd]. rewrite Hinert.
    rewrite (prevent_auto_redownload_locked env file_path fs f Hf Hl).
    unfold fs_of. cbn [fst snd]. apply Hinert.
  - rewrite (prevent_auto_redownload_writable env file_path fs f Hf Hl).
    unfold fs_of at 2 3. cbn [fst snd]. rewrite Hinert.
    rewrite (prevent_auto_redownload_writable env file_path _
               (with_xattrs f (apply_writes policy_attributes (f_xattrs f))));
      [|apply lookup_insert_eq | exact Hl].
    unfold fs_of. cbn [fst snd]. rewrite Hinert.
    rewrite insert_insert_eq. cbn [f_xattrs with_xattrs].
    rewrite apply_writes_twice. reflexivity.
Qed.

Lemma prevent_auto_redownload_idempotent_witness :
  fs_of (prevent_auto_redownload ex_env ex_cloud_path
           (fs_of (prevent_auto_redownload ex_env ex_cloud_path ex_fs_downloaded)))
  = fs_of (prevent_auto_redownload ex_env ex_cloud_path ex_fs_downloaded).
Proof.
  apply (prevent_auto_redownload_idempotent ex_env ex_cloud_path ex_fs_downloaded).
  intros fs0. reflexivity.
Defined.

(** X10.  The policy write that the orchestrator makes right after the
    attribute strategy finds everything in place: with the policy tool
    leaving the file system alone it changes nothing. *)
Theorem policy_write_after_xattr_strategy_changes_nothing env file_path fs :
  (forall fs0,
      (subprocess_run env
         (brctl_download_policy_never (abspath env file_path)) fs0).2 = fs0) ->
  fs_of (prevent_auto_redownload env file_path
           (fs_of (remove_download_xattr env file_path fs)))
  = fs_of (remove_download_xattr env file_path fs).
Proof.
  intros Hinert.
  destruct (os_path_exists fs (abspath env file_path)) eqn:Hex.
  2: { rewrite (remove_download_xattr_missing env file_path fs Hex).
       unfold fs_of at 2 3. cbn [fst snd].
       rewrite (prevent_auto_redownload_missing env file_path fs Hex).
       reflexivity. }
  destruct (exists_lookup _ _ Hex) as [f Hf].
  destruct (f_xattr_locked f) eqn:Hl.
  - rewrite (remove_download_xattr_locked env file_path fs f Hf Hl).
    unfold fs_of at 2 3. cbn [fst snd].
    rewrite (prevent_auto_redownload_locked env file_path fs f Hf Hl).
    unfold fs_of. cbn [fst snd]. apply Hinert.
  - rewrite (remove_download_xattr_writable env file_path fs f Hf Hl).
    unfold fs_of at 2 3. cbn [fst snd].
    rewrite (prevent_auto_redownload_writable env file_path _
               (with_xattrs f (apply_writes policy_attributes (f_xattrs f))));
      [|apply lookup_insert_eq | exact Hl].
    unfold fs_of. cbn [fst snd]. rewrite Hinert.
    rewrite insert_insert_eq. cbn [f_xattrs with_xattrs].
    rewrite apply_writes_twice. reflexivity.
Qed.

Lemma policy_write_after_xattr_strategy_changes_nothing_witness :
  fs_of (prevent_auto_redownload ex_env ex_cloud_path
           (fs_of (remove_download_xattr ex_env ex_cloud_path ex_fs_downloaded)))
  = fs_of (remove_download_xattr ex_env ex_cloud_path ex_fs_downloaded).
Proof.
  apply (policy_write_after_xattr_strategy_changes_nothing ex_env ex_cloud_path
           ex_fs_downloaded).
  intros fs0. reflexivity.
Defined.

(** X11.  [prevent_auto_redownload] returns true exactly when an attribute
    write went through, that is, when the file exists and its
    attributes can be written; what the policy tool answers plays no
    part. *)
Theorem prevent_auto_redownload_result env file_path fs :
  value_of (prevent_auto_redownload env file_path fs) = true <->
  exists f, fs !! abspath env file_path = Some f /\ f_xattr_locked f = false.
Proof.
  destruct (os_path_exists fs (abspath env file_path)) eqn:Hex.
  2: { rewrite (prevent_auto_redownload_missing env file_path fs Hex).
       split; [discriminate|]. intros [f [Hf _]].
       rewrite (lookup_exists _ _ _ Hf) in Hex. discriminate. }
  destruct (exists_lookup _ _ Hex) as [f Hf].
  destruct (f_xattr_locked f) eqn:Hl.
  - rewrite (prevent_auto_redownload_locked env file_path fs f Hf Hl).
    split; [discriminate|]. intros [f' [Hf' Hu]]. congruence.
  - rewrite (prevent_auto_redownload_writable env file_path fs f Hf Hl).
    split; [eauto | reflexivity].
Qed.

(** ** More about the classifier *)

(** The flags of a returned status: all false for a file that is not a
    cloud file, exactly one of downloaded and placeholder otherwise. *)
Lemma get_icloud_file_status_flags env fs p st :
  get_icloud_file_status env fs p = Return (Some st) ->
  (is_icloud_file st = false /\ is_downloaded st = false /\
   is_placeholder st = false /\ is_downloading st = false) \/
  (is_icloud_file st = true /\
   xorb (is_downloaded st) (is_placeholder st) = true).
Proof.
  intros Hget.
  destruct (get_icloud_file_status_inv _ _ _ _ Hget) as [attrs [Hl Hst]].
  cbv zeta in Hst.
  set (s0 := detect_icloud env p attrs (initial_status fs p attrs)) in *.
  destruct (detect_icloud_fields env p attrs (initial_status fs p attrs))
    as (Hd & Hp & _).
  destruct (initial_status_fields fs p attrs) as (_ & Hd0 & Hp0 & _).
  fold s0 in Hd, Hp.
  destruct (is_icloud_file s0) eqn:Hc.
  - right. subst st. split.
    + destruct (probe_content_frame fs p (attribute_steps fs p attrs s0))
        as (B1 & _).
      destruct (attribute_steps_frame fs p attrs s0) as (A1 & _). congruence.
    + apply probe_content_xor, attribute_steps_xor; congruence.
  - left. subst st. repeat split; try congruence.
    unfold s0, detect_icloud, initial_status.
    destruct (icloud_attrs_of attrs); [destruct (startswith _ _)|];
      destruct (os_path_getsize fs p); reflexivity.
Qed.

Lemma probe_content_downloading fs p st :
  is_downloading (probe_content fs p st) = is_downloading st.
Proof.
  unfold probe_content, mark_placeholder.
  repeat (match goal with
          | |- context [if ?c then _ else _] => destruct c
          | |- context [match ?c with Return _ => _ | Raise _ => _ end] => destruct c
          end; simpl); reflexivity.
Qed.

Lemma infer_placeholder_downloading attrs st :
  is_downloading (infer_placeholder attrs st) = is_downloading st.
Proof.
  unfold infer_placeholder. destruct (is_icloud_file st); [|reflexivity].
  assert (forall cs s, is_downloading (scan_placeholder attrs cs s)
                       = is_downloading s) as Hscan.
  { induction cs as [|i cs IH]; intros s; cbn [scan_placeholder]; [reflexivity|].
    destruct (name_in i attrs); [reflexivity | apply IH]. }
  destruct (negb _ && negb _);
    [cbn [set_is_placeholder is_downloading]|]; apply Hscan.
Qed.

Lemma scan_downloading_spec attrs cs st :
  is_downloading (scan_downloading attrs cs st) = true <->
  is_downloading st = true \/ exists attr, attr ∈ cs /\ attr ∈ attrs.
Proof.
  induction cs as [|a cs IH]; cbn [scan_downloading].
  - split; [now left|]. intros [H|[attr [H _]]]; [exact H | inversion H].
  - destruct (name_in a attrs) eqn:Ha.
    + cbn. split; [|reflexivity]. intros _. right. exists a.
      split; [left | now apply name_in_spec].
    + rewrite IH. apply name_in_false in Ha. split.
      * intros [H|[attr [H1 H2]]]; [now left|]. right. exists attr.
        split; [now right | exact H2].
      * intros [H|[attr [H1 H2]]]; [now left|].
        apply elem_of_cons in H1 as [->|H1]; [contradiction|]. right. eauto.
Qed.

(** X12.  [is_downloading] is set exactly when the file carries one of
    the two "downloading" attributes; their values are not looked
    at. *)
Theorem is_downloading_iff env fs p st :
  get_icloud_file_status env fs p = Return (Some st) ->
  is_downloading st = true <->
  exists attr, attr ∈ downloading_attrs /\ attr ∈ attributes st.
Proof.
  intros Hget.
  destruct (get_icloud_file_status_inv _ _ _ _ Hget) as [attrs [Hl Hst]].
  destruct (get_icloud_file_status_frame _ _ _ _ _ Hl Hget) as (Ha & Hc & _).
  rewrite Ha. cbv zeta in Hst.
  set (s0 := detect_icloud env p attrs (initial_status fs p attrs)) in *.
  assert (is_downloading s0 = false) as Hs0.
  { unfold s0, detect_icloud, initial_status.
    destruct (icloud_attrs_of attrs); [destruct (startswith _ _)|];
      destruct (os_path_getsize fs p); reflexivity. }
  assert ((exists attr, attr ∈ downloading_attrs /\ attr ∈ attrs) ->
          is_icloud_file s0 = true) as Hcloud.
  { intros [attr [Hd Hin]]. apply detect_icloud_true. left.
    unfold downloading_attrs in Hd.
    rewrite !elem_of_cons, elem_of_nil in Hd.
    destruct Hd as [->|[->|[]]].
    - exists "com.apple.file-provider.downloading", "com.apple.file-provider".
      split; [exact Hin|]. split; [left | reflexivity].
    - exists "com.apple.icloud.downloading", "com.apple.icloud".
      split; [exact Hin|]. split; [right; left | reflexivity]. }
  destruct (is_icloud_file s0) eqn:Hc0.
  - subst st. rewrite probe_content_downloading.
    unfold attribute_steps. rewrite infer_placeholder_downloading.
    rewrite scan_downloading_spec.
    destruct (scan_materialized_frame fs p attrs materialized_attrs s0)
      as (_ & _ & Hdl).
    rewrite Hdl, Hs0. split; [|now right].
    intros [H|H]; [discriminate | exact H].
  - subst st. rewrite Hs0. split; [discriminate|].
    intros H. specialize (Hcloud H). discriminate.
Qed.

Lemma is_downloading_iff_witness :
  exists st,
    get_icloud_file_status ex_env ex_fs_downloaded ex_cloud_path = Return (Some st) /\
    is_downloading st = false.
Proof.
  eexists. split; [vm_compute; reflexivity|].
  apply not_true_iff_false.
  rewrite (is_downloading_iff ex_env ex_fs_downloaded ex_cloud_path)
    by (vm_compute; reflexivity).
  intros [attr [Hd Hin]]. cbn in Hin.
  apply list_elem_of_singleton in Hin. subst attr.
  unfold downloading_attrs in Hd. rewrite !elem_of_cons, elem_of_nil in Hd.
  destruct Hd as [H|[H|[]]]; discriminate H.
Defined.

(** A placeholder attribute on a file too small for the content check
    decides the flags. *)
Lemma placeholder_indicator_forces env fs p st indicator :
  get_icloud_file_status env fs p = Return (Some st) ->
  indicator ∈ placeholder_indicators ->
  indicator ∈ attributes st ->
  file_size st <= 1024 ->
  is_icloud_file st = true /\ is_placeholder st = true /\ is_downloaded st = false.
Proof.
  intros Hget Hi Hin Hsmall.
  destruct (get_icloud_file_status_inv _ _ _ _ Hget) as [attrs [Hl Hst]].
  destruct (get_icloud_file_status_frame _ _ _ _ _ Hl Hget) as (Ha & Hc & Hsz).
  rewrite Ha in Hin. cbv zeta in Hst.
  set (s0 := detect_icloud env p attrs (initial_status fs p attrs)) in *.
  assert (is_icloud_file s0 = true) as Hc0.
  { apply detect_icloud_true. left.
    unfold placeholder_indicators in Hi.
    rewrite !elem_of_cons, elem_of_nil in Hi.
    destruct Hi as [->|[->|[]]].
    - exists "com.apple.icloud.placeholder", "com.apple.icloud".
      split; [exact Hin|]. split; [right; left | reflexivity].
    - exists "com.apple.file-provider.placeholder", "com.apple.file-provider".
      split; [exact Hin|]. split; [left | reflexivity]. }
  rewrite Hc0 in Hst, Hc. split; [exact Hc|].
  assert (file_size (attribute_steps fs p attrs s0) <= 1024) as Hsmall'.
  { destruct (probe_content_frame fs p (attribute_steps fs p attrs s0))
      as (_ & B2 & _). rewrite <- Hst in B2. lia. }
  rewrite probe_content_small in Hst by exact Hsmall'. subst st.
  unfold attribute_steps, infer_placeholder.
  set (s2 := scan_downloading attrs downloading_attrs
               (scan_materialized fs p attrs materialized_attrs s0)).
  assert (is_icloud_file s2 = true) as Hc2.
  { destruct (scan_downloading_frame attrs downloading_attrs
                (scan_materialized fs p attrs materialized_attrs s0))
      as [(H1 & _) _].
    destruct (scan_materialized_frame fs p attrs materialized_attrs s0)
      as [(H2 & _) _].
    unfold s2. congruence. }
  rewrite Hc2.
  destruct (scan_placeholder_cases attrs placeholder_indicators s2)
    as [_ [[_ [H1 H2]] | [Hnone _]]].
  - rewrite H1, H2. cbn [negb andb]. split; assumption.
  - exfalso. exact (Hnone indicator Hi Hin).
Qed.

(** X13.  An explicit placeholder attribute wins over the materialized
    attribute: with it, a file too small for the content check is a
    cloud file, a placeholder and not downloaded, whatever the
    materialized attribute says. *)
Theorem placeholder_attribute_wins env fs p st indicator :
  get_icloud_file_status env fs p = Return (Some st) ->
  indicator ∈ placeholder_indicators ->
  indicator ∈ attributes st ->
  file_size st <= 1024 ->
  is_icloud_file st = true /\ is_placeholder st = true /\ is_downloaded st = false.
Proof. apply placeholder_indicator_forces. Qed.

Lemma placeholder_attribute_wins_witness :
  exists st,
    get_icloud_file_status ex_env ex_fs_marked ex_cloud_path = Return (Some st) /\
    is_placeholder st = true /\ is_downloaded st = false.
Proof.
  eexists. split; [vm_compute; reflexivity|].
  eapply (placeholder_attribute_wins ex_env ex_fs_marked ex_cloud_path _
            "com.apple.file-provider.placeholder").
  - vm_compute. reflexivity.
  - right. left.
  - apply name_in_spec. vm_compute. reflexivity.
  - vm_compute. discriminate.
Defined.

Lemma scan_materialized_absent fs p attrs cs st :
  (forall a, a ∈ cs -> a ∉ attrs) ->
  scan_materialized fs p attrs cs st = st.
Proof.
  induction cs as [|a cs IH]; intros Hnone; cbn [scan_materialized]; [reflexivity|].
  assert (name_in a attrs = false) as -> by (apply name_in_false, Hnone; left).
  apply IH. intros a' Ha'. apply Hnone. now right.
Qed.

(** X14.  Placeholder by elimination: a cloud file that carries none of
    the materialized attributes and is too small for the content check
    is reported as a placeholder and as not downloaded. *)
Theorem cloud_file_without_materialized_attribute env fs p st :
  get_icloud_file_status env fs p = Return (Some st) ->
  is_icloud_file st = true ->
  (forall attr, attr ∈ materialized_attrs -> attr ∉ attributes st) ->
  file_size st <= 1024 ->
  is_placeholder st = true /\ is_downloaded st = false.
Proof.
  intros Hget Hc Hnone Hsmall.
  destruct (get_icloud_file_status_inv _ _ _ _ Hget) as [attrs [Hl Hst]].
  destruct (get_icloud_file_status_frame _ _ _ _ _ Hl Hget) as (Ha & Hc' & Hsz).
  rewrite Ha in Hnone. cbv zeta in Hst.
  set (s0 := detect_icloud env p attrs (initial_status fs p attrs)) in *.
  rewrite Hc in Hc'. rewrite <- Hc' in Hst.
  assert (file_size (attribute_steps fs p attrs s0) <= 1024) as Hsmall'.
  { destruct (probe_content_frame fs p (attribute_steps fs p attrs s0))
      as (_ & B2 & _). rewrite <- Hst in B2. lia. }
  rewrite probe_content_small in Hst by exact Hsmall'. subst st.
  unfold attribute_steps.
  rewrite (scan_materialized_absent fs p attrs materialized_attrs s0 Hnone).
  unfold infer_placeholder.
  set (s2 := scan_downloading attrs downloading_attrs s0).
  destruct (scan_downloading_frame attrs downloading_attrs s0)
    as [(H1 & _) [H2 H3]].
  destruct (detect_icloud_fields env p attrs (initial_status fs p attrs))
    as (Hd & Hp & _).
  destruct (initial_status_fields fs p attrs) as (_ & Hd0 & Hp0 & _).
  fold s0 in Hd, Hp. fold s2 in H1, H2, H3.
  assert (is_icloud_file s2 = true) as -> by congruence.
  destruct (scan_placeholder_cases attrs placeholder_indicators s2)
    as [_ [[_ [K1 K2]] | [_ Heq]]].
  - rewrite K1, K2. cbn [negb andb]. split; assumption.
  - rewrite Heq.
    assert (is_placeholder s2 = false) as -> by congruence.
    assert (is_downloaded s2 = false) as Hd2 by congruence.
    rewrite Hd2. cbn. split; [reflexivity | exact Hd2].
Qed.

Lemma cloud_file_without_materialized_attribute_witness :
  exists st,
    get_icloud_file_status ex_env ex_fs_bare ex_cloud_path = Return (Some st) /\
    is_placeholder st = true /\ is_downloaded st = false.
Proof.
  eexists. split; [vm_compute; reflexivity|].
  eapply (cloud_file_without_materialized_attribute ex_env ex_fs_bare ex_cloud_path).
  - vm_compute. reflexivity.
  - reflexivity.
  - intros attr _ Hin. cbn in Hin. inversion Hin.
  - vm_compute. discriminate.
Defined.

(** ** The folder and batch functions *)

(** X15.  [is_icloud_file_downloaded] answers true only for a file that
    is classified as a cloud file, downloaded and no placeholder; a
    missing or unreadable path and a file that is not a cloud file give
    false. *)
Theorem is_icloud_file_downloaded_iff env fs p :
  is_icloud_file_downloaded env fs p = true <->
  exists st,
    get_icloud_file_status env fs p = Return (Some st) /\
    is_icloud_file st = true /\
    is_downloaded st = true /\
    is_placeholder st = false.
Proof.
  unfold is_icloud_file_downloaded.
  destruct (get_icloud_file_status env fs p) as [[st|]|e] eqn:Hget.
  - split.
    + intros Hd. exists st. split; [reflexivity|].
      destruct (get_icloud_file_status_flags _ _ _ _ Hget)
        as [(_ & Hd' & _) | (Hc & Hx)]; [congruence|].
      rewrite Hd in Hx. cbn in Hx. apply negb_true_iff in Hx. tauto.
    + intros [st' [Heq (_ & Hd & _)]]. injection Heq as <-. exact Hd.
  - split; [discriminate | intros [st [Heq _]]; discriminate].
  - split; [discriminate | intros [st [Heq _]]; discriminate].
Qed.

Lemma remove_downloads_from_entries_idle env is_file entries fs :
  (forall p, p ∈ entries -> is_file fs p = true ->
             is_icloud_file_downloaded env fs p = false) ->
  remove_downloads_from_entries env is_file entries fs = (tt, fs, []).
Proof.
  induction entries as [|file_path rest IH]; intros Hnone; [reflexivity|].
  cbn [remove_downloads_from_entries]. step_eff.
  destruct (is_file fs file_path) eqn:Hfile; cbv beta iota zeta.
  - rewrite (Hnone file_path ltac:(left) Hfile). cbv beta iota zeta.
    rewrite IH by (intros p Hp; apply Hnone; now right). reflexivity.
  - rewrite IH by (intros p Hp; apply Hnone; now right). reflexivity.
Qed.

(** X16.  A folder in which no file is a downloaded cloud file is left
    alone by [remove_downloads_from_folder]: the eviction command is
    not run and the file system stays as it was, whatever the tools
    would do. *)
Theorem folder_without_downloads_is_left_alone env is_file glob fs :
  (forall entries p,
      glob = Some entries -> p ∈ entries -> is_file fs p = true ->
      is_icloud_file_downloaded env fs p = false) ->
  remove_downloads_from_folder env is_file glob fs = (tt, fs, []).
Proof.
  intros Hnone. destruct glob as [entries|]; [|reflexivity].
  apply remove_downloads_from_entries_idle.
  intros p Hp. exact (Hnone entries p eq_refl Hp).
Qed.

Lemma folder_without_downloads_is_left_alone_witness :
  remove_downloads_from_folder ex_env os_path_exists
    (Some [ex_local_path; "/Users/u/Documents/missing.txt"]) ex_fs_local
  = (tt, ex_fs_local, []).
Proof.
  apply folder_without_downloads_is_left_alone.
  intros entries p Heq Hp _. injection Heq as <-.
  rewrite !elem_of_cons, elem_of_nil in Hp.
  destruct Hp as [->|[->|[]]]; vm_compute; reflexivity.
Defined.

Lemma remove_download_smart_returns env file_path fs :
  exists success, value_of (remove_download_smart env file_path fs) = Return success.
Proof.
  pose proof (remove_download_smart_cases env file_path fs) as H. cbv zeta in H.
  destruct H as [[Hv _]|[[Hv _]|[[Hv _]|[[Hv _]|H]]]]; eauto.
  destruct H as (t & tail & v & _ & Hv & _). eauto.
Qed.

Lemma batch_loop_results env file_paths results fs :
  exists more,
    value_of (batch_loop env file_paths results fs) = Return (results ++ more) /\
    map fst more = file_paths.
Proof.
  revert results fs.
  induction file_paths as [|file_path rest IH]; intros results fs.
  - exists []. cbn. rewrite app_nil_r. split; reflexivity.
  - cbn [batch_loop]. rewrite value_of_bind.
    destruct (remove_download_smart_returns env file_path fs) as [success Hs].
    rewrite Hs.
    destruct (IH (results ++ [(file_path, success)])
                (fs_of (remove_download_smart env file_path fs)))
      as [more [Hv Hm]].
    exists ((file_path, success) :: more). split.
    + rewrite Hv, <- app_assoc. reflexivity.
    + cbn. now rewrite Hm.
Qed.

(** X17.  [batch_remove_downloads] never raises and returns one result
    per path, in the order of the paths, duplicates included. *)
Theorem batch_returns_one_result_per_path env file_paths fs :
  exists results,
    value_of (batch_remove_downloads env file_paths fs) = Return results /\
    map fst results = file_paths.
Proof.
  destruct (batch_loop_results env file_paths [] fs) as [more [Hv Hm]].
  exists more. split; [exact Hv | exact Hm].
Qed.

Lemma batch_loop_idle env file_paths results fs :
  (forall p, p ∈ file_paths ->
     remove_download_smart env p fs = (Return false, fs, [EvReport NotAnICloudFile])
     \/ remove_download_smart env p fs = (Return false, fs, [EvReport FileNotFound])) ->
  value_of (batch_loop env file_paths results fs)
  = Return (results ++ map (fun p => (p, false)) file_paths) /\
  fs_of (batch_loop env file_paths results fs) = fs /\
  no_strategy (trace_of (batch_loop env file_paths results fs)).
Proof.
  revert results.
  induction file_paths as [|file_path rest IH]; intros results Hall.
  - cbn. rewrite app_nil_r. repeat split. apply no_strategy_nil.
  - cbn [batch_loop]. split_bind.
    assert (forall p, p ∈ rest ->
              remove_download_smart env p fs
              = (Return false, fs, [EvReport NotAnICloudFile])
              \/ remove_download_smart env p fs
                 = (Return false, fs, [EvReport FileNotFound])) as Hrest
      by (intros p Hp; apply Hall; now right).
    destruct (Hall file_path ltac:(left)) as [Heq|Heq]; rewrite Heq;
      unfold value_of, fs_of, trace_of; cbn [fst snd];
      destruct (IH (results ++ [(file_path, false)]) Hrest) as (H1 & H2 & H3);
      unfold value_of, fs_of, trace_of in H1, H2, H3;
      rewrite H1, H2, <- app_assoc;
      (repeat split); (apply no_strategy_cons; [discriminate | exact H3]).
Qed.

(** X18.  A batch over paths none of which is a cloud file (or exists)
    reports false for each of them, invokes no strategy and leaves the
    file system as it was. *)
Theorem batch_over_local_files_touches_nothing env file_paths fs :
  (forall p, p ∈ file_paths ->
     forall st, get_icloud_file_status env fs (abspath env p) = Return (Some st) ->
                is_icloud_file st = false) ->
  value_of (batch_remove_downloads env file_paths fs)
  = Return (map (fun p => (p, false)) file_paths) /\
  fs_of (batch_remove_downloads env file_paths fs) = fs /\
  forall m ok,
    EvStrategy m ok ∉ trace_of (batch_remove_downloads env file_paths fs).
Proof.
  intros Hlocal. apply (batch_loop_idle env file_paths [] fs).
  intros p Hp.
  destruct (os_path_exists fs (abspath env p)) eqn:Hex.
  - left.
    destruct (get_icloud_file_status env fs (abspath env p)) as [[st|]|e] eqn:Hget.
    + apply (remove_download_smart_not_cloud env p fs st Hget).
      exact (Hlocal p Hp st Hget).
    + exact (remove_download_smart_no_status env p fs Hex Hget).
    + exfalso. exact (get_icloud_file_status_never_raises _ _ _ _ Hget).
  - right. exact (remove_download_smart_missing env p fs Hex).
Qed.

Lemma batch_over_local_files_touches_nothing_witness :
  value_of (batch_remove_downloads ex_env
              [ex_local_path; "/Users/u/Documents/missing.txt"] ex_fs_local)
  = Return [(ex_local_path, false); ("/Users/u/Documents/missing.txt", false)].
Proof.
  apply (batch_over_local_files_touches_nothing ex_env
           [ex_local_path; "/Users/u/Documents/missing.txt"] ex_fs_local).
  intros p Hp st Hget.
  rewrite !elem_of_cons, elem_of_nil in Hp.
  destruct Hp as [->|[->|[]]]; vm_compute in Hget.
  - injection Hget as <-. reflexivity.
  - discriminate Hget.
Defined.

(** ** More about the verifier *)

Lemma verify_eviction_fs env file_path original_size fs :
  fs_of (verify_eviction env file_path original_size fs) = time_sleep env 2 fs.
Proof.
  unfold verify_eviction, sleep, fs_of. step_eff.
  repeat (match goal with
          | |- context [if ?c then _ else _] => destruct c
          | |- context [match ?c with Return _ => _ | Raise _ => _ end] =>
              destruct c
          | |- context [match ?c with Some _ => _ | None => _ end] =>
              destruct c
          end; cbn [fst snd]); reflexivity.
Qed.

(** X19.  Verification only looks: apart from the two seconds it sleeps,
    it leaves the file system as it is, whatever its verdict. *)
Theorem verify_eviction_only_waits env file_path original_size fs :
  fs_of (verify_eviction env file_path original_size fs) = time_sleep env 2 fs /\
  trace_of (verify_eviction env file_path original_size fs) = [EvSleep 2].
Proof.
  split; [apply verify_eviction_fs | apply verify_eviction_trace].
Qed.

(** X20.  Verifying a file that is not a cloud file always confirms, with
    the reason "no longer marked as downloaded"; for a cloud file this
    reason never occurs, since a cloud file that is not downloaded is a
    placeholder. *)
Theorem verify_eviction_confirms_local_files env file_path original_size fs st :
  get_icloud_file_status env (time_sleep env 2 fs) file_path = Return (Some st) ->
  (is_icloud_file st = false ->
   value_of (verify_eviction env file_path original_size fs)
   = (true, NoLongerDownloaded)) /\
  (is_icloud_file st = true ->
   snd (value_of (verify_eviction env file_path original_size fs))
   <> NoLongerDownloaded).
Proof.
  intros Hget.
  destruct (get_icloud_file_status_flags _ _ _ _ Hget)
    as [(Hc & Hd & Hp & _) | (Hc & Hx)].
  - split; [|congruence]. intros _.
    unfold verify_eviction, sleep, value_of. step_eff.
    rewrite Hget, Hp, Hd. reflexivity.
  - split; [congruence|]. intros _.
    unfold verify_eviction, sleep, value_of. step_eff. rewrite Hget.
    destruct (is_placeholder st); [discriminate|].
    rewrite xorb_false_r in Hx. rewrite Hx. cbn [negb].
    repeat (match goal with
            | |- context [if ?c then _ else _] => destruct c
            | |- context [match ?c with Some _ => _ | None => _ end] =>
                destruct c
            end; cbn [fst snd]); discriminate.
Qed.

Lemma verify_eviction_confirms_local_files_witness :
  value_of (verify_eviction ex_env ex_local_path (Some 50000) ex_fs_local)
  = (true, NoLongerDownloaded).
Proof.
  eapply (verify_eviction_confirms_local_files ex_env ex_local_path
            (Some 50000) ex_fs_local).
  - vm_compute. reflexivity.
  - reflexivity.
Defined.

(** ** The orchestrator where nothing evicts *)

Lemma listed_names fs p f attr :
  fs !! p = Some f ->
  f_listxattr_error f = None ->
  exists attrs,
    xattr_listxattr fs p = Return attrs /\
    (attr ∈ attrs <-> is_Some (f_xattrs f !! attr)).
Proof.
  intros Hf Hl. unfold xattr_listxattr. rewrite Hf, Hl.
  eexists. split; [reflexivity|].
  rewrite list_elem_of_fmap. split.
  - intros [[k v] [-> Hin]]. apply elem_of_map_to_list in Hin. eauto.
  - intros [v Hv]. exists (attr, v). split; [reflexivity|].
    now apply elem_of_map_to_list.
Qed.

Lemma status_size env fs p f st :
  fs !! p = Some f ->
  get_icloud_file_status env fs p = Return (Some st) ->
  file_size st = f_size f.
Proof.
  intros Hf Hget.
  destruct (get_icloud_file_status_inv _ _ _ _ Hget) as [attrs [Hl _]].
  destruct (get_icloud_file_status_frame _ _ _ _ _ Hl Hget) as (_ & _ & Hsz).
  rewrite Hsz. unfold initial_status, os_path_getsize. rewrite Hf. reflexivity.
Qed.

Lemma status_listable env fs p f st :
  fs !! p = Some f ->
  get_icloud_file_status env fs p = Return (Some st) ->
  f_listxattr_error f = None.
Proof.
  intros Hf Hget.
  destruct (get_icloud_file_status_inv _ _ _ _ Hget) as [attrs [Hl _]].
  unfold xattr_listxattr in Hl. rewrite Hf in Hl.
  destruct (f_listxattr_error f); [discriminate | reflexivity].
Qed.

(** Once the policy attributes are on a file, the verifier confirms
    against the file's own size. *)
Lemma verify_eviction_after_policy_writes env fs p f :
  (forall s fs0, time_sleep env s fs0 = fs0) ->
  fs !! p = Some f ->
  f_listxattr_error f = None ->
  0 <= f_size f < 2 ^ 53 ->
  let fs' := <[p := with_xattrs f (apply_writes policy_attributes (f_xattrs f))]> fs in
  fst (value_of (verify_eviction env p (Some (f_size f)) fs')) = true.
Proof.
  intros Hsleep Hf Hl Hsize fs'.
  set (f' := with_xattrs f (apply_writes policy_attributes (f_xattrs f))).
  assert (fs' !! p = Some f') as Hf' by apply lookup_insert_eq.
  assert (forall attr, is_Some (last_write policy_attributes attr) ->
            exists attrs,
              xattr_listxattr fs' p = Return attrs /\ attr ∈ attrs) as Hnames.
  { intros attr [v Hv].
    destruct (listed_names fs' p f' attr Hf' Hl) as [attrs [Hls Hin]].
    exists attrs. split; [exact Hls|]. apply Hin.
    unfold f'. cbn [f_xattrs with_xattrs].
    rewrite lookup_apply_writes, Hv. eauto. }
  destruct (Hnames "com.apple.file-provider.placeholder"
              ltac:(vm_compute; eauto)) as [attrs [Hls Hph]].
  destruct (Hnames "com.apple.file-provider.materialized"
              ltac:(vm_compute; eauto)) as [attrs' [Hls' Hmat]].
  destruct (Hnames "com.apple.file-provider.evicted"
              ltac:(vm_compute; eauto)) as [attrs'' [Hls'' Hev]].
  rewrite Hls in Hls', Hls''. injection Hls' as <-. injection Hls'' as <-.
  destruct (get_icloud_file_status env fs' p) as [[st|]|e] eqn:Hget.
  3: { exfalso. exact (get_icloud_file_status_never_raises _ _ _ _ Hget). }
  2: { unfold get_icloud_file_status in Hget. rewrite Hls in Hget.
       cbv zeta in Hget. destruct (negb _) in Hget; discriminate. }
  destruct (get_icloud_file_status_frame _ _ _ _ _ Hls Hget) as (Ha & _ & _).
  pose proof (status_size env fs' p f' st Hf' Hget) as Hsz.
  change (f_size f') with (f_size f) in Hsz.
  rewrite (verify_eviction_verdict env fs' p (Some (f_size f)) st).
  2: { rewrite Hsleep. exact Hget. }
  2: { intros n Hn. injection Hn as <-. exact Hsize. }
  rewrite Ha, Hsz.
  assert (existsb (fun attr => name_in attr attrs) materialized_attrs = true)
    as ->.
  { apply existsb_name_in. exists "com.apple.file-provider.materialized".
    split; [left | exact Hmat]. }
  assert (existsb (fun attr => name_in attr attrs) policy_attrs = true) as ->.
  { apply existsb_name_in. exists "com.apple.file-provider.evicted".
    split; [|exact Hev]. unfold policy_attrs. rewrite !elem_of_cons. tauto. }
  rewrite bool_decide_eq_true_2 by reflexivity.
  destruct (Z_le_gt_dec (f_size f) 1024) as [Hsmall|Hbig].
  - destruct (placeholder_indicator_forces env fs' p st
                "com.apple.file-provider.placeholder" Hget)
      as (_ & Hp & _).
    + right. left.
    + rewrite Ha. exact Hph.
    + lia.
    + rewrite Hp. reflexivity.
  - assert (truthy (Some (f_size f)) = true) as ->.
    { cbn. apply negb_true_iff, Z.eqb_neq. lia. }
    cbn [andb negb]. rewrite !orb_true_r. reflexivity.
Qed.

Section NothingEvicts.

Context (env : Env).
Hypothesis Htools : forall c fs0, subprocess_run env c fs0 = (NotInstalled, fs0).
Hypothesis Hsleep : forall s fs0, time_sleep env s fs0 = fs0.

Lemma remove_download_brctl_not_installed p fs :
  remove_download_brctl env p fs = (false, fs, []).
Proof.
  unfold remove_download_brctl, run. step_eff.
  destruct (os_path_exists fs (abspath env p)); cbn [negb]; [|reflexivity].
  rewrite Htools. reflexivity.
Qed.

Lemma remove_download_applescript_not_installed p fs :
  remove_download_applescript env p fs = (false, fs, []).
Proof.
  unfold remove_download_applescript, run. step_eff.
  destruct (os_path_exists fs (abspath env p)); cbn [negb]; [|reflexivity].
  rewrite Htools. reflexivity.
Qed.

Lemma prevent_auto_redownload_in_place p fs f :
  fs !! abspath env p = Some f ->
  f_xattr_locked f = false ->
  let fs' :=
    <[abspath env p :=
        with_xattrs f (apply_writes policy_attributes (f_xattrs f))]> fs in
  prevent_auto_redownload env p fs' = (true, fs', []).
Proof.
  intros Hf Hu fs'.
  rewrite (prevent_auto_redownload_writable env p fs'
             (with_xattrs f (apply_writes policy_attributes (f_xattrs f))));
    [|apply lookup_insert_eq | exact Hu].
  rewrite Htools. cbn [snd]. unfold fs'.
  rewrite insert_insert_eq. cbn [f_xattrs with_xattrs].
  rewrite apply_writes_twice. reflexivity.
Qed.

(** The loop on a machine where nothing evicts. *)
Lemma try_methods_self_confirms abs_path fs f :
  abspath env abs_path = abs_path ->
  fs !! abs_path = Some f ->
  f_xattr_locked f = false ->
  f_listxattr_error f = None ->
  0 <= f_size f < 2 ^ 53 ->
  try_methods env abs_path (f_size f) (methods env) fs
  = (true,
     <[abs_path := with_xattrs f (apply_writes policy_attributes (f_xattrs f))]> fs,
     [ EvStrategy Brctl false; EvStrategy AppleScript false;
       EvStrategy Xattr true; EvPolicy; EvSleep 2; EvVerify true;
       EvReport (EvictedUsing Xattr); EvPolicy ]).
Proof.
  intros Habs Hf Hu Hl Hsize.
  set (fs' := <[abs_path := with_xattrs f
                              (apply_writes policy_attributes (f_xattrs f))]> fs).
  assert (fs !! abspath env abs_path = Some f) as Hf' by (rewrite Habs; exact Hf).
  pose proof (remove_download_xattr_writable env abs_path fs f Hf' Hu) as Hx.
  pose proof (prevent_auto_redownload_in_place abs_path fs f Hf' Hu) as Hp.
  cbv zeta in Hp. rewrite Habs in Hx, Hp. fold fs' in Hx, Hp.
  pose proof (verify_eviction_after_policy_writes env fs abs_path f
                Hsleep Hf Hl Hsize) as Hv.
  cbv zeta in Hv. fold fs' in Hv.
  pose proof (verify_eviction_fs env abs_path (Some (f_size f)) fs') as Hvfs.
  pose proof (verify_eviction_trace env abs_path (Some (f_size f)) fs') as Hvtr.
  rewrite Hsleep in Hvfs.
  unfold methods. cbn [try_methods]. unfold bind, emit, ret.
  rewrite remove_download_brctl_not_installed.
  rewrite remove_download_applescript_not_installed.
  rewrite Hx. cbv beta iota zeta. rewrite Hp.
  destruct (verify_eviction env abs_path (Some (f_size f)) fs')
    as [[[verdict why] fs2] t2].
  unfold value_of, fs_of, trace_of in Hv, Hvfs, Hvtr. cbn [fst snd] in Hv, Hvfs, Hvtr.
  subst verdict fs2 t2. cbn [fst]. rewrite Hp. reflexivity.
Qed.

End NothingEvicts.

(** X21.  Where no tool is installed and nothing happens while the
    program sleeps, the orchestrator still reports every downloaded
    cloud file with writable attributes as evicted by the attribute
    strategy: the attributes that the strategy writes are what the
    verifier then takes as confirmation.  Size and content of the file
    are as before. *)
Theorem orchestrator_confirms_its_own_writes env file_path fs f st :
  (forall c fs0, subprocess_run env c fs0 = (NotInstalled, fs0)) ->
  (forall s fs0, time_sleep env s fs0 = fs0) ->
  abspath env (abspath env file_path) = abspath env file_path ->
  fs !! abspath env file_path = Some f ->
  f_xattr_locked f = false ->
  0 <= f_size f < 2 ^ 53 ->
  get_icloud_file_status env fs (abspath env file_path) = Return (Some st) ->
  is_icloud_file st = true ->
  is_downloaded st = true ->
  remove_download_smart env file_path fs
  = (Return true,
     <[abspath env file_path :=
         with_xattrs f (apply_writes policy_attributes (f_xattrs f))]> fs,
     [ EvStrategy Brctl false; EvStrategy AppleScript false;
       EvStrategy Xattr true; EvPolicy; EvSleep 2; EvVerify true;
       EvReport (EvictedUsing Xattr); EvPolicy ]).
Proof.
  intros Htools Hsleep Habs Hf Hu Hsize Hget Hc Hd.
  pose proof (status_listable env fs _ f st Hf Hget) as Hl.
  pose proof (status_size env fs _ f st Hf Hget) as Hsz.
  unfold remove_download_smart. step_eff.
  rewrite (lookup_exists _ _ _ Hf). cbn [negb].
  rewrite Hget, Hc. cbn [negb]. rewrite Hd. cbn [negb]. rewrite Hsz.
  rewrite (try_methods_self_confirms env Htools Hsleep _ fs f Habs Hf Hu Hl Hsize).
  reflexivity.
Qed.

Lemma orchestrator_confirms_its_own_writes_witness :
  value_of (remove_download_smart ex_env ex_cloud_path ex_fs_readable)
  = Return true.
Proof.
  erewrite (orchestrator_confirms_its_own_writes ex_env ex_cloud_path
              ex_fs_readable).
  - reflexivity.
  - intros c fs0. reflexivity.
  - intros s fs0. reflexivity.
  - reflexivity.
  - vm_compute. reflexivity.
  - reflexivity.
  - vm_compute. split; [discriminate | reflexivity].
  - vm_compute. reflexivity.
  - reflexivity.
  - reflexivity.
Defined.

(** ** The walk of [main.py] *)

Lemma is_icloud_file_evicted_returns fs p :
  exists answer, is_icloud_file_evicted fs p = Return answer.
Proof.
  unfold is_icloud_file_evicted, os_stat_size, os_path_getsize.
  destruct (os_path_exists fs p) eqn:Hex; cbn [negb]; [|eauto].
  destruct (exists_lookup _ _ Hex) as [f ->]. eauto.
Qed.

Lemma evict_music_in_idle env root files fs :
  (forall file, file ∈ files -> has_music_extension file = true ->
     is_icloud_file_evicted fs (PosixPath.join root file) = Return true) ->
  evict_music_in env root files fs = (Return tt, fs, []).
Proof.
  induction files as [|file rest IH]; intros Hdone; [reflexivity|].
  assert (evict_music_in env root rest fs = (Return tt, fs, [])) as Hrest
    by (apply IH; intros file' Hin; apply Hdone; now right).
  cbn [evict_music_in].
  destruct (has_music_extension file) eqn:Hm; [|exact Hrest].
  cbv zeta. unfold bind, look.
  rewrite (Hdone file ltac:(left) Hm), Hrest. reflexivity.
Qed.

(** X22.  A walk in which every file with a music extension is already
    evicted runs no command and changes nothing, whatever the tools
    would do; files without a music extension are never looked at. *)
Theorem evicted_music_files_are_left_alone env walk fs :
  (forall root files file,
      (root, files) ∈ walk -> file ∈ files ->
      has_music_extension file = true ->
      is_icloud_file_evicted fs (PosixPath.join root file) = Return true) ->
  find_and_evict_music_files env walk fs = (Return tt, fs, []).
Proof.
  induction walk as [|[root files] rest IH]; intros Hdone; [reflexivity|].
  cbn [find_and_evict_music_files]. unfold bind.
  rewrite (evict_music_in_idle env root files fs)
    by (intros file Hin; apply (Hdone root files file); [left | exact Hin]).
  rewrite IH; [reflexivity|].
  intros root' files' file Hin. apply Hdone. now right.
Qed.

Lemma evicted_music_files_are_left_alone_witness :
  find_and_evict_music_files ex_env
    [("/Users/u/Library/Mobile Documents/com~apple~CloudDocs",
      ["song.mp3"; "cover.jpg"])]
    ex_fs_sidecar
  = (Return tt, ex_fs_sidecar, []).
Proof.
  apply evicted_music_files_are_left_alone.
  intros root files file Hw Hf Hm.
  apply list_elem_of_singleton in Hw. injection Hw as -> ->.
  rewrite !elem_of_cons, elem_of_nil in Hf.
  destruct Hf as [->|[->|[]]].
  - vm_compute. reflexivity.
  - vm_compute in Hm. discriminate Hm.
Defined.

Section MissingTool.

Context (env : Env).
Hypothesis Hmissing :
  forall p fs0, subprocess_run env (brctl_evict p) fs0 = (NotInstalled, fs0).

Lemma evict_music_in_missing_tool root files fs :
  (evict_music_in env root files fs = (Return tt, fs, []) /\
   forall file, file ∈ files -> has_music_extension file = true ->
                is_icloud_file_evicted fs (PosixPath.join root file) = Return true)
  \/
  (evict_music_in env root files fs = (Raise ENOENT, fs, []) /\
   exists file, file ∈ files /\ has_music_extension file = true /\
                is_icloud_file_evicted fs (PosixPath.join root file) = Return false).
Proof.
  induction files as [|file rest IH].
  - left. split; [reflexivity|]. intros file H. inversion H.
  - cbn [evict_music_in].
    destruct (has_music_extension file) eqn:Hm.
    + cbv zeta. unfold bind, look.
      destruct (is_icloud_file_evicted_returns fs (PosixPath.join root file))
        as [[|] Hev]; rewrite Hev.
      * destruct IH as [[Heq Hall]|[Heq [file' (Hin & Hm' & Hev')]]]; rewrite Heq.
        -- left. split; [reflexivity|].
           intros file' Hin Hm'. apply elem_of_cons in Hin as [->|Hin];
             [exact Hev | exact (Hall file' Hin Hm')].
        -- right. split; [reflexivity|]. exists file'.
           split; [now right | tauto].
      * right. unfold evict_icloud_file, bind, run, ret.
        rewrite Hmissing. split; [reflexivity|].
        exists file. split; [left | tauto].
    + destruct IH as [[Heq Hall]|[Heq [file' (Hin & Hm' & Hev')]]].
      * left. split; [exact Heq|].
        intros file' Hin Hm'. apply elem_of_cons in Hin as [->|Hin];
          [congruence | exact (Hall file' Hin Hm')].
      * right. split; [exact Heq|]. exists file'. split; [now right | tauto].
Qed.

Lemma walk_missing_tool walk fs :
  (find_and_evict_music_files env walk fs = (Return tt, fs, []) /\
   forall root files file,
     (root, files) ∈ walk -> file ∈ files -> has_music_extension file = true ->
     is_icloud_file_evicted fs (PosixPath.join root file) = Return true)
  \/
  (find_and_evict_music_files env walk fs = (Raise ENOENT, fs, []) /\
   exists root files file,
     (root, files) ∈ walk /\ file ∈ files /\ has_music_extension file = true /\
     is_icloud_file_evicted fs (PosixPath.join root file) = Return false).
Proof.
  induction walk as [|[root files] rest IH].
  - left. split; [reflexivity|]. intros root files file H. inversion H.
  - cbn [find_and_evict_music_files]. unfold bind.
    destruct (evict_music_in_missing_tool root files fs)
      as [[Heq Hall]|[Heq [file (Hin & Hm & Hev)]]]; rewrite Heq.
    + destruct IH as [[Heq' Hall']|[Heq' (root' & files' & file' & Hw & Hin & Hm & Hev)]];
        rewrite Heq'.
      * left. split; [reflexivity|].
        intros root' files' file' Hw Hin Hm.
        apply elem_of_cons in Hw as [Hw|Hw].
        -- injection Hw as -> ->. exact (Hall file' Hin Hm).
        -- exact (Hall' root' files' file' Hw Hin Hm).
      * right. split; [reflexivity|]. exists root', files', file'.
        split; [now right | tauto].
    + right. split; [reflexivity|]. exists root, files, file.
      split; [left | tauto].
Qed.

End MissingTool.

(** X23.  Where [brctl] is not installed, [find_and_evict_music_files]
    ends with the uncaught [FileNotFoundError] of [subprocess.run]
    exactly when the walk contains a file with a music extension that
    is not evicted yet; otherwise it returns normally.  Either way the
    file system is untouched. *)
Theorem missing_brctl_aborts_the_walk env walk fs :
  (forall p fs0, subprocess_run env (brctl_evict p) fs0 = (NotInstalled, fs0)) ->
  fs_of (find_and_evict_music_files env walk fs) = fs /\
  (value_of (find_and_evict_music_files env walk fs) = Raise ENOENT <->
   exists root files file,
     (root, files) ∈ walk /\ file ∈ files /\ has_music_extension file = true /\
     is_icloud_file_evicted fs (PosixPath.join root file) = Return false) /\
  (value_of (find_and_evict_music_files env walk fs) = Return tt <->
   forall root files file,
     (root, files) ∈ walk -> file ∈ files -> has_music_extension file = true ->
     is_icloud_file_evicted fs (PosixPath.join root file) = Return true).
Proof.
  intros Hmissing.
  destruct (walk_missing_tool env Hmissing walk fs)
    as [[Heq Hall]|[Heq (root & files & file & Hw & Hin & Hm & Hev)]];
    rewrite Heq; unfold fs_of, value_of; cbn [fst snd].
  - split; [reflexivity|]. split.
    + split; [discriminate|].
      intros (root & files & file & Hw & Hin & Hm & Hev).
      rewrite (Hall root files file Hw Hin Hm) in Hev. discriminate.
    + split; [intros _; exact Hall | reflexivity].
  - split; [reflexivity|]. split.
    + split; [|reflexivity]. intros _. exists root, files, file. tauto.
    + split; [discriminate|]. intros Hall.
      rewrite (Hall root files file Hw Hin Hm) in Hev. discriminate.
Qed.

Lemma missing_brctl_aborts_the_walk_witness :
  value_of (find_and_evict_music_files ex_env
              [("/Users/u/Library/Mobile Documents/com~apple~CloudDocs",
                ["cover.jpg"; "Song.MP3"])]
              ex_fs_small)
  = Raise ENOENT.
Proof.
  apply (missing_brctl_aborts_the_walk ex_env).
  - intros p fs0. reflexivity.
  - exists "/Users/u/Library/Mobile Documents/com~apple~CloudDocs",
      ["cover.jpg"; "Song.MP3"], "Song.MP3".
    split; [left|]. split; [right; left|].
    split; vm_compute; reflexivity.
Defined.

(** ** The finder *)



(** The two functions part ways on a listed folder: the single-file
    check accepts a folder that carries a materialized attribute, the
    finder skips it because it is not a file. *)
Example finder_skips_listed_folder :
  is_icloud_file_downloaded ex_env ex_fs_folder ex_folder_path = true /\
  find_downloaded_icloud_files ex_env (fun _ _ => false) ex_fs_folder
    (Some [ex_folder_path])
  = Return [].
Proof. vm_compute. split; reflexivity. Qed.
